(** * AMS-attendance: timetable extraction and schedule import

    A shallow embedding of the schedule extractors and importers of the
    repository (import_schedule_smart.py, import_complete_schedules.py,
    import_remaining_floors.py, import_schedule_from_pdf.py) and of the
    delete guards of app.py, followed by the properties proved about them.
    The embedding goes on with the loop of import_all_floors.py, the
    checks of check_missing_sessions.py and verify_database.py, and the
    attendance routes and the class page of app.py.

    Conventions of the embedding.
    - A Python [str] is a [string]; its characters are the code points
      0..255 (the Latin-1 part of Unicode), on which [str.strip] and
      [str.lower] act character by character.
    - A value that may be [None] is an [option].
    - A table of the store is the list of its rows in insertion order;
      [Query.first()] is the first row of that list that passes the filter.
    - [db.session.add(x); db.session.commit()] either appends the row or
      raises (a NOT NULL column given [None]); a raised exception leaves the
      committed rows as they were.
    - An [int] is a [nat].  SQLite holds an INTEGER on 64 bits: the
      look-up of a Schedule row by the day of an entry raises
      (OverflowError) when the day is 2**63 or more.  A floor number is
      one the store can hold: a larger one makes a script raise before its
      loop, which is not modelled.
    - A dict of an extractor is a record of its keys.  The key is_free is
      written by the complete extractor alone; reading it from a dict
      that lacks it raises (KeyError). *)

From Stdlib Require Import List String Ascii Bool Arith Lia DecimalString.
From Stdlib Require Import ZArith NArith.
Import ListNotations.
Open Scope string_scope.
Open Scope bool_scope.

(* ===================================================================== *)
(** ** Python string primitives used by the scripts *)
(* ===================================================================== *)

Module PyStr.

(** The line feed, the separator of [str.split('\n')]. *)
Definition LF : ascii := "010"%char.
Definition nl : string := String LF "".

(** [ch.isspace()] on code points below 256: TAB..CR, FS..US, space,
    NEL and the no-break space. *)
Definition is_space (c : ascii) : bool :=
  let n := nat_of_ascii c in
  ((9 <=? n) && (n <=? 13) || (28 <=? n) && (n <=? 32)
   || (n =? 133) || (n =? 160))%nat.

(** [s.lstrip()] *)
Fixpoint lstrip (s : string) : string :=
  match s with
  | EmptyString => EmptyString
  | String c s' => if is_space c then lstrip s' else s
  end.

(** [s.rstrip()] *)
Fixpoint rstrip (s : string) : string :=
  match s with
  | EmptyString => EmptyString
  | String c s' =>
      let r := rstrip s' in
      if is_space c && (r =? "") then EmptyString else String c r
  end.

(** [s.strip()] *)
Definition strip (s : string) : string := lstrip (rstrip s).

(** [ch.lower()] on code points below 256: A..Z and the accented
    capitals U+00C0..U+00DE (the multiplication sign U+00D7 apart). *)
Definition lower_char (c : ascii) : ascii :=
  let n := nat_of_ascii c in
  if ((65 <=? n) && (n <=? 90)
      || (192 <=? n) && (n <=? 222) && negb (n =? 215))%nat
  then ascii_of_nat (n + 32) else c.

(** [s.lower()] *)
Fixpoint lower (s : string) : string :=
  match s with
  | EmptyString => EmptyString
  | String c s' => String (lower_char c) (lower s')
  end.

(** [kw in s] *)
Fixpoint str_in (kw s : string) : bool :=
  String.prefix kw s
  || match s with
     | EmptyString => false
     | String _ s' => str_in kw s'
     end.

(** [s.startswith(p)] *)
Definition startswith (s p : string) : bool := String.prefix p s.

(** [s.split('\n')]: never empty, one more piece than line feeds. *)
Fixpoint split_nl (s : string) : list string :=
  match s with
  | EmptyString => [EmptyString]
  | String c s' =>
      if Ascii.eqb c LF then EmptyString :: split_nl s'
      else match split_nl s' with
           | [] => [String c EmptyString]
           | l :: ls => String c l :: ls
           end
  end.

(** [sep.join(parts)] *)
Definition join (sep : string) (parts : list string) : string :=
  String.concat sep parts.

(** Truth value of a [str]: the empty string is falsy. *)
Definition truthy (s : string) : bool := negb (s =? "").

(** Truth value of an optional [str]: [None] and [''] are falsy. *)
Definition truthy_opt (o : option string) : bool :=
  match o with
  | None => false
  | Some s => truthy s
  end.

(** A string made of white space only (the empty string included). *)
Fixpoint all_space (s : string) : bool :=
  match s with
  | EmptyString => true
  | String c s' => is_space c && all_space s'
  end.

(** [[line.strip() for line in text.split('\n') if line.strip()]] *)
Definition nbl (pieces : list string) : list string :=
  map strip (filter (fun line => truthy (strip line)) pieces).

Definition nonblank_lines (text : string) : list string :=
  nbl (split_nl text).

End PyStr.

(* ===================================================================== *)
(** ** Data shared by the scripts *)
(* ===================================================================== *)

Module Timetable.
Import PyStr.

(** [datetime.time(hour, minute)] *)
Record time : Type := mk_time { hour : nat; minute : nat }.

Definition time_eqb (a b : time) : bool :=
  ((hour a =? hour b) && (minute a =? minute b))%nat.

(** A grid cell is a text or [None]; a table is a list of rows. *)
Definition cell : Type := option string.
Definition row : Type := list cell.
Definition table : Type := list row.

(** What the document collaborator hands over for one page:
    [page.extract_tables()] and [page.extract_text()]. *)
Record page : Type := mk_page {
  page_tables : list table;
  page_text : option string
}.

(** One raw schedule entry, the dict built by the extractors.  A key
    holds [None] where the dict does.  The key is_free is there in the
    dicts of the complete extractor only: [e_free] is its value, [None]
    where the dict has no such key.  The keys no importer reads (floor,
    page, raw_row) are left out. *)
Record entry : Type := entry_dict {
  e_class_name : option string;
  e_day : option nat;
  e_day_name : string;
  e_start_time : option time;
  e_end_time : option time;
  e_subject : option string;
  e_teacher : option string;
  e_period : string;
  e_free : option bool
}.

(** Whether the entry is marked as a free period: the value under
    is_free, [False] for a dict without the key. *)
Definition e_is_free (e : entry) : bool :=
  match e_free e with
  | Some is_free => is_free
  | None => false
  end.

(** The dict that holds every key, is_free among them. *)
Definition mk_entry (class_name : option string) (day : option nat)
           (day_name : string) (start_time end_time : option time)
           (subject teacher : option string) (period : string)
           (is_free : bool) : entry :=
  entry_dict class_name day day_name start_time end_time subject teacher
             period (Some is_free).

(** [DAY_MAPPING], in the order of the dict literal. *)
Definition DAY_MAPPING : list (string * nat) :=
  [("sunday", 6); ("monday", 0); ("tuesday", 1); ("wednesday", 2);
   ("thursday", 3); ("friday", 4); ("saturday", 5)].

(** [TIME_PERIODS] *)
Definition TIME_PERIODS : list (string * (string * string)) :=
  [("1", ("08:30", "09:05")); ("2", ("09:05", "09:40"));
   ("3", ("09:40", "10:20")); ("4", ("10:20", "11:00"));
   ("5", ("11:00", "11:40")); ("6", ("11:40", "12:20"));
   ("7", ("12:20", "13:00")); ("8", ("13:00", "13:40"));
   ("9", ("13:40", "14:15")); ("10", ("14:15", "14:50"))].

(** The literal ['1', ..., '10'] the loops run over. *)
Definition period_nums : list string :=
  ["1"; "2"; "3"; "4"; "5"; "6"; "7"; "8"; "9"; "10"].

(** [d.get(key)] on a dict given as its item list. *)
Definition dict_get {V : Type} (d : list (string * V)) (key : string)
  : option V :=
  option_map snd (find (fun kv => fst kv =? key) d).

Definition digit_of (c : ascii) : option nat :=
  let n := nat_of_ascii c in
  if ((48 <=? n) && (n <=? 57))%nat then Some (n - 48) else None.

Fixpoint digits_value (acc : nat) (s : string) : option nat :=
  match s with
  | EmptyString => Some acc
  | String c s' =>
      match digit_of c with
      | Some d => digits_value (10 * acc + d) s'
      | None => None
      end
  end.

(** [int(s)] on a run of decimal digits; any other text is [None] (a
    [ValueError], or a literal form the catalogue never uses). *)
Definition int_of_str (s : string) : option nat :=
  match s with
  | EmptyString => None
  | _ => digits_value 0 s
  end.

(** [s.split(':')] *)
Fixpoint split_colon (s : string) : list string :=
  match s with
  | EmptyString => [EmptyString]
  | String c s' =>
      if Ascii.eqb c ":"%char then EmptyString :: split_colon s'
      else match split_colon s' with
           | [] => [String c EmptyString]
           | l :: ls => String c l :: ls
           end
  end.

(** [parse_time]: [h, m = map(int, time_str.split(':'))] then
    [time(h, m)]; every exception gives [None]. *)
Definition parse_time (time_str : string) : option time :=
  match split_colon time_str with
  | [h; m] =>
      match int_of_str h, int_of_str m with
      | Some h, Some m =>
          if ((h <? 24) && (m <? 60))%nat then Some (mk_time h m) else None
      | _, _ => None
      end
  | _ => None
  end.

(** [str(cell)] of a cell known to be truthy. *)
Definition str (c : cell) : string :=
  match c with
  | Some s => s
  | None => "None"
  end.

(** Truth value of a list. *)
Definition nonempty {A : Type} (l : list A) : bool :=
  match l with
  | [] => false
  | _ :: _ => true
  end.

(** The entries a loop appends: its body gives the entry, or [None]
    where it says [continue]. *)
Fixpoint keep_some {A B : Type} (f : A -> option B) (l : list A) : list B :=
  match l with
  | [] => []
  | a :: rest =>
      match f a with
      | Some b => b :: keep_some f rest
      | None => keep_some f rest
      end
  end.

(** The class name of a row, or [None] where the row loop says
    [continue]: an empty row, a falsy first cell, a name of fewer than
    two characters once stripped. *)
Definition class_name_of (r : row) : option string :=
  match r with
  | [] => None
  | first :: _ =>
      if negb (truthy_opt first) then None
      else
        let class_name := strip (str first) in
        if negb (truthy class_name) || (String.length class_name <? 2)%nat
        then None
        else Some class_name
  end.

End Timetable.

(* ===================================================================== *)
(** ** The persistent store (the models of app.py) *)
(* ===================================================================== *)

Module Store.
Import PyStr Timetable.

(** The rows.  Every column the models declare [nullable=False] is a
    plain value here: a stored row never holds [None]. *)
Record Floor : Type := mk_floor {
  floor_id : nat;
  floor_name : string;
  floor_number : nat
}.

Record Class : Type := mk_class {
  class_id : nat;
  class_name : string;
  class_floor_id : nat
}.

Record Teacher : Type := mk_teacher {
  teacher_id : nat;
  teacher_name : string
}.

Record Subject : Type := mk_subject {
  subject_id : nat;
  subject_name : string
}.

Record Schedule : Type := mk_schedule {
  schedule_id : nat;
  schedule_class_id : nat;
  schedule_teacher_id : nat;
  schedule_subject_id : nat;
  day_of_week : nat;
  start_time : time;
  end_time : time
}.

(** The committed rows, each table in insertion order. *)
Record DB : Type := mk_db {
  floors : list Floor;
  classes : list Class;
  teachers : list Teacher;
  subjects : list Subject;
  schedules : list Schedule
}.

(** The integer primary key given to a new row: one more than the
    largest in the table. *)
Definition next_id (ids : list nat) : nat := S (fold_right Nat.max 0 ids).

(** [f'الطابق {floor_number}'], the label as its UTF-8 bytes. *)
Definition floor_label (floor_number : nat) : string :=
  "الطابق " ++ NilZero.string_of_uint (Nat.to_uint floor_number).

(** *** Computations over the store

    A step of a script runs on the committed rows and the [stats] dict;
    it ends with a value, with [continue], or with an exception. *)
Inductive outcome (A : Type) : Type :=
| Value (a : A)
| Continue
| Raised.
Arguments Value {A} a.
Arguments Continue {A}.
Arguments Raised {A}.

Definition M (St A : Type) : Type := DB * St -> (DB * St) * outcome A.

Definition ret {St A} (a : A) : M St A := fun s => (s, Value a).

Definition bind {St A B} (m : M St A) (k : A -> M St B) : M St B :=
  fun s =>
    match m s with
    | (s', Value a) => k a s'
    | (s', Continue) => (s', Continue)
    | (s', Raised) => (s', Raised)
    end.

Declare Scope store_scope.
Delimit Scope store_scope with store.
Notation "x <- m ;; k" := (bind m (fun x => k))
  (at level 61, m at next level, right associativity) : store_scope.
Notation "m ;; k" := (bind m (fun _ => k))
  (at level 61, right associativity) : store_scope.

(** [continue] *)
Definition continue {St A} : M St A := fun s => (s, Continue).

(** [raise] *)
Definition raise {St A} : M St A := fun s => (s, Raised).

(** A read of the committed rows. *)
Definition query {St A} (q : DB -> A) : M St A := fun s => (s, Value (q (fst s))).

(** An update of the [stats] dict. *)
Definition update_stats {St} (f : St -> St) : M St unit :=
  fun s => ((fst s, f (snd s)), Value tt).

(** [try: body / except Exception: handler]: the loop goes on after a
    value, a [continue] and a handled exception alike. *)
Definition try_except {St} (body : M St unit) (handler : DB * St -> DB * St)
  : DB * St -> DB * St :=
  fun s =>
    match body s with
    | (s', Raised) => handler s'
    | (s', _) => s'
    end.

(** [db.session.rollback()]: the write that failed was never committed,
    the committed rows stay. *)
Definition rollback {St} (s : DB * St) : DB * St := s.

(** [for entry in schedules: step] *)
Definition for_each {St A} (step : A -> DB * St -> DB * St) (l : list A)
  : DB * St -> DB * St :=
  fun s => fold_left (fun s a => step a s) l s.

(** *** Queries: [Model.query.filter_by(...).first()]

    A filter on [None] is [IS NULL], which no stored row passes. *)
Definition first_floor (number : nat) (db : DB) : option Floor :=
  find (fun f => (floor_number f =? number)%nat) (floors db).

Definition first_class (name : option string) (floor_id : nat) (db : DB)
  : option Class :=
  match name with
  | None => None
  | Some name =>
      find (fun c => (class_name c =? name)
                     && (class_floor_id c =? floor_id)%nat) (classes db)
  end.

Definition first_teacher (name : option string) (db : DB) : option Teacher :=
  match name with
  | None => None
  | Some name => find (fun t => teacher_name t =? name) (teachers db)
  end.

Definition first_subject (name : option string) (db : DB) : option Subject :=
  match name with
  | None => None
  | Some name => find (fun s => subject_name s =? name) (subjects db)
  end.

Definition first_schedule (class_id : nat) (day : option nat)
           (start_t end_t : option time) (db : DB) : option Schedule :=
  match day, start_t, end_t with
  | Some day, Some start_t, Some end_t =>
      find (fun s => (schedule_class_id s =? class_id)%nat
                     && (day_of_week s =? day)%nat
                     && time_eqb (start_time s) start_t
                     && time_eqb (end_time s) end_t) (schedules db)
  | _, _, _ => None
  end.

(** SQLite holds an INTEGER on 64 bits, with a sign: bound to a query,
    an [int] of 2**63 or more makes the driver raise OverflowError. *)
Definition fits_integer (n : nat) : bool := (N.of_nat n <? 2 ^ 63)%N.

(** [Schedule.query.filter_by(class_id=..., day_of_week=..., start_time=...,
    end_time=...).first()] as the importers run it, on the day of an entry:
    the look-up raises when the day does not fit. *)
Definition find_schedule {St} (class_id : nat) (day : option nat)
           (start_t end_t : option time) : M St (option Schedule) :=
  match day with
  | Some d =>
      if fits_integer d
      then query (first_schedule class_id day start_t end_t)
      else raise
  | None => query (first_schedule class_id day start_t end_t)
  end.

(** [entry[key]] for a key the dict may lack: KeyError without it. *)
Definition item {St A} (value : option A) : M St A :=
  match value with
  | Some a => ret a
  | None => raise
  end.

(** *** Writes: [db.session.add(row); db.session.commit()]

    The commit raises when a [nullable=False] column is given [None]. *)
Definition commit_floor {St} (name : string) (number : nat) : M St Floor :=
  fun s =>
    let db := fst s in
    let f := mk_floor (next_id (map floor_id (floors db))) name number in
    ((mk_db (floors db ++ [f]) (classes db) (teachers db) (subjects db)
            (schedules db), snd s), Value f).

Definition commit_class {St} (name : option string) (floor_id : nat)
  : M St Class :=
  fun s =>
    let db := fst s in
    match name with
    | None => (s, Raised)
    | Some name =>
        let c := mk_class (next_id (map class_id (classes db))) name floor_id in
        ((mk_db (floors db) (classes db ++ [c]) (teachers db) (subjects db)
                (schedules db), snd s), Value c)
    end.

Definition commit_teacher {St} (name : option string) : M St Teacher :=
  fun s =>
    let db := fst s in
    match name with
    | None => (s, Raised)
    | Some name =>
        let t := mk_teacher (next_id (map teacher_id (teachers db))) name in
        ((mk_db (floors db) (classes db) (teachers db ++ [t]) (subjects db)
                (schedules db), snd s), Value t)
    end.

Definition commit_subject {St} (name : option string) : M St Subject :=
  fun s =>
    let db := fst s in
    match name with
    | None => (s, Raised)
    | Some name =>
        let x := mk_subject (next_id (map subject_id (subjects db))) name in
        ((mk_db (floors db) (classes db) (teachers db) (subjects db ++ [x])
                (schedules db), snd s), Value x)
    end.

Definition commit_schedule {St} (class_id teacher_id subject_id : nat)
           (day : option nat) (start_t end_t : option time) : M St Schedule :=
  fun s =>
    let db := fst s in
    match day, start_t, end_t with
    | Some day, Some start_t, Some end_t =>
        let x := mk_schedule (next_id (map schedule_id (schedules db)))
                             class_id teacher_id subject_id day start_t end_t in
        ((mk_db (floors db) (classes db) (teachers db) (subjects db)
                (schedules db ++ [x]), snd s), Value x)
    | _, _, _ => (s, Raised)
    end.

(** *** Get-or-create, the block each importer repeats for a floor, a
    class, a teacher and a subject; [created] is the bookkeeping the
    importer does after the commit of a new row. *)
Definition get_or_create_floor {St} (floor_number : nat) : M St Floor :=
  (floor <- query (first_floor floor_number) ;;
   match floor with
   | Some floor => ret floor
   | None => commit_floor (floor_label floor_number) floor_number
   end)%store.

Definition get_or_create_class {St} (name : option string) (floor_id : nat)
           (created : string -> St -> St) : M St Class :=
  (class_room <- query (first_class name floor_id) ;;
   match class_room with
   | Some class_room => ret class_room
   | None =>
       class_room <- commit_class name floor_id ;;
       update_stats (created (class_name class_room)) ;;
       ret class_room
   end)%store.

Definition get_or_create_teacher {St} (name : option string)
           (created : string -> St -> St) : M St Teacher :=
  (teacher <- query (first_teacher name) ;;
   match teacher with
   | Some teacher => ret teacher
   | None =>
       teacher <- commit_teacher name ;;
       update_stats (created (teacher_name teacher)) ;;
       ret teacher
   end)%store.

Definition get_or_create_subject {St} (name : option string)
           (created : string -> St -> St) : M St Subject :=
  (subject <- query (first_subject name) ;;
   match subject with
   | Some subject => ret subject
   | None =>
       subject <- commit_subject name ;;
       update_stats (created (subject_name subject)) ;;
       ret subject
   end)%store.

(** [s.add(x)] on a set of names. *)
Definition set_add (x : string) (s : list string) : list string :=
  if existsb (String.eqb x) s then s else (s ++ [x])%list.

End Store.

(* ===================================================================== *)
(** ** The extractors *)
(* ===================================================================== *)

(** import_schedule_smart.py *)
Module Smart.
Import PyStr.

Definition skip_keywords : list string :=
  ["ylbmessa"; "tsafkaerb"; "kaerb"; "assembly"; "breakfast"; "break"].

Definition extract_subject_and_teacher (cell_text : string)
  : option string * option string :=
  if negb (truthy cell_text) || (strip cell_text =? "") then (None, None)
  else
    let cell_text := strip cell_text in
    if existsb (fun kw => str_in kw (lower cell_text)) skip_keywords
    then (None, None)
    else
      let lines := nonblank_lines cell_text in
      match lines with
      | [] => (None, None)
      | subject :: rest =>
          let teacher :=
            if (1 <? List.length lines)%nat then join " " rest else "Unknown" in
          (Some subject, Some teacher)
      end.

Import Timetable Store.

(** The day of a page, read from the second cell of the second row only.
    The outer [None] is the [IndexError] of [table[1][1]] on a second row
    of a single cell, which nothing catches. *)
Definition day_of_table (t : table) : option (option (string * nat)) :=
  match nth_error t 1 with
  | None => Some None
  | Some [] => Some None
  | Some r1 =>
      match nth_error r1 1 with
      | None => None
      | Some c =>
          let day_cell := if truthy_opt c then lower (str c) else "" in
          Some (find (fun kv => str_in (fst kv) day_cell) DAY_MAPPING)
      end
  end.

(** The period a cell of the third row stands for. *)
Definition cell_period (c : cell) : option string :=
  if negb (truthy_opt c) then None
  else find (fun period => str_in (nl ++ period ++ nl) (str c)
                           || startswith (str c) (period ++ nl))
            period_nums.

Fixpoint scan_row (col_idx : nat) (r : row) : list (nat * string) :=
  match r with
  | [] => []
  | c :: rest =>
      match cell_period c with
      | Some period => (col_idx, period) :: scan_row (S col_idx) rest
      | None => scan_row (S col_idx) rest
      end
  end.

(** [period_columns], read from the third row when there is one. *)
Definition period_columns_of (t : table) : list (nat * string) :=
  match nth_error t 2 with
  | Some r2 => scan_row 0 r2
  | None => []
  end.

(** The body of the loop over [period_columns.items()]: the entry
    appended, or [None] where the body says [continue]. *)
Definition period_entry (class_name : string) (day_num : nat)
           (day_name : string) (r : row) (item : nat * string)
  : option entry :=
  let '(col_idx, period_num) := item in
  if (List.length r <=? col_idx)%nat then None
  else
    let c := nth col_idx r None in
    if negb (truthy_opt c) then None
    else
      let '(subject, teacher) := extract_subject_and_teacher (str c) in
      if negb (truthy_opt subject) || negb (truthy_opt teacher) then None
      else
        let '(start_time_str, end_time_str) :=
          match dict_get TIME_PERIODS period_num with
          | Some (s, e) => (Some s, Some e)
          | None => (None, None)
          end in
        if negb (truthy_opt start_time_str) || negb (truthy_opt end_time_str)
        then None
        else
          match parse_time (str start_time_str),
                parse_time (str end_time_str) with
          | Some start_time, Some end_time =>
              Some {| e_class_name := Some class_name;
                      e_day := Some day_num;
                      e_day_name := day_name;
                      e_start_time := Some start_time;
                      e_end_time := Some end_time;
                      e_subject := subject;
                      e_teacher := teacher;
                      e_period := period_num;
                      e_free := None |}
          | _, _ => None
          end.

Definition row_entries (day_num : nat) (day_name : string)
           (period_columns : list (nat * string)) (r : row) : list entry :=
  match class_name_of r with
  | None => []
  | Some class_name =>
      keep_some (period_entry class_name day_num day_name r) period_columns
  end.

(** The entries of one page; [None] when the page raises. *)
Definition page_entries (pg : page) : option (list entry) :=
  match page_tables pg with
  | [] => Some []
  | t :: _ =>
      match day_of_table t with
      | None => None
      | Some None => Some []
      | Some (Some (day_name, day_num)) =>
          let period_columns := period_columns_of t in
          Some (flat_map (row_entries day_num day_name period_columns)
                         (skipn 3 t))
      end
  end.

(** [extract_schedules_from_pdf] on the pages of an opened document;
    [None] when a page raises, which ends the script. *)
Fixpoint extract_schedules_from_pdf (pages : list page)
  : option (list entry) :=
  match pages with
  | [] => Some []
  | pg :: rest =>
      match page_entries pg with
      | None => None
      | Some es =>
          match extract_schedules_from_pdf rest with
          | None => None
          | Some es' => Some (es ++ es')%list
          end
      end
  end.

(** The [stats] dict of [import_to_database]. *)
Record stats : Type := mk_stats {
  total : nat;
  imported : nat;
  skipped : nat;
  errors : nat;
  classes_created : list string;
  teachers_created : list string;
  subjects_created : list string
}.

Definition init_stats (n : nat) : stats := mk_stats n 0 0 0 [] [] [].

Definition count_imported (st : stats) : stats :=
  mk_stats (total st) (S (imported st)) (skipped st) (errors st)
           (classes_created st) (teachers_created st) (subjects_created st).

Definition count_skipped (st : stats) : stats :=
  mk_stats (total st) (imported st) (S (skipped st)) (errors st)
           (classes_created st) (teachers_created st) (subjects_created st).

Definition count_error (st : stats) : stats :=
  mk_stats (total st) (imported st) (skipped st) (S (errors st))
           (classes_created st) (teachers_created st) (subjects_created st).

Definition class_created (name : string) (st : stats) : stats :=
  mk_stats (total st) (imported st) (skipped st) (errors st)
           (set_add name (classes_created st)) (teachers_created st)
           (subjects_created st).

Definition teacher_created (name : string) (st : stats) : stats :=
  mk_stats (total st) (imported st) (skipped st) (errors st)
           (classes_created st) (set_add name (teachers_created st))
           (subjects_created st).

Definition subject_created (name : string) (st : stats) : stats :=
  mk_stats (total st) (imported st) (skipped st) (errors st)
           (classes_created st) (teachers_created st)
           (set_add name (subjects_created st)).

(** The body of the [try] for one entry. *)
Definition import_entry (floor : Floor) (e : entry) : M stats unit :=
  (class_room <- get_or_create_class (e_class_name e) (floor_id floor)
                                     class_created ;;
   teacher <- get_or_create_teacher (e_teacher e) teacher_created ;;
   subject <- get_or_create_subject (e_subject e) subject_created ;;
   existing <- find_schedule (class_id class_room) (e_day e)
                             (e_start_time e) (e_end_time e) ;;
   match existing with
   | Some _ => update_stats count_skipped ;; continue
   | None =>
       commit_schedule (class_id class_room) (teacher_id teacher)
                       (subject_id subject) (e_day e) (e_start_time e)
                       (e_end_time e) ;;
       update_stats count_imported
   end)%store.

(** The [except] clause: count the error, roll back. *)
Definition on_error (s : DB * stats) : DB * stats :=
  rollback (fst s, count_error (snd s)).

Definition import_step (floor : Floor) (e : entry) : DB * stats -> DB * stats :=
  try_except (import_entry floor e) on_error.

(** [import_to_database(schedules, floor_number)]: the rows committed and
    the statistics printed at the end. *)
Definition import_to_database (schedules : list entry) (floor_number : nat)
           (db : DB) : DB * stats :=
  match get_or_create_floor floor_number
          (db, init_stats (List.length schedules)) with
  | (s, Value floor) => for_each (import_step floor) schedules s
  | (s, _) => s
  end.

End Smart.

(** import_complete_schedules.py *)
Module Complete.
Import PyStr.

Definition skip_keywords : list string :=
  ["assembly"; "breakfast"; "break"; "ylbmessa"; "tsafkaerb"; "kaerb";
   "lunch"; "recess"; "snack"; "prayer"].

Definition extract_subject_and_teacher (cell_text : string)
  : option string * option string :=
  if negb (truthy cell_text) || (strip cell_text =? "") then (None, None)
  else
    let cell_text := strip cell_text in
    if existsb (fun kw => str_in kw (lower cell_text)) skip_keywords
    then (None, None)
    else if (String.length cell_text <? 2)%nat then (None, None)
    else
      let lines := nonblank_lines cell_text in
      match lines with
      | [] => (None, None)
      | subject :: rest =>
          let teacher :=
            if (1 <? List.length lines)%nat then join " " rest
            else "Unknown Teacher" in
          let subject := strip subject in
          let teacher := strip teacher in
          if (String.length subject <? 2)%nat then (None, None)
          else (Some subject, Some teacher)
      end.

Import Timetable.

(** The first day of [DAY_MAPPING] whose name occurs in a lowered text. *)
Definition day_in_text (text_lower : string) : option (string * nat) :=
  find (fun kv => str_in (fst kv) text_lower) DAY_MAPPING.

(** The scan of one header row, cell by cell. *)
Fixpoint day_in_row (r : row) : option (string * nat) :=
  match r with
  | [] => None
  | c :: rest =>
      if negb (truthy_opt c) then day_in_row rest
      else match day_in_text (lower (str c)) with
           | Some d => Some d
           | None => day_in_row rest
           end
  end.

Fixpoint day_in_rows (rows : list row) : option (string * nat) :=
  match rows with
  | [] => None
  | r :: rest =>
      match day_in_row r with
      | Some d => Some d
      | None => day_in_rows rest
      end
  end.

(** [for row_idx in range(min(3, len(table)))] *)
Definition day_from_table (t : table) : option (string * nat) :=
  day_in_rows (firstn 3 t).

(** The fall-back on [page.extract_text()]. *)
Definition day_from_text (text : option string) : option (string * nat) :=
  match text with
  | None => None
  | Some text => if truthy text then day_in_text (lower text) else None
  end.

(** The day of a page: [(day_name, day_num)], or [None]. *)
Definition resolve_day (t : table) (pg : page) : option (string * nat) :=
  match day_from_table t with
  | Some d => Some d
  | None => day_from_text (page_text pg)
  end.

(** The four forms of a period token. *)
Definition period_token (cell_str period_num : string) : bool :=
  str_in (nl ++ period_num ++ nl) cell_str
  || (strip cell_str =? period_num)
  || startswith cell_str (period_num ++ nl)
  || str_in ("period " ++ period_num) (lower cell_str).

(** The period a header cell stands for: the first of '1'..'10' with a
    matching token. *)
Definition cell_period (c : cell) : option string :=
  if negb (truthy_opt c) then None
  else find (period_token (str c)) period_nums.

(** One pass over a row: [temp_period_cols] (as its item list) and
    [period_count]. *)
Fixpoint scan_row (col_idx : nat) (r : row) : list (nat * string) * nat :=
  match r with
  | [] => ([], 0)
  | c :: rest =>
      let '(cols, count) := scan_row (S col_idx) rest in
      match cell_period c with
      | Some period_num => ((col_idx, period_num) :: cols, S count)
      | None => (cols, count)
      end
  end.

Fixpoint find_period_row_from (row_idx : nat) (rows : list row)
  : option (nat * list (nat * string)) :=
  match rows with
  | [] => None
  | r :: rest =>
      if negb (nonempty r) then find_period_row_from (S row_idx) rest
      else
        let '(temp_period_cols, period_count) := scan_row 0 r in
        if (3 <=? period_count)%nat then Some (row_idx, temp_period_cols)
        else find_period_row_from (S row_idx) rest
  end.

(** [for row_idx in range(min(5, len(table)))]: the period row and its
    [period_columns], or [None] when the loop ends without a [break]. *)
Definition find_period_row (t : table) : option (nat * list (nat * string)) :=
  find_period_row_from 0 (firstn 5 t).

(** The column recorded for a period: the first item of
    [period_columns] holding it. *)
Definition column_of_period (period_columns : list (nat * string))
           (period_num : string) : option nat :=
  option_map fst (find (fun cp => snd cp =? period_num) period_columns).

(** The body of the loop over '1'..'10' for one class row: the entry
    appended, or [None] where the body says [continue]. *)
Definition period_entry (class_name : string) (day_num : nat)
           (day_name : string) (period_columns : list (nat * string))
           (r : row) (period_num : string) : option entry :=
  let col_idx := column_of_period period_columns period_num in
  let '(start_time_str, end_time_str) :=
    match dict_get TIME_PERIODS period_num with
    | Some (s, e) => (Some s, Some e)
    | None => (None, None)
    end in
  if negb (truthy_opt start_time_str) || negb (truthy_opt end_time_str)
  then None
  else
    let start_time := parse_time (str start_time_str) in
    let end_time := parse_time (str end_time_str) in
    let '(subject, teacher) :=
      match col_idx with
      | Some col_idx =>
          if (col_idx <? List.length r)%nat then
            let c := nth col_idx r None in
            if truthy_opt c then extract_subject_and_teacher (str c)
            else (None, None)
          else (None, None)
      | None => (None, None)
      end in
    let '(subject, teacher, is_free) :=
      if negb (truthy_opt subject) || negb (truthy_opt teacher)
      then (Some "Free Period", Some "No Teacher", true)
      else (subject, teacher, false) in
    Some {| e_class_name := Some class_name;
            e_day := Some day_num;
            e_day_name := day_name;
            e_start_time := start_time;
            e_end_time := end_time;
            e_subject := subject;
            e_teacher := teacher;
            e_period := period_num;
            e_free := Some is_free |}.

(** The entries one table row adds to [all_schedules]. *)
Definition row_entries (day_num : nat) (day_name : string)
           (period_columns : list (nat * string)) (r : row) : list entry :=
  match class_name_of r with
  | None => []
  | Some class_name =>
      keep_some (period_entry class_name day_num day_name period_columns r)
                period_nums
  end.

(** The entries one page adds; a page without table, day or period
    columns adds none. *)
Definition page_entries (pg : page) : list entry :=
  match page_tables pg with
  | [] => []
  | t :: _ =>
      match resolve_day t pg with
      | None => []
      | Some (day_name, day_num) =>
          match find_period_row t with
          | None => []
          | Some (period_row_idx, period_columns) =>
              if negb (nonempty period_columns) then []
              else
                let start_row := period_row_idx + 1 in
                flat_map (row_entries day_num day_name period_columns)
                         (skipn start_row t)
          end
      end
  end.

(** [extract_schedules_from_pdf] on the pages of an opened document. *)
Definition extract_schedules_from_pdf (pages : list page) : list entry :=
  flat_map page_entries pages.

Import Store.

(** The [stats] dict of [import_to_database]; it has no error count. *)
Record stats : Type := mk_stats {
  total : nat;
  imported : nat;
  free_periods : nat;
  academic : nat;
  skipped : nat;
  classes_created : list string
}.

Definition init_stats (n : nat) : stats := mk_stats n 0 0 0 0 [].

Definition count_imported (is_free : bool) (st : stats) : stats :=
  mk_stats (total st) (S (imported st))
           (if is_free then S (free_periods st) else free_periods st)
           (if is_free then academic st else S (academic st))
           (skipped st) (classes_created st).

Definition count_skipped (st : stats) : stats :=
  mk_stats (total st) (imported st) (free_periods st) (academic st)
           (S (skipped st)) (classes_created st).

Definition class_created (name : string) (st : stats) : stats :=
  mk_stats (total st) (imported st) (free_periods st) (academic st)
           (skipped st) (set_add name (classes_created st)).

Definition nothing_counted (name : string) (st : stats) : stats := st.

(** [Schedule.query.filter_by(class_id=class_room.id).delete()] for every
    class of the floor, then one commit. *)
Definition clear_floor_schedules {St} (floor : Floor) : M St unit :=
  fun s =>
    let db := fst s in
    let classes_in_floor :=
      filter (fun c => (class_floor_id c =? floor_id floor)%nat) (classes db) in
    let kept :=
      filter (fun x => negb (existsb (fun c => (schedule_class_id x
                                                =? class_id c)%nat)
                                     classes_in_floor))
             (schedules db) in
    ((mk_db (floors db) (classes db) (teachers db) (subjects db) kept, snd s),
     Value tt).

(** The body of the [try] for one entry; [entry['is_free']] is read
    once the class is there. *)
Definition import_entry (floor : Floor) (no_teacher : Teacher)
           (free_subject : Subject) (e : entry) : M stats unit :=
  (class_room <- get_or_create_class (e_class_name e) (floor_id floor)
                                     class_created ;;
   is_free <- item (e_free e) ;;
   teacher_subject <-
     (if is_free then ret (no_teacher, free_subject)
      else
        teacher <- get_or_create_teacher (e_teacher e) nothing_counted ;;
        subject <- get_or_create_subject (e_subject e) nothing_counted ;;
        ret (teacher, subject)) ;;
   existing <- find_schedule (class_id class_room) (e_day e)
                             (e_start_time e) (e_end_time e) ;;
   match existing with
   | Some _ => update_stats count_skipped ;; continue
   | None =>
       commit_schedule (class_id class_room)
                       (teacher_id (fst teacher_subject))
                       (subject_id (snd teacher_subject))
                       (e_day e) (e_start_time e) (e_end_time e) ;;
       update_stats (count_imported is_free)
   end)%store.

(** The [except] clause: roll back, count nothing. *)
Definition on_error (s : DB * stats) : DB * stats := rollback s.

Definition import_step (floor : Floor) (no_teacher : Teacher)
           (free_subject : Subject) (e : entry) : DB * stats -> DB * stats :=
  try_except (import_entry floor no_teacher free_subject e) on_error.

(** What precedes the loop: the floor, the optional clearing, the two
    sentinel rows. *)
Definition prepare (floor_number : nat) (clear_existing : bool)
  : M stats (Floor * Teacher * Subject) :=
  (floor <- get_or_create_floor floor_number ;;
   (if clear_existing then clear_floor_schedules floor else ret tt) ;;
   free_subject <- get_or_create_subject (Some "Free Period") nothing_counted ;;
   no_teacher <- get_or_create_teacher (Some "No Teacher") nothing_counted ;;
   ret (floor, no_teacher, free_subject))%store.

(** [import_to_database(schedules, floor_number, clear_existing)] *)
Definition import_to_database (schedules : list entry) (floor_number : nat)
           (clear_existing : bool) (db : DB) : DB * stats :=
  match prepare floor_number clear_existing
          (db, init_stats (List.length schedules)) with
  | (s, Value (floor, no_teacher, free_subject)) =>
      for_each (import_step floor no_teacher free_subject) schedules s
  | (s, _) => s
  end.

End Complete.

(** import_remaining_floors.py *)
Module Remaining.
Import PyStr Timetable Store.

Record stats : Type := mk_stats {
  total : nat;
  imported : nat;
  skipped_duplicate : nat;
  skipped_invalid : nat;
  errors : nat;
  classes_created : list string;
  teachers_created : list string;
  subjects_created : list string
}.

Definition init_stats (n : nat) : stats := mk_stats n 0 0 0 0 [] [] [].

Definition count_imported (st : stats) : stats :=
  mk_stats (total st) (S (imported st)) (skipped_duplicate st)
           (skipped_invalid st) (errors st) (classes_created st)
           (teachers_created st) (subjects_created st).

Definition count_duplicate (st : stats) : stats :=
  mk_stats (total st) (imported st) (S (skipped_duplicate st))
           (skipped_invalid st) (errors st) (classes_created st)
           (teachers_created st) (subjects_created st).

Definition count_invalid (st : stats) : stats :=
  mk_stats (total st) (imported st) (skipped_duplicate st)
           (S (skipped_invalid st)) (errors st) (classes_created st)
           (teachers_created st) (subjects_created st).

Definition count_error (st : stats) : stats :=
  mk_stats (total st) (imported st) (skipped_duplicate st)
           (skipped_invalid st) (S (errors st)) (classes_created st)
           (teachers_created st) (subjects_created st).

Definition class_created (name : string) (st : stats) : stats :=
  mk_stats (total st) (imported st) (skipped_duplicate st)
           (skipped_invalid st) (errors st)
           (set_add name (classes_created st)) (teachers_created st)
           (subjects_created st).

Definition teacher_created (name : string) (st : stats) : stats :=
  mk_stats (total st) (imported st) (skipped_duplicate st)
           (skipped_invalid st) (errors st) (classes_created st)
           (set_add name (teachers_created st)) (subjects_created st).

Definition subject_created (name : string) (st : stats) : stats :=
  mk_stats (total st) (imported st) (skipped_duplicate st)
           (skipped_invalid st) (errors st) (classes_created st)
           (teachers_created st) (set_add name (subjects_created st)).

Definition is_some {A : Type} (o : option A) : bool :=
  match o with
  | Some _ => true
  | None => false
  end.

(** [all([entry.get('class_name'), entry.get('subject'),
    entry.get('teacher'), entry.get('start_time'), entry.get('end_time'),
    entry.get('day') is not None])] *)
Definition required_fields (e : entry) : bool :=
  truthy_opt (e_class_name e) && truthy_opt (e_subject e)
  && truthy_opt (e_teacher e) && is_some (e_start_time e)
  && is_some (e_end_time e) && is_some (e_day e).

Definition import_entry (floor : Floor) (e : entry) : M stats unit :=
  (if negb (required_fields e)
   then update_stats count_invalid ;; continue
   else
     class_room <- get_or_create_class (e_class_name e) (floor_id floor)
                                       class_created ;;
     teacher <- get_or_create_teacher (e_teacher e) teacher_created ;;
     subject <- get_or_create_subject (e_subject e) subject_created ;;
     existing <- find_schedule (class_id class_room) (e_day e)
                               (e_start_time e) (e_end_time e) ;;
     match existing with
     | Some _ => update_stats count_duplicate ;; continue
     | None =>
         commit_schedule (class_id class_room) (teacher_id teacher)
                         (subject_id subject) (e_day e) (e_start_time e)
                         (e_end_time e) ;;
         update_stats count_imported
     end)%store.

Definition on_error (s : DB * stats) : DB * stats :=
  rollback (fst s, count_error (snd s)).

Definition import_step (floor : Floor) (e : entry) : DB * stats -> DB * stats :=
  try_except (import_entry floor e) on_error.

(** [import_to_database(schedules, floor_number)]; an empty batch returns
    before anything is read or written, and prints no statistics. *)
Definition import_to_database (schedules : list entry) (floor_number : nat)
           (db : DB) : DB * option stats :=
  if negb (nonempty schedules) then (db, None)
  else
    match get_or_create_floor floor_number
            (db, init_stats (List.length schedules)) with
    | (s, Value floor) =>
        let s' := for_each (import_step floor) schedules s in
        (fst s', Some (snd s'))
    | (s, _) => (fst s, Some (snd s))
    end.

End Remaining.

(** import_schedule_from_pdf.py *)
Module FromPdf.
Import PyStr Timetable Store.

(** The [stats] dict: one [skipped] count, and counters of created rows. *)
Record stats : Type := mk_stats {
  processed : nat;
  imported : nat;
  skipped : nat;
  errors : nat;
  classes_created : nat;
  teachers_created : nat;
  subjects_created : nat
}.

Definition init_stats : stats := mk_stats 0 0 0 0 0 0 0.

Definition count_processed (st : stats) : stats :=
  mk_stats (S (processed st)) (imported st) (skipped st) (errors st)
           (classes_created st) (teachers_created st) (subjects_created st).

Definition count_imported (st : stats) : stats :=
  mk_stats (processed st) (S (imported st)) (skipped st) (errors st)
           (classes_created st) (teachers_created st) (subjects_created st).

Definition count_skipped (st : stats) : stats :=
  mk_stats (processed st) (imported st) (S (skipped st)) (errors st)
           (classes_created st) (teachers_created st) (subjects_created st).

Definition count_error (st : stats) : stats :=
  mk_stats (processed st) (imported st) (skipped st) (S (errors st))
           (classes_created st) (teachers_created st) (subjects_created st).

Definition class_created (name : string) (st : stats) : stats :=
  mk_stats (processed st) (imported st) (skipped st) (errors st)
           (S (classes_created st)) (teachers_created st)
           (subjects_created st).

Definition teacher_created (name : string) (st : stats) : stats :=
  mk_stats (processed st) (imported st) (skipped st) (errors st)
           (classes_created st) (S (teachers_created st))
           (subjects_created st).

Definition subject_created (name : string) (st : stats) : stats :=
  mk_stats (processed st) (imported st) (skipped st) (errors st)
           (classes_created st) (teachers_created st)
           (S (subjects_created st)).

(** [skipped += 1; continue], the one exit of every validation and of the
    duplicate check. *)
Definition skip {A : Type} : M stats A :=
  (update_stats count_skipped ;; continue)%store.

(** The body of the [try] for one entry; a [time] object is always
    truthy, so [not entry['start_time']] tests for [None]. *)
Definition import_entry (floor : Floor) (e : entry) : M stats unit :=
  (match e_day e with
   | None => skip
   | Some _ =>
       match e_start_time e, e_end_time e with
       | Some _, Some _ =>
           if negb (truthy_opt (e_class_name e)) then skip
           else
             class_room <- get_or_create_class (e_class_name e)
                             (floor_id floor) class_created ;;
             if negb (truthy_opt (e_teacher e)) then skip
             else
               teacher <- get_or_create_teacher (e_teacher e)
                                                teacher_created ;;
               if negb (truthy_opt (e_subject e)) then skip
               else
                 subject <- get_or_create_subject (e_subject e)
                                                  subject_created ;;
                 existing <- find_schedule (class_id class_room) (e_day e)
                                           (e_start_time e) (e_end_time e) ;;
                 match existing with
                 | Some _ => skip
                 | None =>
                     commit_schedule (class_id class_room)
                                     (teacher_id teacher) (subject_id subject)
                                     (e_day e) (e_start_time e)
                                     (e_end_time e) ;;
                     update_stats count_imported
                 end
       | _, _ => skip
       end
   end)%store.

Definition on_error (s : DB * stats) : DB * stats :=
  rollback (fst s, count_error (snd s)).

(** [stats['processed'] += 1] stands before the [try]. *)
Definition import_step (floor : Floor) (e : entry) : DB * stats -> DB * stats :=
  fun s => try_except (import_entry floor e) on_error
                      (fst s, count_processed (snd s)).

(** [import_schedule_to_database(schedules, floor_number)] *)
Definition import_schedule_to_database (schedules : list entry)
           (floor_number : nat) (db : DB) : DB * stats :=
  match get_or_create_floor floor_number (db, init_stats) with
  | (s, Value floor) => for_each (import_step floor) schedules s
  | (s, _) => s
  end.

End FromPdf.

(** app.py: the delete routes of teachers and subjects *)
Module App.
Import Store.

(** What the route answers. *)
Inductive response : Type :=
| NotFound
| Refused
| Deleted.

(** [teacher.schedules] *)
Definition teacher_schedules (t : Teacher) (db : DB) : list Schedule :=
  filter (fun s => (schedule_teacher_id s =? teacher_id t)%nat) (schedules db).

(** [subject.schedules] *)
Definition subject_schedules (x : Subject) (db : DB) : list Schedule :=
  filter (fun s => (schedule_subject_id s =? subject_id x)%nat) (schedules db).

(** [delete_teacher(teacher_id)]: 404 for an unknown id, the flashed
    refusal when the teacher has schedules, else the delete and commit.
    Attendance rows are outside the store modelled here; they play no part
    in the guarded branch. *)
Definition delete_teacher (id : nat) (db : DB) : DB * response :=
  match find (fun t => (teacher_id t =? id)%nat) (teachers db) with
  | None => (db, NotFound)
  | Some teacher =>
      if Timetable.nonempty (teacher_schedules teacher db) then (db, Refused)
      else
        (mk_db (floors db) (classes db)
               (filter (fun t => negb (teacher_id t =? id)%nat) (teachers db))
               (subjects db) (schedules db),
         Deleted)
  end.

(** [delete_subject(subject_id)] *)
Definition delete_subject (id : nat) (db : DB) : DB * response :=
  match find (fun x => (subject_id x =? id)%nat) (subjects db) with
  | None => (db, NotFound)
  | Some subject =>
      if Timetable.nonempty (subject_schedules subject db) then (db, Refused)
      else
        (mk_db (floors db) (classes db) (teachers db)
               (filter (fun x => negb (subject_id x =? id)%nat) (subjects db))
               (schedules db),
         Deleted)
  end.

End App.

(* ===================================================================== *)
(** ** Vocabulary of the statements about the classifier *)
(* ===================================================================== *)

Module ClassifierSpec.
Import PyStr.

(** The subject line of a cell: its first line that is not blank. *)
Definition subject_line (cell_text : string) : option string :=
  find (fun line => truthy (strip line)) (split_nl cell_text).

(** [any(kw in text.lower() for kw in skip_keywords)] *)
Definition is_filler (skip_keywords : list string) (text : string) : bool :=
  existsb (fun kw => str_in kw (lower text)) skip_keywords.

(** A classifier result is well paired when it is [(None, None)] or holds
    a non-empty subject together with a non-empty teacher. *)
Definition well_paired (r : option string * option string) : Prop :=
  r = (None, None)
  \/ exists subject teacher,
      r = (Some subject, Some teacher) /\ subject <> "" /\ teacher <> "".

(** The three classes of a cell. *)
Inductive cell_class : Type :=
| Academic (subject teacher : string)
| Filler
| Empty.

(** The ordered rule list read off the specification: filler keyword
    first, then the length check, then the split into subject and
    teacher, the subject needing 2 characters. *)
Definition classify_by_rules (skip_keywords : list string)
           (unassigned : string) (cell_text : string) : cell_class :=
  let text := strip cell_text in
  if is_filler skip_keywords text then Filler
  else if (String.length text <? 2)%nat then Empty
  else match nonblank_lines text with
       | [] => Empty
       | subject :: rest =>
           if (String.length (strip subject) <? 2)%nat then Empty
           else Academic (strip subject)
                  (strip (match rest with
                          | [] => unassigned
                          | _ => join " " rest
                          end))
       end.

Definition pair_of_class (c : cell_class) : option string * option string :=
  match c with
  | Academic subject teacher => (Some subject, Some teacher)
  | Filler | Empty => (None, None)
  end.

End ClassifierSpec.

(* ===================================================================== *)
(** ** Vocabulary of the statements about the extractors *)
(* ===================================================================== *)

Module ExtractorSpec.
Import PyStr Timetable.

(** No cell of the first three rows holds a day name. *)
Definition header_day_free (t : table) : bool :=
  forallb
    (forallb (fun c : cell =>
                match c with
                | None => true
                | Some text =>
                    forallb (fun kv : string * nat =>
                               negb (str_in (fst kv) (lower text)))
                            DAY_MAPPING
                end))
    (firstn 3 t).

(** The number of cells of a row that match a period token. *)
Definition token_cells (r : row) : nat :=
  List.length
    (filter (fun c => match Complete.cell_period c with
                      | Some _ => true
                      | None => false
                      end) r).

(** The number of distinct periods among the matches of a row. *)
Definition distinct_periods (r : row) : nat :=
  List.length
    (nodup string_dec (map snd (fst (Complete.scan_row 0 r)))).

(** A row the class loop processes. *)
Definition is_class_row (r : row) : bool :=
  match class_name_of r with
  | Some _ => true
  | None => false
  end.

(** An entry for a taught period. *)
Definition academic (e : entry) : Prop :=
  e_is_free e = false
  /\ exists subject teacher,
      e_subject e = Some subject /\ e_teacher e = Some teacher
      /\ subject <> "" /\ teacher <> "".

(** The free-period placeholder. *)
Definition placeholder (e : entry) : Prop :=
  e_is_free e = true
  /\ e_subject e = Some "Free Period"
  /\ e_teacher e = Some "No Teacher".

End ExtractorSpec.

(* ===================================================================== *)
(** ** Vocabulary of the statements about the importers *)
(* ===================================================================== *)

Module ImportSpec.
Import PyStr Timetable Store.


Definition is_some {A : Type} (o : option A) : bool :=
  match o with
  | Some _ => true
  | None => false
  end.



(** The day of the entry, if it has one, fits an INTEGER of the store. *)
Definition day_fits (e : entry) : bool :=
  match e_day e with
  | Some d => fits_integer d
  | None => true
  end.


(** What the complete importer reads of an entry is there: the class
    name, the day, the times, the key is_free and, unless the entry is a
    free period, the teacher and the subject. *)
Definition present_for_complete (e : entry) : bool :=
  is_some (e_class_name e) && is_some (e_day e)
  && is_some (e_start_time e) && is_some (e_end_time e)
  && is_some (e_free e)
  && (e_is_free e || is_some (e_teacher e) && is_some (e_subject e)).


Definition storable_complete (e : entry) : bool :=
  present_for_complete e && day_fits e.



(** The steps the importers share once an entry is let through:
    get-or-create of the class, the teacher and the subject, the look-up
    of the natural key, then the skip of a duplicate or the insert.  The
    arguments are the bookkeeping of the script at hand. *)
Definition import_core {St : Type}
           (class_created teacher_created subject_created : string -> St -> St)
           (count_duplicate count_imported : St -> St)
           (floor : Floor) (e : entry) : M St unit :=
  (class_room <- get_or_create_class (e_class_name e) (floor_id floor)
                                     class_created ;;
   teacher <- get_or_create_teacher (e_teacher e) teacher_created ;;
   subject <- get_or_create_subject (e_subject e) subject_created ;;
   existing <- find_schedule (class_id class_room) (e_day e)
                             (e_start_time e) (e_end_time e) ;;
   match existing with
   | Some _ => update_stats count_duplicate ;; continue
   | None =>
       commit_schedule (class_id class_room) (teacher_id teacher)
                       (subject_id subject) (e_day e) (e_start_time e)
                       (e_end_time e) ;;
       update_stats count_imported
   end)%store.


(** Every required field of an entry is there: a non-empty class name,
    subject and teacher, the two times and the day. *)
Definition required_present (e : entry) : bool :=
  truthy_opt (e_class_name e) && truthy_opt (e_subject e)
  && truthy_opt (e_teacher e) && is_some (e_start_time e)
  && is_some (e_end_time e) && is_some (e_day e).





End ImportSpec.

(* ===================================================================== *)
(** ** The checks run after an import *)
(* ===================================================================== *)

(** check_missing_sessions.py *)
Module CheckSessions.
Import PyStr Timetable Store.







End CheckSessions.

(* ===================================================================== *)
(** ** Attendance (app.py) *)
(* ===================================================================== *)

Module Attendances.
Import PyStr Timetable Store.

(** [datetime.date] *)
Record date : Type := mk_date { year : nat; month : nat; day : nat }.

Definition date_eqb (a b : date) : bool :=
  ((year a =? year b) && (month a =? month b) && (day a =? day b))%nat.

(** A row of the Attendance table.  The columns declared
    [nullable=False] are plain values; the time of arrival and the
    minutes late may be [None]. *)
Record Attendance : Type := mk_attendance {
  attendance_id : nat;
  attendance_schedule_id : nat;
  attendance_class_id : nat;
  attendance_teacher_id : nat;
  attendance_date : date;
  status : string;
  actual_time : option time;
  minutes_late : option Z;
  notes : string
}.

(** The fields of the posted form: [request.form.get('status')],
    [request.form.get('actual_time')], [request.form.get('notes', '')]. *)
Record form : Type := mk_form {
  form_status : option string;
  form_actual_time : option string;
  form_notes : string
}.

(** What the route answers: 404, an uncaught exception, or the redirect
    to the sessions of the class on the day of the schedule. *)
Inductive response : Type :=
| NotFound
| ServerError
| Redirect (class_id day_num : nat).

(** Minutes since midnight, as an integer. *)
Definition minute_of_day (t : time) : Z :=
  (60 * Z.of_nat (hour t) + Z.of_nat (minute t))%Z.

(** [max(0, int((actual_arrival - scheduled_start).total_seconds() / 60))],
    both moments on the same day and on whole minutes. *)
Definition late_by (scheduled_start actual : time) : Z :=
  Z.max 0 (minute_of_day actual - minute_of_day scheduled_start).

(** [.first()] of the rows of a schedule on a date. *)
Definition first_attendance (schedule_id : nat) (d : date)
           (rows : list Attendance) : option Attendance :=
  find (fun a => (attendance_schedule_id a =? schedule_id)%nat
                 && date_eqb (attendance_date a) d) rows.

(** The write to the one object a query returned: the first row that
    passes the test is replaced, the others stay. *)
Fixpoint update_first {A : Type} (test : A -> bool) (f : A -> A)
         (l : list A) : list A :=
  match l with
  | [] => []
  | a :: rest =>
      if test a then f a :: rest else a :: update_first test f rest
  end.

(** A field of one or two decimal digits with a value up to [bound]. *)
Definition digits_field (bound : nat) (s : string) : option nat :=
  if ((1 <=? String.length s) && (String.length s <=? 2))%nat then
    match digits_value 0 s with
    | Some v => if (v <=? bound)%nat then Some v else None
    | None => None
    end
  else None.

(** [datetime.strptime(text, '%H:%M').time()] on a text of ASCII
    characters: an hour of one or two digits up to 23, a colon, a minute
    of one or two digits up to 59, and nothing else. *)
Definition strptime_HM (text : string) : option time :=
  match split_colon text with
  | [h; m] =>
      match digits_field 23 h, digits_field 59 m with
      | Some h, Some m => Some (mk_time h m)
      | _, _ => None
      end
  | _ => None
  end.

Section Route.

(** The parser of the time of arrival, [datetime.strptime(text,
    '%H:%M').time()]; [None] is its [ValueError].  The route is read for
    any parser, so nothing below rests on how texts outside ASCII are
    read. *)
Variable parse : string -> option time.

(** The time of arrival and the minutes late a request asks to store:
    both only for the status 'Late' with a time given.  The outer [None]
    is the [ValueError] of a time that does not parse. *)
Definition arrival (f : form) (schedule : Schedule)
  : option (option time * option Z) :=
  if match form_status f with
     | Some s => s =? "Late"
     | None => false
     end && truthy_opt (form_actual_time f)
  then
    match parse (str (form_actual_time f)) with
    | Some t => Some (Some t, Some (late_by (start_time schedule) t))
    | None => None
    end
  else Some (None, None).

(** [mark_attendance(schedule_id)] on the form posted, the date of the
    day, the committed schedules and the Attendance table.  The commit
    raises on a status that is [None]; an exception leaves the table as
    it was. *)
Definition mark_attendance (schedule_id : nat) (f : form) (current_date : date)
           (db : DB) (rows : list Attendance)
  : list Attendance * response :=
  match find (fun x => (Store.schedule_id x =? schedule_id)%nat)
             (schedules db) with
  | None => (rows, NotFound)
  | Some schedule =>
      let existing := first_attendance schedule_id current_date rows in
      match arrival f schedule, form_status f with
      | Some (actual, late), Some new_status =>
          let done :=
            Redirect (schedule_class_id schedule) (day_of_week schedule) in
          match existing with
          | Some _ =>
              (update_first
                 (fun a => (attendance_schedule_id a =? schedule_id)%nat
                           && date_eqb (attendance_date a) current_date)
                 (fun a => mk_attendance (attendance_id a)
                             (attendance_schedule_id a)
                             (attendance_class_id a)
                             (attendance_teacher_id a)
                             (attendance_date a)
                             new_status actual late (form_notes f))
                 rows,
               done)
          | None =>
              ((rows ++
                [mk_attendance (next_id (map attendance_id rows))
                   schedule_id (schedule_class_id schedule)
                   (schedule_teacher_id schedule) current_date
                   new_status actual late (form_notes f)])%list,
               done)
          end
      | _, _ => (rows, ServerError)
      end
  end.

End Route.

(** *** [daily_statistics] *)

(** The four counters of a line of statistics. *)
Record counts : Type := mk_counts {
  present : nat;
  late : nat;
  absent : nat;
  total : nat
}.

Definition no_counts : counts := mk_counts 0 0 0 0.

(** [line['total'] += 1], then the counter of the status, if it is one
    of the three. *)
Definition count_status (st : string) (c : counts) : counts :=
  if st =? "Present"
  then mk_counts (S (present c)) (late c) (absent c) (S (total c))
  else if st =? "Late"
  then mk_counts (present c) (S (late c)) (absent c) (S (total c))
  else if st =? "Absent"
  then mk_counts (present c) (late c) (S (absent c)) (S (total c))
  else mk_counts (present c) (late c) (absent c) (S (total c)).

(** [if key not in d: d[key] = fresh] then [d[key] = f(d[key])], on a
    dict given as its item list in insertion order. *)
Fixpoint dict_update {V : Type} (key : nat) (fresh : V) (f : V -> V)
         (d : list (nat * V)) : list (nat * V) :=
  match d with
  | [] => [(key, f fresh)]
  | (k, v) :: rest =>
      if (k =? key)%nat then (k, f v) :: rest
      else (k, v) :: dict_update key fresh f rest
  end.

(** [attendance.class_room.floor]; [None] where a relationship gives
    [None] and the attribute access raises. *)
Definition floor_of (db : DB) (a : Attendance) : option Floor :=
  match find (fun c => (class_id c =? attendance_class_id a)%nat)
             (classes db) with
  | Some c => find (fun f => (floor_id f =? class_floor_id c)%nat) (floors db)
  | None => None
  end.

(** [attendance.teacher] *)
Definition teacher_of (db : DB) (a : Attendance) : option Teacher :=
  find (fun t => (teacher_id t =? attendance_teacher_id a)%nat) (teachers db).

(** The loop that fills [floor_stats]. *)
Fixpoint floor_loop (db : DB) (attendances : list Attendance)
         (floor_stats : list (nat * (Floor * counts)))
  : option (list (nat * (Floor * counts))) :=
  match attendances with
  | [] => Some floor_stats
  | a :: rest =>
      match floor_of db a with
      | None => None
      | Some floor =>
          floor_loop db rest
            (dict_update (floor_id floor) (floor, no_counts)
               (fun line => (fst line, count_status (status a) (snd line)))
               floor_stats)
      end
  end.

(** [total_minutes_late += attendance.minutes_late] for a late row whose
    minutes are truthy. *)
Definition add_minutes (a : Attendance) (minutes : Z) : Z :=
  if status a =? "Late" then
    match minutes_late a with
    | Some m => if (m =? 0)%Z then minutes else (minutes + m)%Z
    | None => minutes
    end
  else minutes.

(** The loop that fills [teacher_stats]. *)
Fixpoint teacher_loop (db : DB) (attendances : list Attendance)
         (teacher_stats : list (nat * (Teacher * counts * Z)))
  : option (list (nat * (Teacher * counts * Z))) :=
  match attendances with
  | [] => Some teacher_stats
  | a :: rest =>
      match teacher_of db a with
      | None => None
      | Some teacher =>
          teacher_loop db rest
            (dict_update (teacher_id teacher) (teacher, no_counts, 0%Z)
               (fun line => (fst (fst line),
                             count_status (status a) (snd (fst line)),
                             add_minutes a (snd line)))
               teacher_stats)
      end
  end.

(** What the template is given. *)
Record daily_page : Type := mk_daily_page {
  page_counts : counts;
  floor_stats : list (Floor * counts);
  teacher_stats : list (Teacher * counts * Z)
}.

Definition count_where (st : string) (attendances : list Attendance) : nat :=
  List.length (filter (fun a => status a =? st) attendances).

(** [daily_statistics()] for the selected date; [None] when a loop
    raises. *)
Definition daily_statistics (selected_date : date) (db : DB)
           (rows : list Attendance) : option daily_page :=
  let attendances :=
    filter (fun a => date_eqb (attendance_date a) selected_date) rows in
  let day_counts :=
    mk_counts (count_where "Present" attendances)
              (count_where "Late" attendances)
              (count_where "Absent" attendances)
              (List.length attendances) in
  match floor_loop db attendances [] with
  | None => None
  | Some floor_stats =>
      match teacher_loop db attendances [] with
      | None => None
      | Some teacher_stats =>
          Some (mk_daily_page day_counts (map snd floor_stats)
                              (map snd teacher_stats))
      end
  end.

End Attendances.


(* ===================================================================== *)
(** ** All floors at once *)
(* ===================================================================== *)

(** import_all_floors.py *)
Module AllFloors.
Import PyStr Timetable Store.

(** [total_stats] *)
Record total_stats : Type := mk_total_stats {
  floors_processed : nat;
  floors_success : nat;
  floors_failed : nat;
  total_schedules : nat
}.

Definition init_stats : total_stats := mk_total_stats 0 0 0 0.





End AllFloors.


(* ===================================================================== *)
(** ** The extractor of the remaining floors *)
(* ===================================================================== *)

(** import_remaining_floors.py: the classifier and the extractor. *)
Module RemainingFloors.
Import PyStr Timetable Store.

Definition skip_keywords : list string :=
  ["assembly"; "breakfast"; "break"; "ylbmessa"; "tsafkaerb"; "kaerb";
   "lunch"; "recess"].

Definition extract_subject_and_teacher (cell_text : string)
  : option string * option string :=
  if negb (truthy cell_text) || (strip cell_text =? "") then (None, None)
  else
    let cell_text := strip cell_text in
    if existsb (fun kw => str_in kw (lower cell_text)) skip_keywords
    then (None, None)
    else if (String.length cell_text <? 2)%nat then (None, None)
    else
      let lines := nonblank_lines cell_text in
      match lines with
      | [] => (None, None)
      | subject :: rest =>
          let teacher :=
            if (1 <? List.length lines)%nat then join " " rest
            else "Unknown Teacher" in
          let subject := strip subject in
          let teacher := strip teacher in
          if (String.length subject <? 2)%nat then (None, None)
          else (Some subject, Some teacher)
      end.

(** The five forms of a period token. *)
Definition period_token (cell_str period_num : string) : bool :=
  str_in (nl ++ period_num ++ nl) cell_str
  || (strip cell_str =? period_num)
  || startswith cell_str (period_num ++ nl)
  || str_in ("period " ++ period_num) (lower cell_str)
  || str_in ("(" ++ period_num ++ ")") cell_str.

Definition cell_period (c : cell) : option string :=
  if negb (truthy_opt c) then None
  else find (period_token (str c)) period_nums.

(** One pass over a row: [temp_period_cols] and [period_count]. *)
Fixpoint scan_row (col_idx : nat) (r : row) : list (nat * string) * nat :=
  match r with
  | [] => ([], 0)
  | c :: rest =>
      let '(cols, count) := scan_row (S col_idx) rest in
      match cell_period c with
      | Some period_num => ((col_idx, period_num) :: cols, S count)
      | None => (cols, count)
      end
  end.

Fixpoint find_period_row_from (row_idx : nat) (rows : list row)
  : option (nat * list (nat * string)) :=
  match rows with
  | [] => None
  | r :: rest =>
      if negb (nonempty r) then find_period_row_from (S row_idx) rest
      else
        let '(temp_period_cols, period_count) := scan_row 0 r in
        if (3 <=? period_count)%nat then Some (row_idx, temp_period_cols)
        else find_period_row_from (S row_idx) rest
  end.

(** [for row_idx in range(min(5, len(table)))] *)
Definition find_period_row (t : table) : option (nat * list (nat * string)) :=
  find_period_row_from 0 (firstn 5 t).

(** [int(x[1])], the sort key of an item of [period_columns]; a period
    there is one of '1'..'10'. *)
Definition period_key (item : nat * string) : nat :=
  match int_of_str (snd item) with
  | Some n => n
  | None => 0
  end.

(** The place of an item in a list sorted by key: before the first item
    whose key is not smaller. *)
Fixpoint insert_by_period (item : nat * string) (l : list (nat * string))
  : list (nat * string) :=
  match l with
  | [] => [item]
  | x :: rest =>
      if (period_key item <=? period_key x)%nat then item :: x :: rest
      else x :: insert_by_period item rest
  end.

(** [sorted(period_columns.items(), key=lambda x: int(x[1]))]: the
    stable sort of the items by period number. *)
Definition sorted_by_period (period_columns : list (nat * string))
  : list (nat * string) :=
  fold_right insert_by_period [] period_columns.

(** The class name of a row, or [None] where the row loop says
    [continue]; the names 'class', 'total' and 'sum' are header or
    footer rows. *)
Definition class_name_of (r : row) : option string :=
  match Timetable.class_name_of r with
  | None => None
  | Some class_name =>
      if existsb (String.eqb (lower class_name)) ["class"; "total"; "sum"]
      then None
      else Some class_name
  end.

(** The body of the loop over the sorted period columns. *)
Definition period_entry (class_name : string) (day_num : nat)
           (day_name : string) (r : row) (item : nat * string)
  : option entry :=
  let '(col_idx, period_num) := item in
  if (List.length r <=? col_idx)%nat then None
  else
    let c := nth col_idx r None in
    if negb (truthy_opt c) then None
    else
      let '(subject, teacher) := extract_subject_and_teacher (str c) in
      if negb (truthy_opt subject) || negb (truthy_opt teacher) then None
      else
        let '(start_time_str, end_time_str) :=
          match dict_get TIME_PERIODS period_num with
          | Some (s, e) => (Some s, Some e)
          | None => (None, None)
          end in
        if negb (truthy_opt start_time_str) || negb (truthy_opt end_time_str)
        then None
        else
          match parse_time (str start_time_str),
                parse_time (str end_time_str) with
          | Some start_time, Some end_time =>
              Some {| e_class_name := Some class_name;
                      e_day := Some day_num;
                      e_day_name := day_name;
                      e_start_time := Some start_time;
                      e_end_time := Some end_time;
                      e_subject := subject;
                      e_teacher := teacher;
                      e_period := period_num;
                      e_free := None |}
          | _, _ => None
          end.

Definition row_entries (day_num : nat) (day_name : string)
           (period_columns : list (nat * string)) (r : row) : list entry :=
  match class_name_of r with
  | None => []
  | Some class_name =>
      keep_some (period_entry class_name day_num day_name r)
                (sorted_by_period period_columns)
  end.

(** The entries one page adds.  The day is found as in
    import_complete_schedules.py, by the same two scans. *)
Definition page_entries (pg : page) : list entry :=
  match page_tables pg with
  | [] => []
  | t :: _ =>
      match Complete.resolve_day t pg with
      | None => []
      | Some (day_name, day_num) =>
          match find_period_row t with
          | None => []
          | Some (period_row_idx, period_columns) =>
              if negb (nonempty period_columns) then []
              else
                let start_row := period_row_idx + 1 in
                flat_map (row_entries day_num day_name period_columns)
                         (skipn start_row t)
          end
      end
  end.

(** [extract_schedules_from_pdf] on the pages of an opened document. *)
Definition extract_schedules_from_pdf (pages : list page) : list entry :=
  flat_map page_entries pages.

End RemainingFloors.


(* ===================================================================== *)
(** ** The pages of a class (app.py) *)
(* ===================================================================== *)

Module Views.
Import Timetable Store.

(** The place of a number in a strictly increasing list. *)
Fixpoint insert_day (d : nat) (l : list nat) : list nat :=
  match l with
  | [] => [d]
  | x :: rest =>
      if (d <? x)%nat then d :: l
      else if (d =? x)%nat then l
      else x :: insert_day d rest
  end.

(** [sorted(set(days))] *)
Definition sorted_set (days : list nat) : list nat :=
  fold_right insert_day [] days.

(** One item of [days_data]; its label, the name of the day, is left
    out. *)
Record day_line : Type := mk_day_line {
  number : nat;
  schedules_count : nat;
  is_today : bool
}.

(** [class_detail(class_id)] on the weekday of today: the [days_data]
    given to the template, or [None] for the 404 of an unknown class. *)
Definition class_detail (class_id' current_day : nat) (db : DB)
  : option (list day_line) :=
  match find (fun c => (class_id c =? class_id')%nat) (classes db) with
  | None => None
  | Some _ =>
      let schedules' :=
        filter (fun s => (schedule_class_id s =? class_id')%nat)
               (schedules db) in
      let available_days := sorted_set (map day_of_week schedules') in
      Some (map (fun day_num =>
                   mk_day_line
                     day_num
                     (List.length
                        (filter (fun s => (schedule_class_id s =? class_id')%nat
                                          && (day_of_week s =? day_num)%nat)
                                (schedules db)))
                     (day_num =? current_day)%nat)
                available_days)
  end.

End Views.


(* ===================================================================== *)
(** ** The verification of the database *)
(* ===================================================================== *)

(** verify_database.py *)
Module VerifyDatabase.
Import Timetable Store.

(** The place of a floor in a list ordered by number. *)
Fixpoint place_floor (f : Floor) (l : list Floor) : list Floor :=
  match l with
  | [] => [f]
  | x :: rest =>
      if (floor_number f <=? floor_number x)%nat then f :: x :: rest
      else x :: place_floor f rest
  end.

(** [Floor.query.order_by(Floor.number).all()]; the numbers are UNIQUE,
    so the order leaves no choice. *)
Definition floors_by_number (db : DB) : list Floor :=
  fold_right place_floor [] (floors db).

(** [Schedule.query.filter_by(class_id=class_room.id).count()] *)
Definition class_schedules_count (db : DB) (c : Class) : nat :=
  List.length (filter (fun s => (schedule_class_id s =? class_id c)%nat)
                      (schedules db)).

(** What is printed for one floor: the floor, the number of its classes
    and [floor_schedules_count]. *)
Record floor_report : Type := mk_floor_report {
  report_floor : Floor;
  classes_count : nat;
  floor_schedules_count : nat
}.

Definition floor_breakdown (db : DB) : list floor_report :=
  map (fun floor =>
         let classes' :=
           filter (fun c => (class_floor_id c =? floor_id floor)%nat)
                  (classes db) in
         mk_floor_report
           floor (List.length classes')
           (fold_left (fun n c => n + class_schedules_count db c) classes' 0))
      (floors_by_number db).

(** The counts printed for Monday to Sunday. *)
Definition day_distribution (db : DB) : list nat :=
  map (fun day_num =>
         List.length (filter (fun s => (day_of_week s =? day_num)%nat)
                             (schedules db)))
      (seq 0 7).

End VerifyDatabase.


(* ===================================================================== *)
(** ** Vocabulary of the further properties *)
(* ===================================================================== *)

Module ExtraSpec.
Import PyStr Timetable Store ImportSpec.

(** The text holds no line feed. *)
Fixpoint no_lf (s : string) : bool :=
  match s with
  | EmptyString => true
  | String c s' => negb (Ascii.eqb c LF) && no_lf s'
  end.

(** A clean name: not empty, on one line, with nothing left to strip. *)
Definition clean (s : string) : Prop :=
  s <> "" /\ no_lf s = true /\ strip s = s.

(** Minutes since midnight. *)
Definition minutes (t : time) : nat := 60 * hour t + minute t.

(** An entry that lies on the timetable: its day is a day of
    [DAY_MAPPING] under its own name, its period is one of the ten, its
    times are the interval [TIME_PERIODS] gives the period, the start
    before the end, and its class name is a stripped text of two
    characters at least. *)
Definition on_timetable (e : entry) : Prop :=
  (exists day_num,
      e_day e = Some day_num /\ In (e_day_name e, day_num) DAY_MAPPING)
  /\ In (e_period e) period_nums
  /\ (exists s t st en,
         dict_get TIME_PERIODS (e_period e) = Some (s, t)
         /\ parse_time s = Some st /\ parse_time t = Some en
         /\ e_start_time e = Some st /\ e_end_time e = Some en
         /\ minutes st < minutes en)
  /\ (exists name,
         e_class_name e = Some name
         /\ strip name = name /\ 2 <= String.length name).

(** Column indices that grow strictly from left to right, none below
    [lo]. *)
Fixpoint increasing_from (lo : nat) (l : list nat) : Prop :=
  match l with
  | [] => True
  | c :: rest => lo <= c /\ increasing_from (S c) rest
  end.

(** The period columns of a header row as a dict would hold them: keys
    that are distinct column indices of the row, in increasing order,
    each with a period of '1'..'10'. *)
Definition columns_of_row (r : row) (cols : list (nat * string)) : Prop :=
  increasing_from 0 (map fst cols)
  /\ NoDup (map fst cols)
  /\ Forall (fun cp => fst cp < List.length r /\ In (snd cp) period_nums) cols.

(** A page whose first table has a second row of exactly one cell. *)
Definition short_second_row (pg : page) : Prop :=
  exists t others c, page_tables pg = t :: others /\ nth_error t 1 = Some [c].

(** *** Writes and what they keep *)

(** The store after one more row of a table. *)
Definition with_floor (db : DB) (f : Floor) : DB :=
  mk_db (floors db ++ [f]) (classes db) (teachers db) (subjects db)
        (schedules db).

Definition with_class (db : DB) (c : Class) : DB :=
  mk_db (floors db) (classes db ++ [c]) (teachers db) (subjects db)
        (schedules db).

Definition with_teacher (db : DB) (t : Teacher) : DB :=
  mk_db (floors db) (classes db) (teachers db ++ [t]) (subjects db)
        (schedules db).

Definition with_subject (db : DB) (x : Subject) : DB :=
  mk_db (floors db) (classes db) (teachers db) (subjects db ++ [x])
        (schedules db).

Definition with_schedule (db : DB) (x : Schedule) : DB :=
  mk_db (floors db) (classes db) (teachers db) (subjects db)
        (schedules db ++ [x]).

(** One insert as the importers make them: a row under the next primary
    key, written only when the look-up of the row found nothing and the
    rows it refers to are stored. *)
Inductive guarded_insert (db : DB) : DB -> Prop :=
| insert_floor name number :
    first_floor number db = None ->
    guarded_insert db
      (with_floor db (mk_floor (next_id (map floor_id (floors db)))
                               name number))
| insert_class name floor_id' :
    first_class (Some name) floor_id' db = None ->
    In floor_id' (map floor_id (floors db)) ->
    guarded_insert db
      (with_class db (mk_class (next_id (map class_id (classes db)))
                               name floor_id'))
| insert_teacher name :
    first_teacher (Some name) db = None ->
    guarded_insert db
      (with_teacher db (mk_teacher (next_id (map teacher_id (teachers db)))
                                   name))
| insert_subject name :
    first_subject (Some name) db = None ->
    guarded_insert db
      (with_subject db (mk_subject (next_id (map subject_id (subjects db)))
                                   name))
| insert_schedule class_id' teacher_id' subject_id' day start_t end_t :
    first_schedule class_id' (Some day) (Some start_t) (Some end_t) db
    = None ->
    In class_id' (map class_id (classes db)) ->
    In teacher_id' (map teacher_id (teachers db)) ->
    In subject_id' (map subject_id (subjects db)) ->
    guarded_insert db
      (with_schedule db
         (mk_schedule (next_id (map schedule_id (schedules db)))
                      class_id' teacher_id' subject_id' day start_t end_t)).

(** A run of guarded inserts. *)
Inductive guarded_inserts (db : DB) : DB -> Prop :=
| inserts_none : guarded_inserts db db
| inserts_more db1 db2 :
    guarded_inserts db db1 -> guarded_insert db1 db2 ->
    guarded_inserts db db2.

(** The store without the Schedule rows a filter rejects. *)
Definition keep_schedules (keep : Schedule -> bool) (db : DB) : DB :=
  mk_db (floors db) (classes db) (teachers db) (subjects db)
        (filter keep (schedules db)).

(** A property of the store that the removal of Schedule rows keeps. *)
Definition droppable (F : DB -> Prop) : Prop :=
  forall db keep, F db -> F (keep_schedules keep db).

(** A property of the store, and the floor a run works on is stored. *)
Definition on_floor (F : DB -> Prop) (floor : Floor) (db : DB)
  : Prop :=
  F db /\ In (floor_id floor) (map floor_id (floors db)).

(** A property of the store that no guarded insert breaks. *)
Definition stable (F : DB -> Prop) : Prop :=
  forall db db', F db -> guarded_insert db db' -> F db'.

(** [hoare P m Q R]: run on committed rows that satisfy [P], the
    computation ends with a value [a] on rows that satisfy [Q a], or by
    [continue] or an exception on rows that satisfy [R]. *)
Definition hoare {St A : Type} (P : DB -> Prop) (m : M St A)
           (Q : A -> DB -> Prop) (R : DB -> Prop) : Prop :=
  forall db st,
    P db ->
    match m (db, st) with
    | ((db', _), Value a) => Q a db'
    | ((db', _), _) => R db'
    end.

(** What the models declare: primary keys, the two UNIQUE columns and
    the foreign keys. *)
Record constraints_hold (db : DB) : Prop := mk_constraints {
  pk_floor : NoDup (map floor_id (floors db));
  pk_class : NoDup (map class_id (classes db));
  pk_teacher : NoDup (map teacher_id (teachers db));
  pk_subject : NoDup (map subject_id (subjects db));
  pk_schedule : NoDup (map schedule_id (schedules db));
  unique_floor_number : NoDup (map floor_number (floors db));
  unique_subject_name : NoDup (map subject_name (subjects db));
  fk_class :
    Forall (fun c => In (class_floor_id c) (map floor_id (floors db)))
           (classes db);
  fk_schedule :
    Forall (fun x => In (schedule_class_id x) (map class_id (classes db))
                     /\ In (schedule_teacher_id x)
                           (map teacher_id (teachers db))
                     /\ In (schedule_subject_id x)
                           (map subject_id (subjects db)))
           (schedules db)
}.

(** The natural keys the importers look rows up by. *)
Definition class_key (c : Class) : string * nat :=
  (class_name c, class_floor_id c).

Definition schedule_key (x : Schedule) : nat * nat * time * time :=
  (schedule_class_id x, day_of_week x, start_time x, end_time x).

(** No two classes of a floor share a name, no two teachers share a
    name, no two Schedule rows share a natural key. *)
Record keys_distinct (db : DB) : Prop := mk_keys_distinct {
  distinct_classes : NoDup (map class_key (classes db));
  distinct_teachers : NoDup (map teacher_name (teachers db));
  distinct_schedules : NoDup (map schedule_key (schedules db))
}.

(** *** The statistics and the rows *)









(** *** Attendance *)

(** The key [mark_attendance] looks a row up by. *)
Definition attendance_key (a : Attendances.Attendance) : nat * Attendances.date :=
  (Attendances.attendance_schedule_id a, Attendances.attendance_date a).

(** The sum of a counter over the lines of a dict. *)
Definition sum_of {V : Type} (counter : V -> nat) (lines : list V) : nat :=
  fold_right (fun line n => counter line + n) 0 lines.

(** The sum of the minutes over the lines of a dict. *)
Definition sum_minutes {V : Type} (minutes : V -> Z) (lines : list V) : Z :=
  fold_right (fun line n => (minutes line + n)%Z) 0%Z lines.

(** The minutes a row adds to the minutes late of its teacher. *)
Definition late_minutes (a : Attendances.Attendance) : Z :=
  if Attendances.status a =? "Late" then
    match Attendances.minutes_late a with
    | Some m => m
    | None => 0%Z
    end
  else 0%Z.

(** A line of statistics that is in order: the three status counters
    do not exceed the total, which counts one row at least. *)
Definition line_in_order (c : Attendances.counts) : Prop :=
  Attendances.present c + Attendances.late c + Attendances.absent c
  <= Attendances.total c
  /\ 0 < Attendances.total c.

(** *** All floors *)


(** *** The remaining floors *)

(** The number of the period of an entry. *)
Definition period_number (e : entry) : nat :=
  match int_of_str (e_period e) with
  | Some n => n
  | None => 0
  end.

(** Numbers that never go down along the list. *)
Fixpoint nondecreasing (l : list nat) : Prop :=
  match l with
  | [] => True
  | a :: rest => Forall (le a) rest /\ nondecreasing rest
  end.

End ExtraSpec.

(* ===================================================================== *)
(** * Properties *)
(* ===================================================================== *)

Import PyStr ClassifierSpec Timetable ExtractorSpec Store ImportSpec.

(** ** Facts about stripping and splitting *)

Section StripFacts.

Lemma rstrip_empty_iff s : rstrip s = "" <-> all_space s = true.
Proof.
  induction s as [|c s IH]; simpl; [tauto|].
  destruct (is_space c); simpl.
  - destruct (rstrip s) eqn:E; simpl.
    + split; intros _; [apply IH|]; reflexivity.
    + split; [discriminate|]. intros H. apply IH in H. discriminate.
  - split; discriminate.
Qed.

Lemma lstrip_empty_iff s : lstrip s = "" <-> all_space s = true.
Proof.
  induction s as [|c s IH]; simpl; [tauto|].
  destruct (is_space c); simpl; [exact IH|]. split; discriminate.
Qed.

Lemma all_space_lstrip s : all_space (lstrip s) = all_space s.
Proof.
  induction s as [|c s IH]; simpl; [reflexivity|].
  destruct (is_space c) eqn:E; simpl; [exact IH|]. now rewrite E.
Qed.

Lemma all_space_rstrip s : all_space (rstrip s) = all_space s.
Proof.
  induction s as [|c s IH]; simpl; [reflexivity|].
  destruct (is_space c) eqn:E; simpl.
  - destruct (rstrip s) eqn:R; simpl.
    + rewrite <- IH. reflexivity.
    + rewrite E. simpl. rewrite <- IH. reflexivity.
  - now rewrite E.
Qed.

Lemma strip_empty_iff s : strip s = "" <-> all_space s = true.
Proof.
  unfold strip. rewrite lstrip_empty_iff, all_space_rstrip. tauto.
Qed.

Lemma all_space_strip s : all_space (strip s) = all_space s.
Proof. unfold strip. now rewrite all_space_lstrip, all_space_rstrip. Qed.

Lemma truthy_strip s : truthy (strip s) = negb (all_space s).
Proof.
  unfold truthy. destruct (all_space s) eqn:E.
  - apply strip_empty_iff in E. now rewrite E.
  - destruct (strip s) eqn:S; [|reflexivity].
    apply strip_empty_iff in S. congruence.
Qed.

(** Stripping on the left and on the right commute. *)
Lemma lstrip_rstrip s : lstrip (rstrip s) = rstrip (lstrip s).
Proof.
  induction s as [|c s IH]; [reflexivity|].
  cbn [lstrip rstrip]. destruct (is_space c) eqn:E; cbn [andb].
  - rewrite <- IH. destruct (rstrip s) eqn:R; cbn [String.eqb lstrip].
    + reflexivity.
    + now rewrite E.
  - cbn [lstrip rstrip]. now rewrite E.
Qed.

Lemma lstrip_idem s : lstrip (lstrip s) = lstrip s.
Proof.
  induction s as [|c s IH]; simpl; [reflexivity|].
  destruct (is_space c) eqn:E; simpl; [exact IH|]. now rewrite E.
Qed.

Lemma rstrip_idem s : rstrip (rstrip s) = rstrip s.
Proof.
  induction s as [|c s IH]; [reflexivity|].
  cbn [rstrip]. destruct (is_space c && (rstrip s =? "")) eqn:E;
    [reflexivity|].
  cbn [rstrip]. rewrite IH, E. reflexivity.
Qed.

Lemma strip_idem s : strip (strip s) = strip s.
Proof.
  unfold strip.
  rewrite (lstrip_rstrip (lstrip (rstrip s))), lstrip_idem.
  rewrite <- lstrip_rstrip, rstrip_idem. reflexivity.
Qed.

Lemma all_space_append a b : all_space (a ++ b) = all_space a && all_space b.
Proof.
  induction a as [|c a IH]; simpl; [reflexivity|].
  rewrite IH. now rewrite andb_assoc.
Qed.

Lemma all_space_join_cons sep a rest :
  all_space a = false -> all_space (join sep (a :: rest)) = false.
Proof.
  intros H. unfold join. simpl. destruct rest; [exact H|].
  rewrite all_space_append, H. reflexivity.
Qed.

Lemma all_space_false_nonempty s : all_space s = false -> s <> "".
Proof. intros H E. subst s. discriminate. Qed.

(** Every line kept by the comprehension holds a non-blank character. *)
Lemma nonblank_lines_Forall text :
  Forall (fun l => all_space l = false) (nonblank_lines text).
Proof.
  unfold nonblank_lines, nbl. apply Forall_map, Forall_forall.
  intros l Hl. apply filter_In in Hl. destruct Hl as [_ Hl].
  rewrite truthy_strip in Hl. rewrite all_space_strip.
  now destruct (all_space l).
Qed.

Lemma strip_space_cons c s : is_space c = true -> strip (String c s) = strip s.
Proof.
  intros H. unfold strip. rewrite !lstrip_rstrip. cbn [lstrip].
  now rewrite H.
Qed.

Lemma strip_of_rstrip_eq a b : rstrip a = rstrip b -> strip a = strip b.
Proof. unfold strip. now intros ->. Qed.

Lemma rstrip_cons_eq c a b :
  rstrip a = rstrip b -> rstrip (String c a) = rstrip (String c b).
Proof. cbn [rstrip]. now intros ->. Qed.

Lemma is_space_LF : is_space LF = true.
Proof. reflexivity. Qed.

Lemma split_nl_cons c s :
  split_nl (String c s) =
  if Ascii.eqb c LF then "" :: split_nl s
  else match split_nl s with
       | [] => [String c ""]
       | l :: ls => String c l :: ls
       end.
Proof. reflexivity. Qed.

Lemma split_nl_nonempty s : split_nl s <> [].
Proof.
  destruct s as [|c s]; [discriminate|]. rewrite split_nl_cons.
  destruct (Ascii.eqb c LF); [discriminate|].
  destruct (split_nl s); discriminate.
Qed.

Lemma nbl_cons l ls :
  nbl (l :: ls) = if truthy (strip l) then strip l :: nbl ls else nbl ls.
Proof. unfold nbl. cbn [filter]. now destruct (truthy (strip l)). Qed.

Lemma nbl_cons_strip_eq l l' ls ls' :
  strip l' = strip l -> nbl ls' = nbl ls -> nbl (l' :: ls') = nbl (l :: ls).
Proof. intros H1 H2. rewrite !nbl_cons, H1, H2. reflexivity. Qed.

Lemma split_all_space s :
  all_space s = true -> Forall (fun l => all_space l = true) (split_nl s).
Proof.
  induction s as [|c s IH]; intros H.
  - repeat constructor.
  - cbn [all_space] in H. apply andb_true_iff in H. destruct H as [Hc Hs].
    specialize (IH Hs). rewrite split_nl_cons.
    destruct (Ascii.eqb c LF).
    + constructor; [reflexivity|exact IH].
    + destruct (split_nl s) as [|l ls]; [repeat constructor; cbn; now rewrite Hc|].
      inversion IH; subst. constructor; [|assumption].
      cbn [all_space]. now rewrite Hc.
Qed.

Lemma nbl_all_space ls :
  Forall (fun l => all_space l = true) ls -> nbl ls = [].
Proof.
  induction 1 as [|l ls Hl _ IH]; [reflexivity|].
  rewrite nbl_cons, truthy_strip, Hl. exact IH.
Qed.

Lemma nonblank_lines_all_space s : all_space s = true -> nonblank_lines s = [].
Proof. intros H. apply nbl_all_space, split_all_space, H. Qed.

Lemma nonblank_lines_space_cons c s :
  is_space c = true -> nonblank_lines (String c s) = nonblank_lines s.
Proof.
  intros H. unfold nonblank_lines. rewrite split_nl_cons.
  destruct (Ascii.eqb c LF).
  - rewrite nbl_cons. reflexivity.
  - destruct (split_nl s) as [|l ls] eqn:E; [now apply split_nl_nonempty in E|].
    apply nbl_cons_strip_eq; [now apply strip_space_cons|reflexivity].
Qed.

Lemma nonblank_lines_lstrip s : nonblank_lines (lstrip s) = nonblank_lines s.
Proof.
  induction s as [|c s IH]; [reflexivity|]. cbn [lstrip].
  destruct (is_space c) eqn:E; [|reflexivity].
  now rewrite nonblank_lines_space_cons.
Qed.

(** Stripping a text on the right rstrips its last kept line and drops
    the blank lines after it. *)
Lemma split_rstrip s :
  match split_nl s, split_nl (rstrip s) with
  | l :: ls, l' :: ls' => rstrip l' = rstrip l /\ nbl ls' = nbl ls
  | _, _ => False
  end.
Proof.
  induction s as [|c s IH]; [split; reflexivity|].
  cbn [rstrip].
  destruct (is_space c && (rstrip s =? "")) eqn:E.
  - apply andb_true_iff in E. destruct E as [Hc Hr].
    apply String.eqb_eq, rstrip_empty_iff in Hr.
    pose proof (split_all_space s Hr) as Hall.
    rewrite split_nl_cons. cbn [split_nl].
    destruct (Ascii.eqb c LF).
    + split; [reflexivity|]. symmetry. now apply nbl_all_space.
    + destruct (split_nl s) as [|l ls]; [inversion IH|].
      inversion Hall; subst. split.
      * symmetry. apply rstrip_empty_iff. cbn [all_space].
        now rewrite Hc.
      * symmetry. now apply nbl_all_space.
  - rewrite !split_nl_cons.
    destruct (split_nl s) as [|l ls]; [destruct IH|].
    destruct (split_nl (rstrip s)) as [|l' ls']; [destruct IH|].
    destruct IH as [H1 H2].
    destruct (Ascii.eqb c LF).
    + split; [reflexivity|].
      apply nbl_cons_strip_eq; [now apply strip_of_rstrip_eq|exact H2].
    + split; [now apply rstrip_cons_eq|exact H2].
Qed.

Lemma nonblank_lines_rstrip s : nonblank_lines (rstrip s) = nonblank_lines s.
Proof.
  pose proof (split_rstrip s) as H. unfold nonblank_lines.
  fold (nbl (split_nl (rstrip s))). fold (nbl (split_nl s)).
  destruct (split_nl s) as [|l ls]; [destruct H|].
  destruct (split_nl (rstrip s)) as [|l' ls']; [destruct H|].
  destruct H as [H1 H2].
  apply nbl_cons_strip_eq; [now apply strip_of_rstrip_eq|exact H2].
Qed.

(** The lines kept from a text are those kept from the stripped text. *)
Lemma nonblank_lines_strip s : nonblank_lines (strip s) = nonblank_lines s.
Proof.
  unfold strip. now rewrite nonblank_lines_lstrip, nonblank_lines_rstrip.
Qed.

End StripFacts.

(** ** The cell classifier *)

Lemma hd_nbl pieces :
  hd_error (nbl pieces) =
  option_map strip (find (fun line => truthy (strip line)) pieces).
Proof.
  induction pieces as [|l ls IH]; [reflexivity|].
  rewrite nbl_cons. cbn [find]. destruct (truthy (strip l)); [reflexivity|].
  exact IH.
Qed.

(** The first kept line is the stripped subject line of the raw text. *)
Lemma hd_nonblank_lines_strip cell_text :
  hd_error (nonblank_lines (strip cell_text)) =
  option_map strip (subject_line cell_text).
Proof. rewrite nonblank_lines_strip. apply hd_nbl. Qed.

Lemma join_rest_nonblank sep l0 rest :
  Forall (fun l => all_space l = false) (l0 :: rest) ->
  (1 <? List.length (l0 :: rest))%nat = true ->
  all_space (join sep rest) = false.
Proof.
  intros HF Hlen. inversion HF as [|? ? _ Hrest]; subst.
  destruct rest as [|r0 rs]; [discriminate|].
  inversion Hrest; subst. now apply all_space_join_cons.
Qed.

Lemma smart_well_paired cell_text :
  well_paired (Smart.extract_subject_and_teacher cell_text).
Proof.
  unfold Smart.extract_subject_and_teacher.
  destruct (negb (truthy cell_text) || (strip cell_text =? "")); [now left|].
  destruct (existsb _ Smart.skip_keywords); [now left|].
  pose proof (nonblank_lines_Forall (strip cell_text)) as HF.
  destruct (nonblank_lines (strip cell_text)) as [|l0 rest]; [now left|].
  right. eexists _, _. split; [reflexivity|]. split.
  - inversion HF; subst. now apply all_space_false_nonempty.
  - destruct (1 <? List.length (l0 :: rest))%nat eqn:Hlen; [|discriminate].
    apply all_space_false_nonempty. now apply join_rest_nonblank with l0.
Qed.

Lemma complete_well_paired cell_text :
  well_paired (Complete.extract_subject_and_teacher cell_text).
Proof.
  unfold Complete.extract_subject_and_teacher.
  destruct (negb (truthy cell_text) || (strip cell_text =? "")); [now left|].
  destruct (existsb _ Complete.skip_keywords); [now left|].
  destruct (String.length (strip cell_text) <? 2)%nat; [now left|].
  pose proof (nonblank_lines_Forall (strip cell_text)) as HF.
  destruct (nonblank_lines (strip cell_text)) as [|l0 rest]; [now left|].
  cbv zeta.
  destruct (String.length (strip l0) <? 2)%nat eqn:Hsub; [now left|].
  right. eexists _, _. split; [reflexivity|]. split.
  - intros E. rewrite E in Hsub. discriminate.
  - destruct (1 <? List.length (l0 :: rest))%nat eqn:Hlen; [|discriminate].
    intros E. apply strip_empty_iff in E.
    rewrite (join_rest_nonblank " " l0 rest HF Hlen) in E. discriminate.
Qed.

(** C10. Whatever the cell text, each classifier returns either
    [(None, None)] or a pair whose subject and teacher are both present and
    both non-empty: never a subject without a teacher, never a teacher
    without a subject. *)
Theorem extract_subject_and_teacher_paired (cell_text : string) :
  well_paired (Smart.extract_subject_and_teacher cell_text)
  /\ well_paired (Complete.extract_subject_and_teacher cell_text).
Proof. split; [apply smart_well_paired|apply complete_well_paired]. Qed.

(** C4 fails on import_complete_schedules.py: its sentinel teacher of a
    one-line cell is "Unknown Teacher", not "Unknown". *)
Lemma classifier_vector_complete_art :
  Complete.extract_subject_and_teacher "Art" <> (Some "Art", Some "Unknown").
Proof. discriminate. Qed.

(** C4, amended. Both classifiers map "Math\nMr. Ali" to ("Math", "Mr. Ali")
    and map "Break" and the empty text to [(None, None)]; the one-line cell
    "Art" comes back as ("Art", "Unknown") from import_schedule_smart.py and
    as ("Art", "Unknown Teacher") from import_complete_schedules.py. *)
Theorem classifier_reference_vector :
  (Smart.extract_subject_and_teacher ("Math" ++ nl ++ "Mr. Ali")
     = (Some "Math", Some "Mr. Ali")
   /\ Smart.extract_subject_and_teacher "Break" = (None, None)
   /\ Smart.extract_subject_and_teacher "" = (None, None)
   /\ Smart.extract_subject_and_teacher "Art" = (Some "Art", Some "Unknown"))
  /\
  (Complete.extract_subject_and_teacher ("Math" ++ nl ++ "Mr. Ali")
     = (Some "Math", Some "Mr. Ali")
   /\ Complete.extract_subject_and_teacher "Break" = (None, None)
   /\ Complete.extract_subject_and_teacher "" = (None, None)
   /\ Complete.extract_subject_and_teacher "Art"
      = (Some "Art", Some "Unknown Teacher")).
Proof. repeat split. Qed.

(** The complete classifier computes the ordered rule list. *)
Lemma complete_follows_rules cell_text :
  Complete.extract_subject_and_teacher cell_text
  = pair_of_class (classify_by_rules Complete.skip_keywords "Unknown Teacher"
                     cell_text).
Proof.
  unfold Complete.extract_subject_and_teacher, classify_by_rules, is_filler.
  destruct (negb (truthy cell_text) || (strip cell_text =? "")) eqn:E.
  - assert (Hs : strip cell_text = "").
    { apply orb_true_iff in E. destruct E as [E|E].
      - destruct cell_text; [reflexivity|discriminate].
      - now apply String.eqb_eq. }
    rewrite Hs. reflexivity.
  - cbv zeta. destruct (existsb _ Complete.skip_keywords); [reflexivity|].
    destruct (String.length (strip cell_text) <? 2)%nat; [reflexivity|].
    destruct (nonblank_lines (strip cell_text)) as [|l0 rest]; [reflexivity|].
    destruct (String.length (strip l0) <? 2)%nat; [reflexivity|].
    destruct rest; reflexivity.
Qed.

Lemma complete_filler_first cell_text :
  is_filler Complete.skip_keywords (strip cell_text) = true ->
  Complete.extract_subject_and_teacher cell_text = (None, None).
Proof.
  intros H. rewrite complete_follows_rules. unfold classify_by_rules.
  cbv zeta. now rewrite H.
Qed.

Lemma complete_short_subject cell_text line :
  subject_line cell_text = Some line ->
  String.length (strip line) < 2 ->
  Complete.extract_subject_and_teacher cell_text = (None, None).
Proof.
  intros Hline Hlen. pose proof (hd_nonblank_lines_strip cell_text) as Hhd.
  rewrite Hline in Hhd. cbn [option_map] in Hhd.
  unfold Complete.extract_subject_and_teacher.
  destruct (negb (truthy cell_text) || (strip cell_text =? "")); [reflexivity|].
  destruct (existsb _ Complete.skip_keywords); [reflexivity|].
  destruct (String.length (strip cell_text) <? 2)%nat; [reflexivity|].
  destruct (nonblank_lines (strip cell_text)) as [|l0 rest]; [reflexivity|].
  cbn [hd_error] in Hhd. injection Hhd as ->. cbv zeta.
  rewrite strip_idem. apply Nat.ltb_lt in Hlen. now rewrite Hlen.
Qed.

Lemma smart_filler_first cell_text :
  is_filler Smart.skip_keywords (strip cell_text) = true ->
  Smart.extract_subject_and_teacher cell_text = (None, None).
Proof.
  intros H. unfold Smart.extract_subject_and_teacher.
  destruct (negb (truthy cell_text) || (strip cell_text =? "")); [reflexivity|].
  unfold is_filler in H. cbv zeta. now rewrite H.
Qed.

(** C5 fails on import_schedule_smart.py, which has no length check: the
    one-character subject line "A" is classified academic. *)
Lemma smart_accepts_short_subject :
  subject_line "A" = Some "A"
  /\ String.length (strip "A") < 2
  /\ Smart.extract_subject_and_teacher "A" = (Some "A", Some "Unknown").
Proof. repeat split. auto. Qed.

(** C5, amended. In import_complete_schedules.py a filler keyword in the
    stripped cell yields [(None, None)] before the length checks are
    consulted, and a cell whose subject line (first non-blank line) strips
    to fewer than 2 characters yields [(None, None)]. import_schedule_smart.py
    gives the filler keywords the same precedence (and has no length rule). *)
Theorem classifier_rule_order :
  (forall cell_text,
      is_filler Complete.skip_keywords (strip cell_text) = true ->
      Complete.extract_subject_and_teacher cell_text = (None, None))
  /\ (forall cell_text line,
      subject_line cell_text = Some line ->
      String.length (strip line) < 2 ->
      Complete.extract_subject_and_teacher cell_text = (None, None))
  /\ (forall cell_text,
      is_filler Smart.skip_keywords (strip cell_text) = true ->
      Smart.extract_subject_and_teacher cell_text = (None, None)).
Proof.
  split; [exact complete_filler_first|].
  split; [exact complete_short_subject|exact smart_filler_first].
Qed.

Lemma classifier_rule_order_witness :
  (is_filler Complete.skip_keywords (strip "Lunch Break") = true
   /\ Complete.extract_subject_and_teacher "Lunch Break" = (None, None))
  /\ (subject_line (nl ++ " Q " ++ nl ++ "Mr. Ali") = Some " Q "
      /\ String.length (strip " Q ") < 2
      /\ Complete.extract_subject_and_teacher (nl ++ " Q " ++ nl ++ "Mr. Ali")
         = (None, None))
  /\ (is_filler Smart.skip_keywords (strip "Breakfast") = true
      /\ Smart.extract_subject_and_teacher "Breakfast" = (None, None)).
Proof.
  destruct classifier_rule_order as [H1 [H2 H3]].
  split; [|split].
  - split; [reflexivity|]. apply H1. reflexivity.
  - split; [reflexivity|]. split; [simpl; lia|].
    apply (H2 _ " Q "); [reflexivity|simpl; lia].
  - split; [reflexivity|]. apply H3. reflexivity.
Defined.

(** ** The day resolver *)

Lemma find_none_forallb {A} (f : A -> bool) l :
  find f l = None <-> forallb (fun a => negb (f a)) l = true.
Proof.
  induction l as [|a l IH]; cbn [find forallb]; [tauto|].
  destruct (f a); cbn [negb andb]; [split; discriminate|exact IH].
Qed.

Lemma day_in_row_none r :
  Complete.day_in_row r = None <->
  forallb (fun c : cell =>
             match c with
             | None => true
             | Some text =>
                 forallb (fun kv : string * nat =>
                            negb (str_in (fst kv) (lower text))) DAY_MAPPING
             end) r = true.
Proof.
  induction r as [|c r IH]; cbn [Complete.day_in_row forallb]; [tauto|].
  destruct c as [text|]; cbn [truthy_opt negb str].
  - destruct text as [|ch text]; cbn [truthy String.eqb negb].
    + exact IH.
    + unfold Complete.day_in_text.
      destruct (find _ DAY_MAPPING) eqn:F.
      * split; [discriminate|]. intros H. apply andb_true_iff in H.
        destruct H as [H _]. apply find_none_forallb in H. congruence.
      * apply find_none_forallb in F. rewrite F. exact IH.
  - exact IH.
Qed.

Lemma day_in_rows_none rows :
  Complete.day_in_rows rows = None <->
  forallb
    (forallb (fun c : cell =>
                match c with
                | None => true
                | Some text =>
                    forallb (fun kv : string * nat =>
                               negb (str_in (fst kv) (lower text)))
                            DAY_MAPPING
                end)) rows = true.
Proof.
  induction rows as [|r rows IH]; cbn [Complete.day_in_rows forallb]; [tauto|].
  destruct (Complete.day_in_row r) eqn:E.
  - split; [discriminate|]. intros H. apply andb_true_iff in H.
    destruct H as [H _]. apply day_in_row_none in H. congruence.
  - apply day_in_row_none in E. rewrite E. exact IH.
Qed.

Lemma day_from_table_none t :
  Complete.day_from_table t = None <-> header_day_free t = true.
Proof. apply day_in_rows_none. Qed.

Lemma str_in_nonempty kw text : str_in kw text = true -> kw <> "" -> text <> "".
Proof. intros H Hkw ->. destruct kw; [congruence|discriminate]. Qed.

Lemma day_fallback_applies t pg text :
  header_day_free t = true ->
  page_text pg = Some text ->
  str_in "tuesday" (lower text) = true ->
  Complete.resolve_day t pg = Complete.day_in_text (lower text)
  /\ Complete.resolve_day t pg <> None.
Proof.
  intros Hh Ht Htue. apply day_from_table_none in Hh.
  unfold Complete.resolve_day, Complete.day_from_text. rewrite Hh, Ht.
  assert (Hne : truthy text = true).
  { destruct text; [discriminate|reflexivity]. }
  rewrite Hne. split; [reflexivity|].
  unfold Complete.day_in_text, DAY_MAPPING. cbn [find fst].
  rewrite Htue. destruct (str_in "sunday" _); [discriminate|].
  destruct (str_in "monday" _); discriminate.
Qed.

(** C7 fails when the page text names an earlier day of [DAY_MAPPING]
    too: the fall-back takes the first of sunday, monday, tuesday, ... found
    in the text, here sunday (6). *)
Lemma day_fallback_prefers_sunday :
  let t := [[Some "Class"; Some "1"; Some "2"]] in
  let pg := mk_page [t] (Some "Week Sunday - Thursday: Tuesday") in
  header_day_free t = true
  /\ str_in "tuesday" (lower "Week Sunday - Thursday: Tuesday") = true
  /\ Complete.resolve_day t pg = Some ("sunday", 6).
Proof. repeat split. Qed.

(** C7, amended. In import_complete_schedules.py, for a page whose header
    cells (the first three rows of its first table) hold no day name and
    whose text contains "tuesday" (case-insensitive), the resolver applies
    the full-text fall-back and never answers not-found: it returns the
    first day, in the order sunday, monday, tuesday, ..., named in the text;
    that is day 1 when the text names neither sunday nor monday. *)
Theorem day_fallback_tuesday (t : table) (pg : page) (text : string) :
  header_day_free t = true ->
  page_text pg = Some text ->
  str_in "tuesday" (lower text) = true ->
  Complete.resolve_day t pg = Complete.day_in_text (lower text)
  /\ Complete.resolve_day t pg <> None
  /\ (str_in "sunday" (lower text) = false ->
      str_in "monday" (lower text) = false ->
      Complete.resolve_day t pg = Some ("tuesday", 1)).
Proof.
  intros Hh Ht Htue.
  destruct (day_fallback_applies t pg text Hh Ht Htue) as [H1 H2].
  split; [exact H1|]. split; [exact H2|].
  intros Hsun Hmon. rewrite H1.
  unfold Complete.day_in_text, DAY_MAPPING. cbn [find fst].
  now rewrite Hsun, Hmon, Htue.
Qed.

Lemma day_fallback_tuesday_witness :
  let t := [[Some "Class"; Some "1"; Some "2"]; [Some "7A"; Some "Math"]] in
  let text := "Second floor timetable, TUESDAY" in
  let pg := mk_page [t] (Some text) in
  header_day_free t = true
  /\ str_in "tuesday" (lower text) = true
  /\ str_in "sunday" (lower text) = false
  /\ str_in "monday" (lower text) = false
  /\ Complete.resolve_day t pg = Some ("tuesday", 1).
Proof.
  intros t text pg.
  split; [reflexivity|]. split; [reflexivity|].
  split; [reflexivity|]. split; [reflexivity|].
  apply (day_fallback_tuesday t pg text); reflexivity.
Defined.

(** ** The table locator *)

Lemma scan_row_count col_idx r :
  snd (Complete.scan_row col_idx r) = token_cells r
  /\ List.length (fst (Complete.scan_row col_idx r)) = token_cells r.
Proof.
  revert col_idx. unfold token_cells.
  induction r as [|c r IH]; intros col_idx; [split; reflexivity|].
  cbn [Complete.scan_row filter]. specialize (IH (S col_idx)).
  destruct (Complete.scan_row (S col_idx) r) as [cols count].
  cbn [fst snd] in IH. destruct IH as [IH1 IH2].
  destruct (Complete.cell_period c); cbn [fst snd List.length]; auto.
Qed.

(** The recorded mapping sends a column to the period of its cell. *)
Lemma scan_row_In col_idx r c period_num :
  In (c, period_num) (fst (Complete.scan_row col_idx r)) <->
  exists k cl, c = col_idx + k /\ nth_error r k = Some cl
               /\ Complete.cell_period cl = Some period_num.
Proof.
  revert col_idx. induction r as [|c0 r IH]; intros col_idx.
  - cbn. split; [tauto|]. intros (k & cl & _ & H & _). now destruct k.
  - cbn [Complete.scan_row]. specialize (IH (S col_idx)).
    destruct (Complete.scan_row (S col_idx) r) as [cols count].
    cbn [fst] in IH.
    assert (Hrest : In (c, period_num) cols <->
                    exists k cl, c = col_idx + S k /\ nth_error r k = Some cl
                      /\ Complete.cell_period cl = Some period_num).
    { rewrite IH. split; intros (k & cl & H1 & H2); exists k, cl;
        (split; [lia|exact H2]). }
    destruct (Complete.cell_period c0) eqn:E; cbn [fst In].
    + split.
      * intros [H|H].
        -- injection H as <- <-. exists 0, c0. repeat split; [lia|exact E].
        -- apply Hrest in H. destruct H as (k & cl & H1 & H2 & H3).
           exists (S k), cl. auto.
      * intros (k & cl & H1 & H2 & H3). destruct k as [|k].
        -- left. cbn in H2. injection H2 as <-. rewrite E in H3.
           injection H3 as <-. f_equal. lia.
        -- right. apply Hrest. exists k, cl. auto.
    + rewrite Hrest. split.
      * intros (k & cl & H1 & H2 & H3). exists (S k), cl. auto.
      * intros (k & cl & H1 & H2 & H3). destruct k as [|k].
        -- cbn in H2. injection H2 as <-. congruence.
        -- exists k, cl. auto.
Qed.

Lemma find_period_row_from_spec rows k i cols :
  Complete.find_period_row_from k rows = Some (i, cols) <->
  exists n r, i = k + n /\ nth_error rows n = Some r
              /\ 3 <= token_cells r
              /\ cols = fst (Complete.scan_row 0 r)
              /\ forall m r', m < n -> nth_error rows m = Some r' ->
                              token_cells r' < 3.
Proof.
  revert k. induction rows as [|r rows IH]; intros k.
  - cbn. split; [discriminate|]. intros (n & r & _ & H & _). now destruct n.
  - cbn [Complete.find_period_row_from].
    pose proof (scan_row_count 0 r) as [Hc _].
    destruct (Complete.scan_row 0 r) as [temp count] eqn:Es. cbn [snd] in Hc.
    assert (Hempty : nonempty r = false -> token_cells r < 3).
    { destruct r; [cbn; lia|discriminate]. }
    assert (Hstep :
      token_cells r < 3 ->
      (Complete.find_period_row_from (S k) rows = Some (i, cols) <->
       exists n r0, i = k + n /\ nth_error (r :: rows) n = Some r0
         /\ 3 <= token_cells r0 /\ cols = fst (Complete.scan_row 0 r0)
         /\ forall m r', m < n -> nth_error (r :: rows) m = Some r' ->
                         token_cells r' < 3)).
    { intros Hlt. rewrite IH. split.
      - intros (n & r0 & H1 & H2 & H3 & H4 & H5).
        exists (S n), r0. repeat split; auto; [lia|].
        intros m r' Hm Hr'. destruct m as [|m].
        + cbn in Hr'. injection Hr' as <-. exact Hlt.
        + apply (H5 m); [lia|exact Hr'].
      - intros (n & r0 & H1 & H2 & H3 & H4 & H5). destruct n as [|n].
        + cbn in H2. injection H2 as <-. lia.
        + exists n, r0. repeat split; auto; [lia|].
          intros m r' Hm Hr'. apply (H5 (S m)); [lia|exact Hr']. }
    destruct (nonempty r) eqn:En; cbn [negb].
    + destruct (3 <=? count)%nat eqn:E3.
      * apply Nat.leb_le in E3. split.
        -- intros H. injection H as <- <-. exists 0, r.
           rewrite Es. repeat split; auto; try lia.
        -- intros (n & r0 & H1 & H2 & H3 & H4 & H5). destruct n as [|n].
           ++ cbn in H2. injection H2 as <-. rewrite Es in H4. subst.
              f_equal. f_equal. lia.
           ++ specialize (H5 0 r). cbn in H5.
              assert (token_cells r < 3) by (apply H5; [lia|reflexivity]). lia.
      * apply Nat.leb_gt in E3. apply Hstep. lia.
    + apply Hstep. now apply Hempty.
Qed.

Lemma nth_error_firstn_iff {A} n (l : list A) i x :
  nth_error (firstn n l) i = Some x <-> i < n /\ nth_error l i = Some x.
Proof.
  revert l i. induction n as [|n IH]; intros l i.
  - cbn. split; [now destruct i|lia].
  - destruct l as [|a l]; cbn [firstn].
    + split; [now destruct i|]. intros [_ H]. now destruct i.
    + destruct i as [|i]; cbn [nth_error].
      * split; [intros H; split; [lia|exact H]|tauto].
      * rewrite IH. split; intros [H1 H2]; (split; [lia|exact H2]).
Qed.

Lemma find_period_row_spec t i cols :
  Complete.find_period_row t = Some (i, cols) <->
  i < 5 /\ exists r, nth_error t i = Some r
           /\ 3 <= token_cells r
           /\ cols = fst (Complete.scan_row 0 r)
           /\ forall j r', j < i -> nth_error t j = Some r' ->
                           token_cells r' < 3.
Proof.
  unfold Complete.find_period_row. rewrite find_period_row_from_spec. split.
  - intros (n & r & H1 & H2 & H3 & H4 & H5). cbn in H1. subst i.
    apply nth_error_firstn_iff in H2. destruct H2 as [Hn H2].
    split; [exact Hn|]. exists r. repeat split; auto.
    intros j r' Hj Hr'. apply (H5 j); [exact Hj|].
    apply nth_error_firstn_iff. split; [lia|exact Hr'].
  - intros (Hi & r & H2 & H3 & H4 & H5). exists i, r.
    repeat split; auto.
    + apply nth_error_firstn_iff. auto.
    + intros m r' Hm Hr'. apply nth_error_firstn_iff in Hr'.
      apply (H5 m); tauto.
Qed.

Lemma find_period_row_firstn t :
  Complete.find_period_row t = Complete.find_period_row (firstn 5 t).
Proof.
  unfold Complete.find_period_row. now rewrite firstn_firstn.
Qed.

Lemma page_skipped_without_period_row pg t others rest :
  page_tables pg = t :: others ->
  Complete.find_period_row t = None ->
  Complete.page_entries pg = []
  /\ Complete.extract_schedules_from_pdf (pg :: rest)
     = Complete.extract_schedules_from_pdf rest.
Proof.
  intros Ht Hnone.
  assert (H : Complete.page_entries pg = []).
  { unfold Complete.page_entries. rewrite Ht, Hnone.
    destruct (Complete.resolve_day t pg) as [[? ?]|]; reflexivity. }
  split; [exact H|].
  unfold Complete.extract_schedules_from_pdf. cbn [flat_map]. now rewrite H.
Qed.

(** C6 fails on a row whose matching cells repeat one period: three cells
    "1" are accepted as the period row though they name a single period. *)
Lemma period_row_counts_cells :
  let r := [Some "1"; Some "1"; Some "1"] in
  Complete.find_period_row [r] = Some (0, [(0, "1"); (1, "1"); (2, "1")])
  /\ distinct_periods r = 1.
Proof. split; reflexivity. Qed.

(** C6, amended. In import_complete_schedules.py the locator reads only
    the first 5 rows of the table; row [i] is accepted as the period row
    exactly when it is the first of them with at least 3 cells matching a
    period token (the periods matched need not differ), the mapping
    recorded sends each matching column to the period of its cell, and no
    later row is looked at; when no row qualifies the page adds no entry
    and the run goes on with the next page. *)
Theorem period_row_located (t : table) :
  Complete.find_period_row t = Complete.find_period_row (firstn 5 t)
  /\ (forall i cols,
        Complete.find_period_row t = Some (i, cols) <->
        i < 5 /\ exists r,
          nth_error t i = Some r
          /\ 3 <= token_cells r
          /\ cols = fst (Complete.scan_row 0 r)
          /\ (forall c period_num,
                In (c, period_num) cols <->
                exists cl, nth_error r c = Some cl
                           /\ Complete.cell_period cl = Some period_num)
          /\ forall j r', j < i -> nth_error t j = Some r' ->
                          token_cells r' < 3)
  /\ (Complete.find_period_row t = None ->
      forall pg others rest,
        page_tables pg = t :: others ->
        Complete.page_entries pg = []
        /\ Complete.extract_schedules_from_pdf (pg :: rest)
           = Complete.extract_schedules_from_pdf rest).
Proof.
  split; [apply find_period_row_firstn|]. split.
  - intros i cols. rewrite find_period_row_spec. split.
    + intros (Hi & r & H1 & H2 & H3 & H4). split; [exact Hi|].
      exists r. repeat split; auto.
      * intros H. subst cols. apply scan_row_In in H.
        destruct H as (k & cl & -> & Hk). exists cl. exact Hk.
      * intros (cl & Hcl). subst cols. apply scan_row_In.
        exists c, cl. split; [reflexivity|exact Hcl].
    + intros (Hi & r & H1 & H2 & H3 & _ & H4). split; [exact Hi|].
      exists r. auto.
  - intros Hnone pg others rest Ht.
    now apply page_skipped_without_period_row with t others.
Qed.

Lemma period_row_located_witness :
  let header := [Some "Class"; Some "1"; Some "2"; Some "3"] in
  let t := [[Some "Second floor"]; header; [Some "7A"; Some "Math"]] in
  let blank := [[Some "Notes"; None]; [Some "1"; Some "2"]] in
  Complete.find_period_row t = Some (1, [(1, "1"); (2, "2"); (3, "3")])
  /\ (Complete.find_period_row blank = None
      /\ Complete.extract_schedules_from_pdf
           [mk_page [blank] (Some "Monday"); mk_page [t] (Some "Monday")]
         = Complete.extract_schedules_from_pdf [mk_page [t] (Some "Monday")]).
Proof.
  intros header t blank. split.
  - destruct (period_row_located t) as [_ [H _]].
    destruct (H 1 (fst (Complete.scan_row 0 header))) as [_ Hback].
    apply Hback. split; [lia|]. exists header.
    split; [reflexivity|]. split; [vm_compute; lia|].
    split; [reflexivity|]. split.
    + intros c period_num. rewrite scan_row_In. cbn [Nat.add]. split.
      * intros (k & cl & -> & Hk). exists cl. exact Hk.
      * intros (cl & Hcl). exists c, cl. split; [reflexivity|exact Hcl].
    + intros j r' Hj Hr'. assert (j = 0) by lia. subst j.
      cbn in Hr'. injection Hr' as <-. vm_compute. lia.
  - split; [reflexivity|].
    destruct (period_row_located blank) as [_ [_ H]].
    apply (H eq_refl (mk_page [blank] (Some "Monday")) []). reflexivity.
Defined.

(** ** Complete mode: ten entries per class row *)

(** A row is processed exactly when its first cell holds a text whose
    stripped form, the class name, has at least 2 characters. *)
Lemma class_name_of_spec (r : row) class_name :
  class_name_of r = Some class_name <->
  exists first rest,
    r = Some first :: rest /\ first <> ""
    /\ class_name = strip first /\ 2 <= String.length class_name.
Proof.
  unfold class_name_of. destruct r as [|[first|] rest]; cbn [truthy_opt negb].
  - split; [discriminate|]. intros (f & l & H & _). discriminate.
  - destruct first as [|c first]; cbn [truthy String.eqb negb].
    + split; [discriminate|]. intros (f & l & H & Hne & _).
      injection H as <- _. congruence.
    + cbn [str]. destruct (truthy (strip (String c first))) eqn:Et;
        cbn [negb orb].
      * destruct (String.length (strip (String c first)) <? 2)%nat eqn:El.
        -- apply Nat.ltb_lt in El. split; [discriminate|].
           intros (f & l & H & _ & -> & Hlen). injection H as <- _. lia.
        -- apply Nat.ltb_ge in El. split.
           ++ intros H. injection H as <-. exists (String c first), rest.
              repeat split; auto. discriminate.
           ++ intros (f & l & H & _ & -> & _). now injection H as <- _.
      * split; [discriminate|].
        intros (f & l & H & _ & -> & Hlen). injection H as <- _.
        unfold truthy in Et. destruct (strip (String c first));
          [cbn in Hlen; lia|discriminate].
  - split; [discriminate|]. intros (f & l & H & _). discriminate.
Qed.

(** Every period of the loop has a catalogue interval that parses. *)
Lemma catalogue_complete period_num :
  In period_num period_nums ->
  exists s e st et,
    dict_get TIME_PERIODS period_num = Some (s, e)
    /\ truthy s = true /\ truthy e = true
    /\ parse_time s = Some st /\ parse_time e = Some et.
Proof.
  unfold period_nums. cbn [In]. intros H.
  repeat (destruct H as [<-|H];
          [do 4 eexists; repeat split; reflexivity|]).
  destruct H.
Qed.

Lemma well_paired_cases r :
  well_paired r ->
  (r = (None, None))
  \/ exists subject teacher,
      r = (Some subject, Some teacher)
      /\ truthy subject = true /\ truthy teacher = true
      /\ subject <> "" /\ teacher <> "".
Proof.
  intros [H|(s & t & H & Hs & Ht)]; [now left|right].
  exists s, t. repeat split; auto.
  - destruct s; [congruence|reflexivity].
  - destruct t; [congruence|reflexivity].
Qed.

Lemma period_entry_shape class_name day_num day_name period_columns r
      period_num :
  In period_num period_nums ->
  exists e,
    Complete.period_entry class_name day_num day_name period_columns r
                          period_num = Some e
    /\ e_period e = period_num
    /\ e_class_name e = Some class_name
    /\ e_day e = Some day_num
    /\ (academic e \/ placeholder e).
Proof.
  intros Hin.
  destruct (catalogue_complete period_num Hin)
    as (s & e & st & et & Hget & Hs & He & Hps & Hpe).
  unfold Complete.period_entry. rewrite Hget.
  cbn [truthy_opt str]. rewrite Hs, He. cbn [negb orb]. rewrite Hps, Hpe.
  set (found := match Complete.column_of_period period_columns period_num with
                | Some col_idx => _
                | None => _
                end).
  assert (Hwp : well_paired found).
  { subst found.
    destruct (Complete.column_of_period period_columns period_num) as [c|];
      [|now left].
    destruct (c <? List.length r)%nat; [|now left].
    destruct (truthy_opt (nth c r None)); [|now left].
    apply complete_well_paired. }
  apply well_paired_cases in Hwp.
  destruct Hwp as [->|(subject & teacher & -> & Hts & Htt & Hns & Hnt)].
  - cbn [truthy_opt negb orb]. eexists. split; [reflexivity|].
    cbn. repeat split. right. repeat split.
  - cbn [truthy_opt]. rewrite Hts, Htt. cbn [negb orb].
    eexists. split; [reflexivity|]. cbn. repeat split.
    left. split; [reflexivity|]. exists subject, teacher. auto.
Qed.

Lemma keep_some_total {A B} (f : A -> option B) (P : A -> B -> Prop) l :
  (forall a, In a l -> exists b, f a = Some b /\ P a b) ->
  Forall2 P l (keep_some f l).
Proof.
  induction l as [|a l IH]; intros H; [constructor|].
  cbn [keep_some].
  destruct (H a (or_introl eq_refl)) as (b & Hb & HP). rewrite Hb.
  constructor; [exact HP|]. apply IH. intros a' Ha'. apply H. now right.
Qed.

Lemma Forall2_length_map {A B} (g : B -> A) (Q : B -> Prop) l l' :
  Forall2 (fun a b => g b = a /\ Q b) l l' ->
  List.length l' = List.length l /\ map g l' = l /\ Forall Q l'.
Proof.
  induction 1 as [|a b l l' [Hg HQ] _ (IH1 & IH2 & IH3)];
    [repeat split; constructor|].
  cbn. repeat split; [now rewrite IH1|now rewrite Hg, IH2|].
  constructor; assumption.
Qed.

Lemma row_entries_ten day_num day_name period_columns r class_name :
  class_name_of r = Some class_name ->
  let es := Complete.row_entries day_num day_name period_columns r in
  List.length es = 10
  /\ map e_period es = period_nums
  /\ Forall (fun e => e_class_name e = Some class_name
                      /\ e_day e = Some day_num
                      /\ (academic e \/ placeholder e)) es.
Proof.
  intros Hc es. subst es. unfold Complete.row_entries. rewrite Hc.
  change 10 with (List.length period_nums).
  apply Forall2_length_map.
  apply keep_some_total. intros p Hp.
  destruct (period_entry_shape class_name day_num day_name period_columns
              r p Hp) as (e & He & H1 & H2 & H3 & H4).
  exists e. auto.
Qed.

Lemma flat_map_length_const {A B} (f : A -> list B) (keep : A -> bool) n l :
  (forall a, keep a = true -> List.length (f a) = n) ->
  (forall a, keep a = false -> f a = []) ->
  List.length (flat_map f l) = n * List.length (filter keep l).
Proof.
  intros Hk Hd. induction l as [|a l IH]; cbn [flat_map filter].
  - cbn. lia.
  - rewrite length_app, IH. destruct (keep a) eqn:E.
    + rewrite (Hk a E). cbn [List.length]. lia.
    + rewrite (Hd a E). cbn. lia.
Qed.

Lemma page_entries_count pg t others day_name day_num period_row_idx
      period_columns :
  page_tables pg = t :: others ->
  Complete.resolve_day t pg = Some (day_name, day_num) ->
  Complete.find_period_row t = Some (period_row_idx, period_columns) ->
  Complete.page_entries pg
  = flat_map (Complete.row_entries day_num day_name period_columns)
             (skipn (period_row_idx + 1) t)
  /\ List.length (Complete.page_entries pg)
     = 10 * List.length (filter is_class_row (skipn (period_row_idx + 1) t)).
Proof.
  intros Ht Hd Hp.
  assert (Hpe : Complete.page_entries pg
                = flat_map (Complete.row_entries day_num day_name
                              period_columns)
                           (skipn (period_row_idx + 1) t)).
  { unfold Complete.page_entries. rewrite Ht, Hd, Hp.
    apply find_period_row_spec in Hp.
    destruct Hp as (_ & r & _ & H3 & -> & _).
    pose proof (scan_row_count 0 r) as [_ Hlen].
    destruct (fst (Complete.scan_row 0 r)); [cbn in Hlen; lia|reflexivity]. }
  split; [exact Hpe|]. rewrite Hpe.
  apply flat_map_length_const; unfold is_class_row; intros r Hr.
  - destruct (class_name_of r) as [cn|] eqn:E; [|discriminate].
    now apply (row_entries_ten day_num day_name period_columns r cn).
  - unfold Complete.row_entries.
    destruct (class_name_of r); [discriminate|reflexivity].
Qed.

(** C2. In complete mode a processed class row (first cell present, its
    stripped text at least 2 characters long) yields exactly 10 entries,
    one for each period 1..10 in that order, each of them academic or the
    placeholder (is_free, "Free Period", "No Teacher"); so a page whose day
    and period row were resolved yields 10 entries per processed row. *)
Theorem complete_mode_ten_per_row :
  (forall day_num day_name period_columns (r : row) class_name,
      class_name_of r = Some class_name ->
      let es := Complete.row_entries day_num day_name period_columns r in
      List.length es = 10
      /\ map e_period es = period_nums
      /\ Forall (fun e => e_class_name e = Some class_name
                          /\ e_day e = Some day_num
                          /\ (academic e \/ placeholder e)) es)
  /\ (forall pg t others day_name day_num period_row_idx period_columns,
      page_tables pg = t :: others ->
      Complete.resolve_day t pg = Some (day_name, day_num) ->
      Complete.find_period_row t = Some (period_row_idx, period_columns) ->
      List.length (Complete.page_entries pg)
      = 10 * List.length
               (filter is_class_row (skipn (period_row_idx + 1) t))).
Proof.
  split.
  - intros. now apply row_entries_ten.
  - intros pg t others day_name day_num period_row_idx period_columns
           Ht Hd Hp.
    now apply (page_entries_count pg t others day_name day_num
                 period_row_idx period_columns).
Qed.


Lemma complete_mode_ten_per_row_witness :
  let r := [Some "7A"; Some ("Math" ++ nl ++ "Mr. Ali"); Some "Break"; None] in
  let header := [Some "Class"; Some "1"; Some "2"; Some "3"] in
  let cols := [(1, "1"); (2, "2"); (3, "3")] in
  let t := [[Some "Tuesday"]; header; r; [None; Some "Art"]] in
  let pg := mk_page [t] None in
  (class_name_of r = Some "7A"
   /\ List.length (Complete.row_entries 1 "tuesday" cols r) = 10
   /\ map e_period (Complete.row_entries 1 "tuesday" cols r) = period_nums)
  /\ (Complete.resolve_day t pg = Some ("tuesday", 1)
      /\ Complete.find_period_row t = Some (1, cols)
      /\ List.length (Complete.page_entries pg) = 10).
Proof.
  intros r header cols t pg.
  destruct complete_mode_ten_per_row as [Hrow Hpage]. split.
  - split; [reflexivity|].
    destruct (Hrow 1 "tuesday" cols r "7A" eq_refl) as (H1 & H2 & _).
    split; [exact H1|exact H2].
  - split; [reflexivity|]. split; [reflexivity|].
    exact (Hpage pg t [] "tuesday" 1 1 cols eq_refl eq_refl eq_refl).
Defined.

(** ** The store *)

Lemma find_app_some {A} (f : A -> bool) l l' x :
  find f l = Some x -> find f (l ++ l') = Some x.
Proof.
  induction l as [|a l IH]; cbn [find app]; [discriminate|].
  destruct (f a); [tauto|exact IH].
Qed.

Lemma find_app_none {A} (f : A -> bool) l l' :
  find f l = None -> find f (l ++ l') = find f l'.
Proof.
  induction l as [|a l IH]; cbn [find app]; [reflexivity|].
  destruct (f a); [discriminate|exact IH].
Qed.

Lemma time_eqb_refl t : time_eqb t t = true.
Proof. unfold time_eqb. now rewrite !Nat.eqb_refl. Qed.










(** *** Get-or-create *)







(** ** The steps the importers share *)


(** The days of the week fit. *)
Lemma fits_integer_small n : n <= 6 -> fits_integer n = true.
Proof.
  intros H. unfold fits_integer. apply N.ltb_lt.
  change (2 ^ 63)%N with 9223372036854775808%N. lia.
Qed.











(** ** The smart importer, entry by entry *)




(** ** The smart importer over a batch *)








(** ** The complete importer, entry by entry *)


Lemma storable_complete_day_fits e :
  storable_complete e = true -> day_fits e = true.
Proof. unfold storable_complete. now intros [_ H]%andb_true_iff. Qed.









(** ** The complete importer over a batch *)












(** ** What the extractors hand to the importers *)

Lemma keep_some_In {A B} (f : A -> option B) l b :
  In b (keep_some f l) -> exists a, In a l /\ f a = Some b.
Proof.
  induction l as [|a l IH]; cbn [keep_some]; [intros []|].
  destruct (f a) as [b'|] eqn:E.
  - intros [<-|H]; [exists a; split; [now left|exact E]|].
    destruct (IH H) as (a' & Ha' & Hf). exists a'. split; [now right|exact Hf].
  - intros H. destruct (IH H) as (a' & Ha' & Hf).
    exists a'. split; [now right|exact Hf].
Qed.

Lemma day_in_text_mapped text d :
  Complete.day_in_text text = Some d -> In d DAY_MAPPING.
Proof. unfold Complete.day_in_text. intros H. now apply find_some in H. Qed.

Lemma day_in_row_mapped r d :
  Complete.day_in_row r = Some d -> In d DAY_MAPPING.
Proof.
  induction r as [|c r IH]; cbn [Complete.day_in_row]; [discriminate|].
  destruct (negb (truthy_opt c)); [exact IH|].
  destruct (Complete.day_in_text (lower (str c))) as [d'|] eqn:E; [|exact IH].
  intros H. injection H as <-. now apply day_in_text_mapped in E.
Qed.

Lemma day_in_rows_mapped rows d :
  Complete.day_in_rows rows = Some d -> In d DAY_MAPPING.
Proof.
  induction rows as [|r rows IH]; cbn [Complete.day_in_rows]; [discriminate|].
  destruct (Complete.day_in_row r) as [d'|] eqn:E; [|exact IH].
  intros H. injection H as <-. now apply day_in_row_mapped in E.
Qed.

(** The day of a page, however it was found, is a day of the mapping. *)
Lemma resolve_day_mapped t pg d :
  Complete.resolve_day t pg = Some d -> In d DAY_MAPPING.
Proof.
  unfold Complete.resolve_day, Complete.day_from_table, Complete.day_from_text.
  destruct (Complete.day_in_rows (firstn 3 t)) as [d'|] eqn:E.
  - intros H. injection H as <-. now apply day_in_rows_mapped in E.
  - destruct (page_text pg) as [text|]; [|discriminate].
    destruct (truthy text); [|discriminate]. apply day_in_text_mapped.
Qed.

Lemma find_In {A} (f : A -> bool) l a : find f l = Some a -> In a l.
Proof. intros H. now apply find_some in H. Qed.

Lemma smart_day_mapped t d :
  Smart.day_of_table t = Some (Some d) -> In d DAY_MAPPING.
Proof.
  unfold Smart.day_of_table.
  destruct (nth_error t 1) as [[|c0 r1]|]; try discriminate.
  destruct (nth_error (c0 :: r1) 1) as [c|]; [|discriminate].
  intros H. injection H as H.
  exact (find_In
           (fun kv : string * nat =>
              str_in (fst kv) (if truthy_opt c then lower (str c) else ""))
           DAY_MAPPING d H).
Qed.








(** ** Idempotence of the import *)



(** ** The validating importers, entry by entry *)
















(** ** The validating importers over a batch *)







(** ** Invalid entries and duplicates *)





(** ** Failures of the store *)











(** ** The delete guards *)

Lemma find_exists {A} (f : A -> bool) l a :
  In a l -> f a = true -> exists b, find f l = Some b /\ f b = true.
Proof.
  induction l as [|x l IH]; [intros []|]. cbn [find].
  intros [->|Hin] Hf.
  - rewrite Hf. eauto.
  - destruct (f x) eqn:E; [eauto|now apply IH].
Qed.

Lemma filter_nonempty {A} (f : A -> bool) l a :
  In a l -> f a = true -> nonempty (filter f l) = true.
Proof.
  intros Hin Hf. assert (H : In a (filter f l)) by (apply filter_In; auto).
  destruct (filter f l); [destruct H|reflexivity].
Qed.

(** C8. Deleting a Teacher, or a Subject, that at least one Schedule row
    refers to is refused, and the store is afterwards what it was: the
    row is still there, and so is every Schedule. *)
Theorem delete_guard :
  (forall db id t s,
      In t (teachers db) -> teacher_id t = id ->
      In s (schedules db) -> schedule_teacher_id s = id ->
      App.delete_teacher id db = (db, App.Refused))
  /\ (forall db id x s,
      In x (subjects db) -> subject_id x = id ->
      In s (schedules db) -> schedule_subject_id s = id ->
      App.delete_subject id db = (db, App.Refused)).
Proof.
  split.
  - intros db id t s Ht Hid Hs Hsid. unfold App.delete_teacher.
    destruct (find_exists (fun t => (teacher_id t =? id)%nat) _ t Ht)
      as (t' & -> & Ht'); [now apply Nat.eqb_eq|].
    apply Nat.eqb_eq in Ht'. unfold App.teacher_schedules.
    rewrite (filter_nonempty _ _ s Hs); [reflexivity|].
    apply Nat.eqb_eq. congruence.
  - intros db id x s Hx Hid Hs Hsid. unfold App.delete_subject.
    destruct (find_exists (fun x => (subject_id x =? id)%nat) _ x Hx)
      as (x' & -> & Hx'); [now apply Nat.eqb_eq|].
    apply Nat.eqb_eq in Hx'. unfold App.subject_schedules.
    rewrite (filter_nonempty _ _ s Hs); [reflexivity|].
    apply Nat.eqb_eq. congruence.
Qed.

Lemma delete_guard_witness :
  let t := mk_teacher 3 "Mr. Ali" in
  let x := mk_subject 5 "Math" in
  let s := mk_schedule 1 1 3 5 1 (mk_time 8 30) (mk_time 9 5) in
  let db := mk_db [mk_floor 1 "F2" 2] [mk_class 1 "7A" 1]
                  [mk_teacher 2 "Ms. Sara"; t] [x] [s] in
  App.delete_teacher 3 db = (db, App.Refused)
  /\ App.delete_subject 5 db = (db, App.Refused)
  /\ App.delete_teacher 2 db
     = (mk_db [mk_floor 1 "F2" 2] [mk_class 1 "7A" 1] [t] [x] [s],
        App.Deleted).
Proof.
  intros t x s db. destruct delete_guard as [Ht Hx].
  split; [|split].
  - apply (Ht db 3 t s); [cbn; auto|reflexivity|cbn; auto|reflexivity].
  - apply (Hx db 5 x s); [cbn; auto|reflexivity|cbn; auto|reflexivity].
  - reflexivity.
Defined.

(* ===================================================================== *)
(** * Further properties of the code *)
(* ===================================================================== *)

Import ExtraSpec.

(** ** More on the cell classifier *)

Lemma no_lf_lstrip s : no_lf s = true -> no_lf (lstrip s) = true.
Proof.
  induction s as [|c s IH]; [reflexivity|]. cbn [no_lf lstrip].
  intros H. destruct (is_space c); [|exact H].
  apply andb_true_iff in H. now apply IH.
Qed.

Lemma no_lf_rstrip s : no_lf s = true -> no_lf (rstrip s) = true.
Proof.
  induction s as [|c s IH]; [reflexivity|]. cbn [no_lf rstrip].
  intros H. apply andb_true_iff in H. destruct H as [Hc Hs].
  destruct (is_space c && (rstrip s =? "")); [reflexivity|].
  cbn [no_lf]. now rewrite Hc, IH.
Qed.

Lemma no_lf_strip s : no_lf s = true -> no_lf (strip s) = true.
Proof. intros H. now apply no_lf_lstrip, no_lf_rstrip. Qed.

Lemma no_lf_append a b : no_lf (a ++ b) = no_lf a && no_lf b.
Proof.
  induction a as [|c a IH]; [reflexivity|]. cbn [append no_lf].
  now rewrite IH, andb_assoc.
Qed.

(** The pieces of a split hold no separator. *)
Lemma split_nl_no_lf s : Forall (fun l => no_lf l = true) (split_nl s).
Proof.
  induction s as [|c s IH]; [repeat constructor|]. rewrite split_nl_cons.
  destruct (Ascii.eqb c LF) eqn:E; [constructor; [reflexivity|exact IH]|].
  destruct (split_nl s) as [|l ls]; [repeat constructor; cbn; now rewrite E|].
  inversion IH; subst. constructor; [|assumption].
  cbn [no_lf]. rewrite E. assumption.
Qed.

Lemma lstrip_of_strip s : lstrip (strip s) = strip s.
Proof. unfold strip. apply lstrip_idem. Qed.

Lemma rstrip_of_strip s : rstrip (strip s) = strip s.
Proof. unfold strip. rewrite lstrip_rstrip. apply rstrip_idem. Qed.

Lemma lstrip_app_fixed a x : lstrip a = a -> a <> "" -> lstrip (a ++ x) = a ++ x.
Proof.
  destruct a as [|c a]; [congruence|]. cbn [lstrip append].
  destruct (is_space c) eqn:E; [|reflexivity].
  intros H _. exfalso.
  assert (Hlen : String.length (lstrip a) <= String.length a).
  { clear. induction a as [|c a IH]; [reflexivity|]. cbn [lstrip].
    destruct (is_space c); cbn [String.length]; lia. }
  rewrite H in Hlen. cbn [String.length] in Hlen. lia.
Qed.

Lemma rstrip_app_fixed x b : rstrip b <> "" -> rstrip (x ++ b) = x ++ rstrip b.
Proof.
  intros Hb. induction x as [|c x IH]; [reflexivity|].
  cbn [append rstrip]. rewrite IH.
  destruct (x ++ rstrip b) eqn:E.
  - destruct x; [cbn in E; congruence|discriminate].
  - now rewrite andb_false_r.
Qed.

Lemma nonblank_lines_clean text : Forall clean (nonblank_lines text).
Proof.
  unfold nonblank_lines, nbl. apply Forall_map, Forall_forall.
  intros l Hl. apply filter_In in Hl. destruct Hl as [Hin Hl].
  split; [|split].
  - unfold truthy in Hl. intros E. rewrite E in Hl. discriminate.
  - apply no_lf_strip.
    now apply (proj1 (Forall_forall _ _) (split_nl_no_lf text)).
  - apply strip_idem.
Qed.

Lemma clean_fixed s : clean s -> lstrip s = s /\ rstrip s = s.
Proof.
  intros (_ & _ & H). split.
  - rewrite <- H at 2. rewrite <- H at 1. apply lstrip_of_strip.
  - rewrite <- H at 2. rewrite <- H at 1. apply rstrip_of_strip.
Qed.

(** Clean lines joined by single spaces give a clean name. *)
Lemma join_clean a rest : Forall clean (a :: rest) -> clean (join " " (a :: rest)).
Proof.
  revert a. induction rest as [|b rest IH]; intros a HF.
  - inversion HF; subst. assumption.
  - inversion HF as [|? ? Ha Hrest]; subst. specialize (IH b Hrest).
    change (join " " (a :: b :: rest)) with (a ++ " " ++ join " " (b :: rest)).
    destruct Ha as (Hne & Hlf & Hst). destruct IH as (Hne' & Hlf' & Hst').
    destruct (clean_fixed a (conj Hne (conj Hlf Hst))) as [Hl Hr].
    destruct (clean_fixed _ (conj Hne' (conj Hlf' Hst'))) as [Hl' Hr'].
    split; [|split].
    + destruct a; [congruence|discriminate].
    + rewrite !no_lf_append, Hlf, Hlf'. reflexivity.
    + unfold strip.
      rewrite (rstrip_app_fixed a (" " ++ join " " (b :: rest))).
      * rewrite (rstrip_app_fixed " " (join " " (b :: rest)));
          [|now rewrite Hr'].
        rewrite Hr'. now apply lstrip_app_fixed.
      * rewrite (rstrip_app_fixed " " (join " " (b :: rest)));
          [|now rewrite Hr'].
        discriminate.
Qed.

Lemma strip_empty_eqb s :
  negb (truthy s) || (strip s =? "") = (strip s =? "").
Proof. destruct s; reflexivity. Qed.

(** X1. The classifiers look at the stripped cell only: white space
    around a cell never changes its classification. *)
Theorem classifier_ignores_outer_space (cell_text : string) :
  Smart.extract_subject_and_teacher (strip cell_text)
  = Smart.extract_subject_and_teacher cell_text
  /\ Complete.extract_subject_and_teacher (strip cell_text)
     = Complete.extract_subject_and_teacher cell_text.
Proof.
  unfold Smart.extract_subject_and_teacher,
    Complete.extract_subject_and_teacher.
  rewrite (strip_empty_eqb cell_text), (strip_empty_eqb (strip cell_text)).
  rewrite !strip_idem. split; reflexivity.
Qed.

Lemma smart_names_clean cell_text subject teacher :
  Smart.extract_subject_and_teacher cell_text = (Some subject, Some teacher) ->
  clean subject /\ clean teacher.
Proof.
  unfold Smart.extract_subject_and_teacher.
  destruct (negb (truthy cell_text) || (strip cell_text =? ""));
    [discriminate|].
  destruct (existsb _ Smart.skip_keywords); [discriminate|].
  pose proof (nonblank_lines_clean (strip cell_text)) as HF.
  destruct (nonblank_lines (strip cell_text)) as [|l0 rest]; [discriminate|].
  cbv zeta. intros H. injection H as <- <-.
  inversion HF as [|? ? H0 Hrest]; subst. split; [exact H0|].
  destruct rest as [|r0 rest]; cbn [List.length Nat.ltb Nat.leb].
  - repeat split. discriminate.
  - now apply join_clean.
Qed.

Lemma complete_names_clean cell_text subject teacher :
  Complete.extract_subject_and_teacher cell_text
  = (Some subject, Some teacher) ->
  clean subject /\ clean teacher /\ 2 <= String.length subject.
Proof.
  unfold Complete.extract_subject_and_teacher.
  destruct (negb (truthy cell_text) || (strip cell_text =? ""));
    [discriminate|].
  destruct (existsb _ Complete.skip_keywords); [discriminate|].
  destruct (String.length (strip cell_text) <? 2)%nat; [discriminate|].
  pose proof (nonblank_lines_clean (strip cell_text)) as HF.
  destruct (nonblank_lines (strip cell_text)) as [|l0 rest]; [discriminate|].
  cbv zeta.
  destruct (String.length (strip l0) <? 2)%nat eqn:Hlen; [discriminate|].
  intros H. injection H as <- <-.
  inversion HF as [|? ? H0 Hrest]; subst.
  destruct H0 as (Hne & Hlf & Hst). rewrite Hst in *.
  apply Nat.ltb_ge in Hlen.
  split; [repeat split; assumption|]. split; [|exact Hlen].
  destruct rest as [|r0 rest]; cbn [List.length Nat.ltb Nat.leb].
  - repeat split. discriminate.
  - destruct (join_clean r0 rest Hrest) as (H1 & H2 & H3).
    rewrite H3. repeat split; assumption.
Qed.

(** X2. A subject and a teacher that a classifier returns are clean
    names: not empty, on a single line, with no white space left at
    either end; the complete classifier's subject has 2 characters at
    least. *)
Theorem classifier_names_clean (cell_text subject teacher : string) :
  (Smart.extract_subject_and_teacher cell_text
   = (Some subject, Some teacher) ->
   clean subject /\ clean teacher)
  /\ (Complete.extract_subject_and_teacher cell_text
      = (Some subject, Some teacher) ->
      clean subject /\ clean teacher /\ 2 <= String.length subject).
Proof.
  split; [apply smart_names_clean|apply complete_names_clean].
Qed.

Lemma classifier_names_clean_witness :
  let cell := "  Math " ++ nl ++ nl ++ " Mr.  Ali " ++ nl ++ "(room 2) " in
  Complete.extract_subject_and_teacher cell
  = (Some "Math", Some "Mr.  Ali (room 2)")
  /\ clean "Math" /\ clean "Mr.  Ali (room 2)"
  /\ Smart.extract_subject_and_teacher cell
     = (Some "Math", Some "Mr.  Ali (room 2)").
Proof.
  intros cell.
  destruct (classifier_names_clean cell "Math" "Mr.  Ali (room 2)")
    as [_ H].
  split; [reflexivity|]. destruct (H eq_refl) as (H1 & H2 & _).
  split; [exact H1|]. split; [exact H2|reflexivity].
Defined.

Lemma existsb_incl {A} (f : A -> bool) l l' :
  incl l l' -> existsb f l' = false -> existsb f l = false.
Proof.
  intros Hi H. destruct (existsb f l) eqn:E; [|reflexivity].
  apply existsb_exists in E. destruct E as (a & Ha & Hf).
  assert (existsb f l' = true) by (apply existsb_exists; eauto).
  congruence.
Qed.

Lemma smart_keywords_incl : incl Smart.skip_keywords Complete.skip_keywords.
Proof.
  intros kw H. cbn in H. cbn.
  repeat (destruct H as [<-|H]; [tauto|]). destruct H.
Qed.

(** X3. A cell the complete classifier accepts is accepted by the smart
    classifier with the same subject, and with the same teacher unless
    the cell has a single line, where only the sentinels differ
    ("Unknown Teacher" against "Unknown"). *)
Theorem classifiers_agree (cell_text subject teacher : string) :
  Complete.extract_subject_and_teacher cell_text
  = (Some subject, Some teacher) ->
  (1 < List.length (nonblank_lines cell_text) ->
   Smart.extract_subject_and_teacher cell_text
   = (Some subject, Some teacher))
  /\ (List.length (nonblank_lines cell_text) = 1 ->
      teacher = "Unknown Teacher"
      /\ Smart.extract_subject_and_teacher cell_text
         = (Some subject, Some "Unknown")).
Proof.
  unfold Complete.extract_subject_and_teacher,
    Smart.extract_subject_and_teacher.
  destruct (negb (truthy cell_text) || (strip cell_text =? ""));
    [discriminate|].
  destruct (existsb _ Complete.skip_keywords) eqn:Ek; [discriminate|].
  rewrite (existsb_incl _ _ _ smart_keywords_incl Ek).
  destruct (String.length (strip cell_text) <? 2)%nat; [discriminate|].
  pose proof (nonblank_lines_clean (strip cell_text)) as HF.
  rewrite <- (nonblank_lines_strip cell_text).
  destruct (nonblank_lines (strip cell_text)) as [|l0 rest]; [discriminate|].
  cbv zeta.
  destruct (String.length (strip l0) <? 2)%nat; [discriminate|].
  intros H. injection H as <- <-.
  inversion HF as [|? ? H0 Hrest]; subst.
  destruct H0 as (_ & _ & Hst). rewrite Hst.
  destruct rest as [|r0 rest]; cbn [List.length Nat.ltb Nat.leb].
  - split; [lia|]. intros _. split; reflexivity.
  - split; [|discriminate]. intros _.
    destruct (join_clean r0 rest Hrest) as (_ & _ & H3). now rewrite H3.
Qed.

Lemma classifiers_agree_witness :
  let cell := "Math" ++ nl ++ "Mr. Ali" in
  Complete.extract_subject_and_teacher cell = (Some "Math", Some "Mr. Ali")
  /\ 1 < List.length (nonblank_lines cell)
  /\ Smart.extract_subject_and_teacher cell = (Some "Math", Some "Mr. Ali").
Proof.
  intros cell. split; [reflexivity|].
  assert (Hlen : 1 < List.length (nonblank_lines cell))
    by (vm_compute; lia).
  split; [exact Hlen|].
  destruct (classifiers_agree cell "Math" "Mr. Ali" eq_refl) as [H _].
  exact (H Hlen).
Defined.

(** ** The entries the extractors build *)

Lemma catalogue_interval period_num :
  In period_num period_nums ->
  exists s t st en,
    dict_get TIME_PERIODS period_num = Some (s, t)
    /\ parse_time s = Some st /\ parse_time t = Some en
    /\ minutes st < minutes en.
Proof.
  unfold period_nums. cbn [In]. intros H.
  repeat (destruct H as [<-|H];
          [do 4 eexists; split; [reflexivity|];
           split; [reflexivity|]; split; [reflexivity|];
           vm_compute; lia|]).
  destruct H.
Qed.

Lemma class_name_of_stripped r name :
  class_name_of r = Some name ->
  strip name = name /\ 2 <= String.length name.
Proof.
  intros H. apply class_name_of_spec in H.
  destruct H as (first & rest & _ & _ & -> & Hlen).
  split; [apply strip_idem|exact Hlen].
Qed.

Lemma complete_period_entry_on_timetable cn day_num day_name cols r p e :
  In (day_name, day_num) DAY_MAPPING ->
  strip cn = cn -> 2 <= String.length cn ->
  In p period_nums ->
  Complete.period_entry cn day_num day_name cols r p = Some e ->
  on_timetable e.
Proof.
  intros Hd Hs Hl Hp.
  destruct (catalogue_interval p Hp) as (s & t & st & en & Hg & Hps & Hpt & Hlt).
  destruct (catalogue_complete p Hp)
    as (s' & t' & st' & en' & Hg' & Hts & Htt & _ & _).
  rewrite Hg in Hg'. injection Hg' as <- <-.
  unfold Complete.period_entry. rewrite Hg. cbn [truthy_opt str].
  rewrite Hts, Htt. cbn [negb orb]. rewrite Hps, Hpt.
  set (found := match Complete.column_of_period cols p with
                | Some col_idx => _
                | None => _
                end).
  destruct found as [subject teacher].
  destruct (negb (truthy_opt subject) || negb (truthy_opt teacher));
    intros H; injection H as <-; cbn.
  all: split; [exists day_num; split; [reflexivity|exact Hd]|];
    (split; [exact Hp|]);
    (split; [exists s, t, st, en; repeat split; assumption|]);
    exists cn; repeat split; assumption.
Qed.

Lemma complete_page_on_timetable pg e :
  In e (Complete.page_entries pg) -> on_timetable e.
Proof.
  unfold Complete.page_entries.
  destruct (page_tables pg) as [|t others]; [intros []|].
  destruct (Complete.resolve_day t pg) as [[day_name day_num]|] eqn:Ed;
    [|intros []].
  apply resolve_day_mapped in Ed.
  destruct (Complete.find_period_row t) as [[i cols]|]; [|intros []].
  destruct (negb (nonempty cols)); [intros []|].
  intros H. apply in_flat_map in H. destruct H as (r & _ & H).
  unfold Complete.row_entries in H.
  destruct (class_name_of r) as [cn|] eqn:Ec; [|destruct H].
  destruct (class_name_of_stripped r cn Ec) as [Hs Hl].
  apply keep_some_In in H. destruct H as (p & Hp & H).
  now apply (complete_period_entry_on_timetable cn day_num day_name cols r p).
Qed.

Lemma smart_scan_row_periods r : forall col_idx c p,
  In (c, p) (Smart.scan_row col_idx r) -> In p period_nums.
Proof.
  induction r as [|c0 r IH]; intros col_idx c p; cbn [Smart.scan_row];
    [intros []|].
  destruct (Smart.cell_period c0) as [p0|] eqn:E; [|apply IH].
  intros [H|H]; [|now apply IH in H].
  injection H as _ <-. unfold Smart.cell_period in E.
  destruct (negb (truthy_opt c0)); [discriminate|]. now apply find_In in E.
Qed.

Lemma smart_period_columns_periods t c p :
  In (c, p) (Smart.period_columns_of t) -> In p period_nums.
Proof.
  unfold Smart.period_columns_of.
  destruct (nth_error t 2) as [r2|]; [apply smart_scan_row_periods|intros []].
Qed.

Lemma smart_period_entry_on_timetable cn day_num day_name r c p e :
  In (day_name, day_num) DAY_MAPPING ->
  strip cn = cn -> 2 <= String.length cn ->
  In p period_nums ->
  Smart.period_entry cn day_num day_name r (c, p) = Some e ->
  on_timetable e.
Proof.
  intros Hd Hs Hl Hp.
  destruct (catalogue_interval p Hp) as (s & t & st & en & Hg & Hps & Hpt & Hlt).
  destruct (catalogue_complete p Hp)
    as (s' & t' & st' & en' & Hg' & Hts & Htt & _ & _).
  rewrite Hg in Hg'. injection Hg' as <- <-.
  unfold Smart.period_entry.
  destruct (List.length r <=? c)%nat; [discriminate|].
  destruct (negb (truthy_opt (nth c r None))); [discriminate|].
  destruct (Smart.extract_subject_and_teacher (str (nth c r None)))
    as [subject teacher].
  destruct (negb (truthy_opt subject) || negb (truthy_opt teacher));
    [discriminate|].
  rewrite Hg. cbn [truthy_opt str]. rewrite Hts, Htt. cbn [negb orb].
  rewrite Hps, Hpt. intros H. injection H as <-. cbn.
  split; [exists day_num; split; [reflexivity|exact Hd]|].
  split; [exact Hp|].
  split; [exists s, t, st, en; repeat split; assumption|].
  exists cn; repeat split; assumption.
Qed.

Lemma smart_page_on_timetable pg es e :
  Smart.page_entries pg = Some es -> In e es -> on_timetable e.
Proof.
  unfold Smart.page_entries.
  destruct (page_tables pg) as [|t others];
    [intros H; injection H as <-; intros []|].
  destruct (Smart.day_of_table t) as [[[day_name day_num]|]|] eqn:Ed;
    [| intros H; injection H as <-; intros [] | discriminate].
  apply smart_day_mapped in Ed.
  intros H. injection H as <-. intros H.
  apply in_flat_map in H. destruct H as (r & _ & H).
  unfold Smart.row_entries in H.
  destruct (class_name_of r) as [cn|] eqn:Ec; [|destruct H].
  destruct (class_name_of_stripped r cn Ec) as [Hs Hl].
  apply keep_some_In in H. destruct H as ([c p] & Hp & H).
  apply smart_period_columns_periods in Hp.
  now apply (smart_period_entry_on_timetable cn day_num day_name r c p).
Qed.

Lemma smart_extract_In pages : forall es e,
  Smart.extract_schedules_from_pdf pages = Some es -> In e es ->
  exists pg es1, In pg pages /\ Smart.page_entries pg = Some es1 /\ In e es1.
Proof.
  induction pages as [|pg pages IH]; intros es e;
    cbn [Smart.extract_schedules_from_pdf].
  - intros H. injection H as <-. intros [].
  - destruct (Smart.page_entries pg) as [es1|] eqn:E1; [|discriminate].
    destruct (Smart.extract_schedules_from_pdf pages) as [es2|];
      [|discriminate].
    intros H. injection H as <-. intros H. apply in_app_or in H.
    destruct H as [H|H].
    + exists pg, es1. split; [now left|]. split; [exact E1|exact H].
    + destruct (IH es2 e eq_refl H) as (pg' & es' & Hin & Hp & He).
      exists pg', es'. split; [now right|]. split; assumption.
Qed.

(** X4. Every entry an extractor builds lies on the timetable: its day
    is a day of DAY_MAPPING under its own name, its period is one of
    '1'..'10', its times are the parsed interval TIME_PERIODS gives that
    period with the start before the end, and its class name is a
    stripped text of two characters at least.  This holds for the
    complete extractor on any pages and for the smart extractor whenever
    it returns. *)
Theorem extracted_entries_on_timetable (pages : list page) (e : entry) :
  (In e (Complete.extract_schedules_from_pdf pages) -> on_timetable e)
  /\ (forall es, Smart.extract_schedules_from_pdf pages = Some es ->
                 In e es -> on_timetable e).
Proof.
  split.
  - unfold Complete.extract_schedules_from_pdf. intros H.
    apply in_flat_map in H. destruct H as (pg & _ & H).
    now apply complete_page_on_timetable with pg.
  - intros es Hes He.
    destruct (smart_extract_In pages es e Hes He) as (pg & es1 & _ & Hp & H).
    now apply smart_page_on_timetable with pg es1.
Qed.

Lemma extracted_entries_on_timetable_witness :
  let header := [Some "Class"; Some "1"; Some "2"; Some "3"] in
  let r := [Some "7A"; Some ("Math" ++ nl ++ "Mr. Ali"); Some "Break"] in
  let pg := mk_page [[[Some "Tuesday"]; header; r]] None in
  let e := mk_entry (Some "7A") (Some 1) "tuesday"
                    (Some (mk_time 8 30)) (Some (mk_time 9 5))
                    (Some "Math") (Some "Mr. Ali") "1" false in
  In e (Complete.extract_schedules_from_pdf [pg]) /\ on_timetable e.
Proof.
  intros header r pg e.
  assert (Hin : In e (Complete.extract_schedules_from_pdf [pg]))
    by (vm_compute; left; reflexivity).
  split; [exact Hin|].
  exact (proj1 (extracted_entries_on_timetable [pg] e) Hin).
Defined.

(** ** The smart extractor *)

Lemma smart_period_entry_academic cn day_num day_name r item e :
  Smart.period_entry cn day_num day_name r item = Some e ->
  e_is_free e = false
  /\ exists subject teacher,
      e_subject e = Some subject /\ e_teacher e = Some teacher
      /\ clean subject /\ clean teacher.
Proof.
  unfold Smart.period_entry. destruct item as [c p].
  destruct (List.length r <=? c)%nat; [discriminate|].
  destruct (negb (truthy_opt (nth c r None))); [discriminate|].
  destruct (Smart.extract_subject_and_teacher (str (nth c r None)))
    as [subject teacher] eqn:Ex.
  destruct subject as [subject|]; [|discriminate].
  destruct teacher as [teacher|];
    [|cbn [truthy_opt negb orb]; rewrite orb_true_r; discriminate].
  destruct (negb (truthy_opt (Some subject)) || negb (truthy_opt (Some teacher)));
    [discriminate|].
  destruct (dict_get TIME_PERIODS p) as [[s t]|];
    [|cbn [truthy_opt negb orb]; discriminate].
  destruct (negb (truthy_opt (Some s)) || negb (truthy_opt (Some t)));
    [discriminate|].
  destruct (parse_time (str (Some s))); [|discriminate].
  destruct (parse_time (str (Some t))); [|discriminate].
  intros H. injection H as <-. cbn. split; [reflexivity|].
  exists subject, teacher. split; [reflexivity|]. split; [reflexivity|].
  exact (smart_names_clean _ _ _ Ex).
Qed.

Lemma keep_some_length {A B} (f : A -> option B) l :
  List.length (keep_some f l) <= List.length l.
Proof.
  induction l as [|a l IH]; cbn [keep_some List.length]; [lia|].
  destruct (f a); cbn [List.length]; lia.
Qed.

Lemma smart_scan_row_length r : forall col_idx,
  List.length (Smart.scan_row col_idx r) <= List.length r.
Proof.
  induction r as [|c r IH]; intros col_idx; cbn [Smart.scan_row List.length];
    [lia|].
  specialize (IH (S col_idx)).
  destruct (Smart.cell_period c); cbn [List.length]; lia.
Qed.

(** X5. The smart extractor is sparse: it builds no free-period
    placeholder.  Every entry it returns is a taught period with a clean
    subject and a clean teacher, and a class row gives at most one entry
    for each cell of the header row (the third row), possibly none. *)
Theorem smart_entries_taught (pages : list page) (es : list entry) :
  Smart.extract_schedules_from_pdf pages = Some es ->
  Forall (fun e => e_is_free e = false
                   /\ exists subject teacher,
                       e_subject e = Some subject
                       /\ e_teacher e = Some teacher
                       /\ clean subject /\ clean teacher) es
  /\ forall pg t others day_num day_name r,
      In pg pages -> page_tables pg = t :: others ->
      List.length (Smart.row_entries day_num day_name
                                     (Smart.period_columns_of t) r)
      <= List.length (nth 2 t []).
Proof.
  intros Hes. split.
  - apply Forall_forall. intros e He.
    destruct (smart_extract_In pages es e Hes He) as (pg & es1 & _ & Hp & H).
    unfold Smart.page_entries in Hp.
    destruct (page_tables pg) as [|t others];
      [injection Hp as <-; destruct H|].
    destruct (Smart.day_of_table t) as [[[day_name day_num]|]|];
      [| injection Hp as <-; destruct H | discriminate].
    injection Hp as <-. apply in_flat_map in H. destruct H as (r & _ & H).
    unfold Smart.row_entries in H.
    destruct (class_name_of r) as [cn|]; [|destruct H].
    apply keep_some_In in H. destruct H as (item & _ & H).
    now apply (smart_period_entry_academic cn day_num day_name r item).
  - intros pg t others day_num day_name r _ _.
    unfold Smart.row_entries, Smart.period_columns_of.
    destruct (class_name_of r) as [cn|]; [|cbn; lia].
    etransitivity; [apply keep_some_length|].
    destruct (nth_error t 2) as [r2|] eqn:E2.
    + rewrite (nth_error_nth t 2 [] E2). apply smart_scan_row_length.
    + cbn. lia.
Qed.

Lemma smart_entries_taught_witness :
  let header := [Some "Class"; Some ("1" ++ nl ++ "08:30"); Some ("2" ++ nl)] in
  let r := [Some "7A"; Some ("Math" ++ nl ++ "Mr. Ali"); Some "Break"] in
  let t := [[Some "Grade 7"]; [None; Some "Tuesday"]; header; r] in
  let pg := mk_page [t] None in
  exists e,
    Smart.extract_schedules_from_pdf [pg] = Some [e]
    /\ e_is_free e = false /\ e_subject e = Some "Math"
    /\ List.length (Smart.row_entries 1 "tuesday"
                                      (Smart.period_columns_of t) r) <= 3.
Proof.
  intros header r t pg. eexists.
  assert (Hes : Smart.extract_schedules_from_pdf [pg] = Some _)
    by (vm_compute; reflexivity).
  split; [exact Hes|].
  destruct (smart_entries_taught [pg] _ Hes) as [Hall Hrow].
  split; [|split; [reflexivity|]].
  - inversion Hall as [|? ? [Hfree _] _]. exact Hfree.
  - exact (Hrow pg t [] 1 "tuesday" r (or_introl eq_refl) eq_refl).
Defined.

Lemma smart_page_raises_iff pg :
  Smart.page_entries pg = None <-> short_second_row pg.
Proof.
  unfold Smart.page_entries, short_second_row, Smart.day_of_table.
  destruct (page_tables pg) as [|t others].
  - split; [discriminate|]. intros (t & o & c & H & _). discriminate.
  - assert (Hinv : forall r, nth_error t 1 = Some r ->
                     (exists t' o c,
                         t :: others = t' :: o /\ nth_error t' 1 = Some [c]) ->
                     exists c, r = [c]).
    { intros r Hr (t' & o & c & H & H1). injection H as Ht Ho. subst t' o.
      rewrite Hr in H1. injection H1 as ->. now exists c. }
    destruct (nth_error t 1) as [[|c0 [|c1 r1]]|] eqn:E1.
    + split; [discriminate|]. intros H.
      destruct (Hinv [] eq_refl H) as (c & Hc). discriminate.
    + cbn [nth_error]. split; [|reflexivity]. intros _.
      exists t, others, c0. split; [reflexivity|exact E1].
    + cbn [nth_error].
      destruct (find _ DAY_MAPPING) as [[dn d]|];
        (split; [discriminate|]); intros H;
        destruct (Hinv _ eq_refl H) as (c & Hc); discriminate.
    + split; [discriminate|]. intros (t' & o & c & H & H1).
      injection H as Ht Ho. subst t' o. rewrite E1 in H1. discriminate.
Qed.

(** X6. The smart extractor's only failure: it raises (the IndexError of
    [table[1][1]], which the function does not catch) exactly when the
    first table of some page has a second row of a single cell; on all
    other documents it returns a list. *)
Theorem smart_extraction_raises_iff (pages : list page) :
  Smart.extract_schedules_from_pdf pages = None
  <-> Exists short_second_row pages.
Proof.
  induction pages as [|pg pages IH]; cbn [Smart.extract_schedules_from_pdf].
  - split; [discriminate|]. intros H. inversion H.
  - destruct (Smart.page_entries pg) as [es1|] eqn:E1.
    + assert (Hpg : ~ short_second_row pg).
      { intros H. apply smart_page_raises_iff in H. congruence. }
      destruct (Smart.extract_schedules_from_pdf pages) as [es2|].
      * split; [discriminate|]. intros H. inversion H; subst; [tauto|].
        destruct IH as [_ IH]. discriminate IH. assumption.
      * split; [|reflexivity]. intros _. apply Exists_cons_tl. now apply IH.
    + split; [|reflexivity]. intros _. apply Exists_cons_hd.
      now apply smart_page_raises_iff.
Qed.

Lemma smart_extraction_raises_iff_witness :
  let pg := mk_page [[[Some "Grade 7"]; [Some "Tuesday"]]] None in
  short_second_row pg
  /\ Smart.extract_schedules_from_pdf [mk_page [] None; pg] = None
  /\ Complete.extract_schedules_from_pdf [mk_page [] None; pg] = [].
Proof.
  intros pg.
  assert (H : short_second_row pg).
  { exists [[Some "Grade 7"]; [Some "Tuesday"]], [], (Some "Tuesday").
    split; reflexivity. }
  split; [exact H|]. split; [|reflexivity].
  apply (proj2 (smart_extraction_raises_iff [mk_page [] None; pg])).
  apply Exists_cons_tl, Exists_cons_hd. exact H.
Defined.

(** ** The period columns *)

Lemma increasing_from_weaken l : forall lo lo',
  lo' <= lo -> increasing_from lo l -> increasing_from lo' l.
Proof.
  destruct l as [|c l]; intros lo lo' Hle; cbn [increasing_from]; [tauto|].
  intros [H1 H2]. split; [lia|exact H2].
Qed.

Lemma increasing_from_bound l : forall lo c,
  increasing_from lo l -> In c l -> lo <= c.
Proof.
  induction l as [|c0 l IH]; intros lo c; cbn [increasing_from In]; [tauto|].
  intros [H1 H2] [<-|H]; [exact H1|]. specialize (IH (S c0) c H2 H). lia.
Qed.

Lemma increasing_from_NoDup l : forall lo, increasing_from lo l -> NoDup l.
Proof.
  induction l as [|c l IH]; intros lo; cbn [increasing_from]; [constructor|].
  intros [H1 H2]. constructor; [|now apply (IH (S c))].
  intros Hin. pose proof (increasing_from_bound l (S c) c H2 Hin). lia.
Qed.

Lemma complete_cell_period_In c p :
  Complete.cell_period c = Some p -> In p period_nums.
Proof.
  unfold Complete.cell_period. destruct (negb (truthy_opt c)); [discriminate|].
  apply find_In.
Qed.

Lemma smart_cell_period_In c p :
  Smart.cell_period c = Some p -> In p period_nums.
Proof.
  unfold Smart.cell_period. destruct (negb (truthy_opt c)); [discriminate|].
  apply find_In.
Qed.

Lemma complete_scan_row_columns r : forall col_idx,
  increasing_from col_idx (map fst (fst (Complete.scan_row col_idx r)))
  /\ Forall (fun cp => fst cp < col_idx + List.length r
                       /\ In (snd cp) period_nums)
            (fst (Complete.scan_row col_idx r)).
Proof.
  induction r as [|c r IH]; intros col_idx; cbn [Complete.scan_row].
  - cbn. split; [exact I|constructor].
  - specialize (IH (S col_idx)).
    destruct (Complete.scan_row (S col_idx) r) as [cols count].
    cbn [fst] in IH. destruct IH as [Hinc Hall].
    assert (Hall' : Forall (fun cp => fst cp < col_idx + List.length (c :: r)
                                      /\ In (snd cp) period_nums) cols).
    { eapply Forall_impl; [|exact Hall]. cbn [List.length].
      intros cp [H1 H2]. split; [lia|exact H2]. }
    destruct (Complete.cell_period c) as [p|] eqn:E; cbn [fst map].
    + split.
      * cbn [increasing_from]. split; [lia|exact Hinc].
      * constructor; [|exact Hall']. cbn [fst snd List.length].
        split; [lia|now apply complete_cell_period_In in E].
    + split; [|exact Hall'].
      apply (increasing_from_weaken _ (S col_idx)); [lia|exact Hinc].
Qed.

Lemma smart_scan_row_columns r : forall col_idx,
  increasing_from col_idx (map fst (Smart.scan_row col_idx r))
  /\ Forall (fun cp => fst cp < col_idx + List.length r
                       /\ In (snd cp) period_nums)
            (Smart.scan_row col_idx r).
Proof.
  induction r as [|c r IH]; intros col_idx; cbn [Smart.scan_row].
  - cbn. split; [exact I|constructor].
  - specialize (IH (S col_idx)). destruct IH as [Hinc Hall].
    assert (Hall' : Forall (fun cp => fst cp < col_idx + List.length (c :: r)
                                      /\ In (snd cp) period_nums)
                           (Smart.scan_row (S col_idx) r)).
    { eapply Forall_impl; [|exact Hall]. cbn [List.length].
      intros cp [H1 H2]. split; [lia|exact H2]. }
    destruct (Smart.cell_period c) as [p|] eqn:E; cbn [fst map].
    + split.
      * cbn [increasing_from]. split; [lia|exact Hinc].
      * constructor; [|exact Hall']. cbn [fst snd List.length].
        split; [lia|now apply smart_cell_period_In in E].
    + split; [|exact Hall'].
      apply (increasing_from_weaken _ (S col_idx)); [lia|exact Hinc].
Qed.

(** X7. The period columns an extractor reads off a header row are what
    the source's dict holds: their keys are distinct column indices of
    that row, in increasing order, each with a period of '1'..'10'.  In
    the complete extractor the header row is one of the first five rows
    and gives three columns at least; in the smart extractor it is the
    third row. *)
Theorem period_columns_of_header (t : table) :
  (forall period_row_idx period_columns,
      Complete.find_period_row t = Some (period_row_idx, period_columns) ->
      period_row_idx < 5
      /\ 3 <= List.length period_columns
      /\ exists r, nth_error t period_row_idx = Some r
                   /\ columns_of_row r period_columns)
  /\ columns_of_row (nth 2 t []) (Smart.period_columns_of t).
Proof.
  split.
  - intros i cols H. apply find_period_row_spec in H.
    destruct H as (Hi & r & Hr & Htok & -> & _).
    split; [exact Hi|]. split.
    + pose proof (scan_row_count 0 r) as Hc.
      destruct (Complete.scan_row 0 r) as [cols n] eqn:E. cbn [fst snd] in *.
      lia.
    + exists r. split; [exact Hr|].
      destruct (complete_scan_row_columns r 0) as [Hinc Hall].
      split; [exact Hinc|]. split; [now apply increasing_from_NoDup in Hinc|].
      exact Hall.
  - unfold Smart.period_columns_of.
    destruct (nth_error t 2) as [r2|] eqn:E2.
    + rewrite (nth_error_nth t 2 [] E2).
      destruct (smart_scan_row_columns r2 0) as [Hinc Hall].
      split; [exact Hinc|]. split; [now apply increasing_from_NoDup in Hinc|].
      exact Hall.
    + split; [exact I|]. split; constructor.
Qed.

Lemma period_columns_of_header_witness :
  let header := [Some "Class"; Some "1"; None; Some "2"; Some "Period 3"] in
  let t := [[Some "Tuesday"]; header; [Some "7A"; Some "Math"]] in
  Complete.find_period_row t = Some (1, [(1, "1"); (3, "2"); (4, "3")])
  /\ columns_of_row header [(1, "1"); (3, "2"); (4, "3")].
Proof.
  intros header t. split; [reflexivity|].
  destruct (period_columns_of_header t) as [H _].
  destruct (H 1 [(1, "1"); (3, "2"); (4, "3")] eq_refl)
    as (_ & _ & r & Hr & Hcols).
  injection Hr as <-. exact Hcols.
Defined.
(** ** A program logic for the writes of the importers *)

Section HoareRules.
Context {St : Type}.

Lemma hoare_ret {A} (P : DB -> Prop) (a : A) Q R :
  (forall db, P db -> Q a db) -> hoare (St := St) P (ret a) Q R.
Proof. intros H db st Hp. cbn. now apply H. Qed.

Lemma hoare_bind {A B} (P : DB -> Prop) (m : M St A) (k : A -> M St B)
      (Q1 : A -> DB -> Prop) Q R :
  hoare P m Q1 R -> (forall a, hoare (Q1 a) (k a) Q R) ->
  hoare P (bind m k) Q R.
Proof.
  intros Hm Hk db st Hp. unfold bind. specialize (Hm db st Hp).
  destruct (m (db, st)) as [[db1 st1] [a| |]]; [|exact Hm|exact Hm].
  now apply Hk.
Qed.

Lemma hoare_query {A} (P : DB -> Prop) (q : DB -> A) Q R :
  (forall db, P db -> Q (q db) db) -> hoare (St := St) P (query q) Q R.
Proof. intros H db st Hp. cbn. now apply H. Qed.

Lemma hoare_raise {A} (P : DB -> Prop) (Q : A -> DB -> Prop) R :
  (forall db, P db -> R db) -> hoare (St := St) P raise Q R.
Proof. intros H db st Hp. cbn. now apply H. Qed.

Lemma hoare_item {A} (P : DB -> Prop) (value : option A) R :
  (forall db, P db -> R db) ->
  hoare (St := St) P (item value) (fun _ => P) R.
Proof.
  intros H db st Hp. destruct value; cbn; [exact Hp|now apply H].
Qed.

Lemma hoare_update_stats (P : DB -> Prop) (f : St -> St) Q R :
  (forall db, P db -> Q tt db) -> hoare P (update_stats f) Q R.
Proof. intros H db st Hp. cbn. now apply H. Qed.

Lemma hoare_continue {A} (P : DB -> Prop) (Q : A -> DB -> Prop) R :
  (forall db, P db -> R db) -> hoare (St := St) P continue Q R.
Proof. intros H db st Hp. cbn. now apply H. Qed.

Lemma hoare_weaken {A} (P P' : DB -> Prop) (m : M St A)
      (Q Q' : A -> DB -> Prop) (R R' : DB -> Prop) :
  hoare P' m Q' R' ->
  (forall db, P db -> P' db) ->
  (forall a db, Q' a db -> Q a db) ->
  (forall db, R' db -> R db) ->
  hoare P m Q R.
Proof.
  intros Hm HP HQ HR db st Hp. specialize (Hm db st (HP db Hp)).
  destruct (m (db, st)) as [[db1 st1] [a| |]]; auto.
Qed.

(** A [try] whose handler leaves the committed rows alone. *)
Lemma hoare_try (P R : DB -> Prop) (body : M St unit) handler :
  hoare P body (fun _ => R) R ->
  (forall s, fst (handler s) = fst s) ->
  forall db st, P db -> R (fst (try_except body handler (db, st))).
Proof.
  intros Hb Hh db st Hp. unfold try_except. specialize (Hb db st Hp).
  destruct (body (db, st)) as [[db1 st1] [a| |]]; cbn [fst]; try exact Hb.
  rewrite Hh. exact Hb.
Qed.

Lemma for_each_invariant {A} (I : DB -> Prop)
      (step : A -> DB * St -> DB * St) l :
  (forall a db st, I db -> I (fst (step a (db, st)))) ->
  forall db st, I db -> I (fst (for_each step l (db, st))).
Proof.
  intros Hstep. unfold for_each.
  induction l as [|a l IH]; intros db st Hi; cbn [fold_left]; [exact Hi|].
  specialize (Hstep a db st Hi).
  destruct (step a (db, st)) as [db1 st1]. now apply IH.
Qed.

End HoareRules.

(** *** Stable properties *)

Lemma stable_and (F G : DB -> Prop) :
  stable F -> stable G -> stable (fun db => F db /\ G db).
Proof. intros HF HG db db' [H1 H2] Hw. split; eauto. Qed.

Lemma stable_floor_id n :
  stable (fun db => In n (map floor_id (floors db))).
Proof.
  intros db db' H Hw. destruct Hw; cbn; try exact H.
  rewrite map_app. apply in_or_app. now left.
Qed.

Lemma stable_class_id n :
  stable (fun db => In n (map class_id (classes db))).
Proof.
  intros db db' H Hw. destruct Hw; cbn; try exact H.
  rewrite map_app. apply in_or_app. now left.
Qed.

Lemma stable_teacher_id n :
  stable (fun db => In n (map teacher_id (teachers db))).
Proof.
  intros db db' H Hw. destruct Hw; cbn; try exact H.
  rewrite map_app. apply in_or_app. now left.
Qed.

Lemma stable_subject_id n :
  stable (fun db => In n (map subject_id (subjects db))).
Proof.
  intros db db' H Hw. destruct Hw; cbn; try exact H.
  rewrite map_app. apply in_or_app. now left.
Qed.

(** *** The writes of the importers are guarded *)

Section Guarded.
Context {St : Type}.
Variables F R : DB -> Prop.
Hypothesis F_stable : stable F.
Hypothesis F_R : forall db, F db -> R db.

Lemma get_or_create_floor_hoare n :
  hoare (St := St) F (get_or_create_floor n)
        (fun floor db => F db /\ In (floor_id floor) (map floor_id (floors db)))
        R.
Proof.
  intros db st HF. unfold get_or_create_floor, bind, query. cbn [fst snd].
  destruct (first_floor n db) as [fl|] eqn:E.
  - cbn. split; [exact HF|]. apply in_map. now apply find_In in E.
  - cbn. split.
    + apply (F_stable db); [exact HF|]. now apply insert_floor.
    + rewrite map_app. apply in_or_app. right. now left.
Qed.

Lemma get_or_create_class_hoare name fid created :
  (forall db, F db -> In fid (map floor_id (floors db))) ->
  hoare (St := St) F (get_or_create_class name fid created)
        (fun c db => F db /\ In (class_id c) (map class_id (classes db)))
        R.
Proof.
  intros Hfid db st HF.
  unfold get_or_create_class, bind, query. cbn [fst snd].
  destruct (first_class name fid db) as [c|] eqn:E.
  - cbn. split; [exact HF|]. apply in_map.
    destruct name as [name|]; [|discriminate]. now apply find_In in E.
  - destruct name as [name|]; cbn; [|now apply F_R]. split.
    + apply (F_stable db); [exact HF|]. apply insert_class; auto.
    + rewrite map_app. apply in_or_app. right. now left.
Qed.

Lemma get_or_create_teacher_hoare name created :
  hoare (St := St) F (get_or_create_teacher name created)
        (fun t db => F db /\ In (teacher_id t) (map teacher_id (teachers db)))
        R.
Proof.
  intros db st HF.
  unfold get_or_create_teacher, bind, query. cbn [fst snd].
  destruct (first_teacher name db) as [t|] eqn:E.
  - cbn. split; [exact HF|]. apply in_map.
    destruct name as [name|]; [|discriminate]. now apply find_In in E.
  - destruct name as [name|]; cbn; [|now apply F_R]. split.
    + apply (F_stable db); [exact HF|]. now apply insert_teacher.
    + rewrite map_app. apply in_or_app. right. now left.
Qed.

Lemma get_or_create_subject_hoare name created :
  hoare (St := St) F (get_or_create_subject name created)
        (fun x db => F db /\ In (subject_id x) (map subject_id (subjects db)))
        R.
Proof.
  intros db st HF.
  unfold get_or_create_subject, bind, query. cbn [fst snd].
  destruct (first_subject name db) as [x|] eqn:E.
  - cbn. split; [exact HF|]. apply in_map.
    destruct name as [name|]; [|discriminate]. now apply find_In in E.
  - destruct name as [name|]; cbn; [|now apply F_R]. split.
    + apply (F_stable db); [exact HF|]. now apply insert_subject.
    + rewrite map_app. apply in_or_app. right. now left.
Qed.

(** [stats[...] += 1; continue] *)
Lemma count_and_continue_hoare {A} (count : St -> St) (Q : A -> DB -> Prop) :
  hoare F (bind (update_stats count) (fun _ => continue)) Q R.
Proof. intros db st HF. cbn. now apply F_R. Qed.

(** The look-up of the natural key, then the insert only when it found
    nothing: the tail all four importers share. *)
Lemma guarded_commit_query_hoare cid tid sid day start_t end_t
      (count_duplicate count_imported : St -> St) :
  (forall db, F db -> In cid (map class_id (classes db))
                      /\ In tid (map teacher_id (teachers db))
                      /\ In sid (map subject_id (subjects db))) ->
  hoare F
        (bind (query (first_schedule cid day start_t end_t))
              (fun existing =>
                 match existing with
                 | Some _ =>
                     bind (update_stats count_duplicate) (fun _ => continue)
                 | None =>
                     bind (commit_schedule cid tid sid day start_t end_t)
                          (fun _ => update_stats count_imported)
                 end))
        (fun _ => R) R.
Proof.
  intros Hids db st HF. unfold bind at 1. unfold query. cbn [fst snd].
  destruct (first_schedule cid day start_t end_t db) as [x|] eqn:E.
  - cbn. now apply F_R.
  - unfold bind, commit_schedule, update_stats. cbn [fst snd].
    destruct day as [day|]; [|now apply F_R].
    destruct start_t as [start_t|]; [|now apply F_R].
    destruct end_t as [end_t|]; [|now apply F_R]. cbn [fst snd].
    destruct (Hids db HF) as (H1 & H2 & H3).
    apply F_R, (F_stable db); [exact HF|]. now apply insert_schedule.
Qed.

Lemma guarded_commit_hoare cid tid sid day start_t end_t
      (count_duplicate count_imported : St -> St) :
  (forall db, F db -> In cid (map class_id (classes db))
                      /\ In tid (map teacher_id (teachers db))
                      /\ In sid (map subject_id (subjects db))) ->
  hoare F
        (bind (find_schedule cid day start_t end_t)
              (fun existing =>
                 match existing with
                 | Some _ =>
                     bind (update_stats count_duplicate) (fun _ => continue)
                 | None =>
                     bind (commit_schedule cid tid sid day start_t end_t)
                          (fun _ => update_stats count_imported)
                 end))
        (fun _ => R) R.
Proof.
  intros Hids db st HF.
  pose proof (guarded_commit_query_hoare cid tid sid day start_t end_t
                count_duplicate count_imported Hids db st HF) as H.
  unfold bind at 1. unfold bind at 1 in H. unfold find_schedule.
  destruct day as [d|]; [|exact H].
  destruct (fits_integer d); [exact H|]. cbn. now apply F_R.
Qed.

End Guarded.

Ltac solve_stable :=
  repeat apply stable_and;
  auto using stable_floor_id, stable_class_id, stable_teacher_id,
             stable_subject_id.

(** *** The four importers *)

Section Importers.
Variable F : DB -> Prop.
Hypothesis F_stable : stable F.
Variable floor : Floor.

Lemma on_floor_stable : stable (on_floor F floor).
Proof. unfold on_floor. solve_stable. Qed.

Lemma import_core_hoare {St} (cc tc sc : string -> St -> St)
      (dup imp : St -> St) e :
  hoare (on_floor F floor) (import_core cc tc sc dup imp floor e)
        (fun _ => on_floor F floor) (on_floor F floor).
Proof.
  pose proof on_floor_stable as Hs.
  unfold import_core.
  eapply hoare_bind.
  { apply (get_or_create_class_hoare (on_floor F floor) (on_floor F floor)
             Hs); [auto|].
    unfold on_floor. tauto. }
  intros c. cbv beta. eapply hoare_bind.
  { apply get_or_create_teacher_hoare with (R := on_floor F floor);
      [solve_stable|tauto]. }
  intros t. cbv beta. eapply hoare_bind.
  { apply get_or_create_subject_hoare with (R := on_floor F floor);
      [solve_stable|tauto]. }
  intros x. cbv beta.
  apply guarded_commit_hoare; [solve_stable|tauto|tauto].
Qed.

Lemma smart_step_stable e db st :
  on_floor F floor db ->
  on_floor F floor (fst (Smart.import_step floor e (db, st))).
Proof.
  intros H. unfold Smart.import_step.
  apply hoare_try with (P := on_floor F floor); [|reflexivity|exact H].
  apply (import_core_hoare Smart.class_created Smart.teacher_created
           Smart.subject_created Smart.count_skipped Smart.count_imported).
Qed.

Lemma remaining_step_stable e db st :
  on_floor F floor db ->
  on_floor F floor (fst (Remaining.import_step floor e (db, st))).
Proof.
  intros H. unfold Remaining.import_step.
  apply hoare_try with (P := on_floor F floor); [|reflexivity|exact H].
  unfold Remaining.import_entry.
  destruct (negb (Remaining.required_fields e)).
  - apply count_and_continue_hoare. auto.
  - apply (import_core_hoare Remaining.class_created
             Remaining.teacher_created Remaining.subject_created
             Remaining.count_duplicate Remaining.count_imported).
Qed.

Lemma frompdf_step_stable e db st :
  on_floor F floor db ->
  on_floor F floor (fst (FromPdf.import_step floor e (db, st))).
Proof.
  pose proof on_floor_stable as Hs.
  intros H. unfold FromPdf.import_step. cbn [fst snd].
  apply hoare_try with (P := on_floor F floor); [|reflexivity|exact H].
  unfold FromPdf.import_entry, FromPdf.skip.
  destruct (e_day e) as [day|]; [|apply count_and_continue_hoare; auto].
  destruct (e_start_time e) as [start_t|];
    [|apply count_and_continue_hoare; auto].
  destruct (e_end_time e) as [end_t|];
    [|apply count_and_continue_hoare; auto].
  destruct (negb (truthy_opt (e_class_name e)));
    [apply count_and_continue_hoare; auto|].
  eapply hoare_bind.
  { apply (get_or_create_class_hoare (on_floor F floor) (on_floor F floor)
             Hs); [auto|].
    unfold on_floor. tauto. }
  intros c. cbv beta.
  destruct (negb (truthy_opt (e_teacher e)));
    [apply count_and_continue_hoare; tauto|].
  eapply hoare_bind.
  { apply get_or_create_teacher_hoare with (R := on_floor F floor);
      [solve_stable|tauto]. }
  intros t. cbv beta.
  destruct (negb (truthy_opt (e_subject e)));
    [apply count_and_continue_hoare; tauto|].
  eapply hoare_bind.
  { apply get_or_create_subject_hoare with (R := on_floor F floor);
      [solve_stable|tauto]. }
  intros x. cbv beta.
  apply guarded_commit_hoare; [solve_stable|tauto|tauto].
Qed.

Lemma complete_step_stable no_teacher free_subject e db st :
  In (teacher_id no_teacher) (map teacher_id (teachers db)) ->
  In (subject_id free_subject) (map subject_id (subjects db)) ->
  on_floor F floor db ->
  on_floor F floor
           (fst (Complete.import_step floor no_teacher free_subject e (db, st)))
  /\ In (teacher_id no_teacher)
        (map teacher_id
             (teachers (fst (Complete.import_step floor no_teacher
                                                  free_subject e (db, st)))))
  /\ In (subject_id free_subject)
        (map subject_id
             (subjects (fst (Complete.import_step floor no_teacher
                                                  free_subject e (db, st))))).
Proof.
  intros Ht Hx Hf.
  set (G := fun db => on_floor F floor db
                      /\ In (teacher_id no_teacher)
                            (map teacher_id (teachers db))
                      /\ In (subject_id free_subject)
                            (map subject_id (subjects db))).
  assert (HG : stable G).
  { unfold G. pose proof on_floor_stable. solve_stable. }
  enough (G (fst (Complete.import_step floor no_teacher free_subject e
                                       (db, st)))) as H by exact H.
  unfold Complete.import_step.
  apply hoare_try with (P := G); [|reflexivity|unfold G; tauto].
  unfold Complete.import_entry.
  eapply hoare_bind.
  { apply (get_or_create_class_hoare G G HG); [auto|].
    unfold G, on_floor. tauto. }
  intros c. cbv beta. eapply hoare_bind.
  { apply hoare_item. tauto. }
  intros is_free. cbv beta. eapply hoare_bind.
  { instantiate (1 := fun ts db =>
        (G db /\ In (class_id c) (map class_id (classes db)))
        /\ In (teacher_id (fst ts)) (map teacher_id (teachers db))
        /\ In (subject_id (snd ts)) (map subject_id (subjects db))).
    destruct is_free.
    - apply hoare_ret. unfold G. cbn [fst snd]. tauto.
    - eapply hoare_bind.
      { apply get_or_create_teacher_hoare with (R := G);
          [solve_stable|tauto]. }
      intros t. cbv beta. eapply hoare_bind.
      { apply get_or_create_subject_hoare with (R := G);
          [solve_stable|tauto]. }
      intros x. cbv beta. apply hoare_ret. cbn [fst snd]. tauto. }
  intros ts. cbv beta.
  apply guarded_commit_hoare; [solve_stable|tauto|tauto].
Qed.

End Importers.

Lemma smart_import_stable F es n db :
  stable F -> F db -> F (fst (Smart.import_to_database es n db)).
Proof.
  intros Hs HF. unfold Smart.import_to_database.
  pose proof (get_or_create_floor_hoare F F Hs n db
                (Smart.init_stats (List.length es)) HF) as Hfl.
  destruct (get_or_create_floor n _) as [[db1 st1] [fl| |]];
    [|exact Hfl|exact Hfl].
  apply (for_each_invariant
           (fun db => F db /\ In (floor_id fl) (map floor_id (floors db))));
    [|exact Hfl].
  intros e db' st'. now apply smart_step_stable.
Qed.

Lemma remaining_import_stable F es n db :
  stable F -> F db -> F (fst (Remaining.import_to_database es n db)).
Proof.
  intros Hs HF. unfold Remaining.import_to_database.
  destruct (negb (nonempty es)); [exact HF|].
  pose proof (get_or_create_floor_hoare F F Hs n db
                (Remaining.init_stats (List.length es)) HF) as Hfl.
  destruct (get_or_create_floor n _) as [[db1 st1] [fl| |]];
    [|exact Hfl|exact Hfl].
  cbn [fst].
  apply (for_each_invariant
           (fun db => F db /\ In (floor_id fl) (map floor_id (floors db))));
    [|exact Hfl].
  intros e db' st'. now apply remaining_step_stable.
Qed.

Lemma frompdf_import_stable F es n db :
  stable F -> F db -> F (fst (FromPdf.import_schedule_to_database es n db)).
Proof.
  intros Hs HF. unfold FromPdf.import_schedule_to_database.
  pose proof (get_or_create_floor_hoare F F Hs n db FromPdf.init_stats HF)
    as Hfl.
  destruct (get_or_create_floor n _) as [[db1 st1] [fl| |]];
    [|exact Hfl|exact Hfl].
  apply (for_each_invariant
           (fun db => F db /\ In (floor_id fl) (map floor_id (floors db))));
    [|exact Hfl].
  intros e db' st'. now apply frompdf_step_stable.
Qed.

Lemma complete_prepare_hoare F n clear_existing :
  stable F -> (clear_existing = true -> droppable F) ->
  hoare (St := Complete.stats) F (Complete.prepare n clear_existing)
        (fun '(floor, no_teacher, free_subject) db =>
           (F db /\ In (floor_id floor) (map floor_id (floors db)))
           /\ In (teacher_id no_teacher) (map teacher_id (teachers db))
           /\ In (subject_id free_subject) (map subject_id (subjects db)))
        F.
Proof.
  intros Hs Hd. unfold Complete.prepare.
  eapply hoare_bind; [now apply get_or_create_floor_hoare|].
  intros fl. cbv beta.
  set (G := fun db => F db /\ In (floor_id fl) (map floor_id (floors db))).
  assert (HG : stable G) by (unfold G; solve_stable).
  eapply hoare_bind.
  { instantiate (1 := fun _ => G).
    destruct clear_existing.
    - intros db st [HF Hin]. unfold Complete.clear_floor_schedules.
      cbn [fst snd]. split; [|exact Hin].
      exact (Hd eq_refl db _ HF).
    - apply hoare_ret. auto. }
  intros u. cbv beta. eapply hoare_bind.
  { apply get_or_create_subject_hoare with (R := F);
      [exact HG|unfold G; tauto]. }
  intros x. cbv beta. eapply hoare_bind.
  { apply get_or_create_teacher_hoare with (R := F);
      [unfold G; solve_stable|unfold G; tauto]. }
  intros t. cbv beta. apply hoare_ret. unfold G. tauto.
Qed.

Lemma complete_import_stable F es n clear_existing db :
  stable F -> (clear_existing = true -> droppable F) -> F db ->
  F (fst (Complete.import_to_database es n clear_existing db)).
Proof.
  intros Hs Hd HF. unfold Complete.import_to_database.
  pose proof (complete_prepare_hoare F n clear_existing Hs Hd db
                (Complete.init_stats (List.length es)) HF) as Hp.
  destruct (Complete.prepare n clear_existing _)
    as [[db1 st1] [[[fl no_teacher] free_subject]| |]];
    [|exact Hp|exact Hp].
  apply (for_each_invariant
           (fun db =>
              (F db /\ In (floor_id fl) (map floor_id (floors db)))
              /\ In (teacher_id no_teacher) (map teacher_id (teachers db))
              /\ In (subject_id free_subject)
                    (map subject_id (subjects db))));
    [|exact Hp].
  intros e db' st' (H1 & H2 & H3).
  now apply complete_step_stable.
Qed.

(** *** What the guarded inserts keep *)

Lemma NoDup_snoc {A} (l : list A) x : NoDup l -> ~ In x l -> NoDup (l ++ [x]).
Proof.
  intros Hl Hx. apply NoDup_app; [exact Hl|repeat constructor; intros []|].
  intros a Ha [<-|[]]. contradiction.
Qed.

Lemma next_id_fresh ids : ~ In (next_id ids) ids.
Proof.
  unfold next_id. intros H.
  assert (Hle : forall n, In n ids -> n <= fold_right Nat.max 0 ids).
  { clear. induction ids as [|a ids IH]; intros n; cbn [In fold_right];
      [tauto|].
    intros [<-|Hn]; [lia|]. specialize (IH n Hn). lia. }
  specialize (Hle _ H). lia.
Qed.

Lemma find_none_key {A K} (key : A -> K) (test : A -> bool) k l :
  (forall a, key a = k -> test a = true) ->
  find test l = None -> ~ In k (map key l).
Proof.
  intros Ht Hf Hin. apply in_map_iff in Hin. destruct Hin as (a & Hk & Ha).
  pose proof (find_none _ _ Hf a Ha) as Hn. rewrite (Ht a Hk) in Hn.
  discriminate.
Qed.

Lemma first_floor_none number db :
  first_floor number db = None -> ~ In number (map floor_number (floors db)).
Proof.
  apply find_none_key. intros f ->. apply Nat.eqb_refl.
Qed.

Lemma first_class_none name fid db :
  first_class (Some name) fid db = None ->
  ~ In (name, fid) (map class_key (classes db)).
Proof.
  apply find_none_key. unfold class_key. intros c H. injection H as -> ->.
  now rewrite String.eqb_refl, Nat.eqb_refl.
Qed.

Lemma first_teacher_none name db :
  first_teacher (Some name) db = None ->
  ~ In name (map teacher_name (teachers db)).
Proof. apply find_none_key. intros t ->. apply String.eqb_refl. Qed.

Lemma first_subject_none name db :
  first_subject (Some name) db = None ->
  ~ In name (map subject_name (subjects db)).
Proof. apply find_none_key. intros x ->. apply String.eqb_refl. Qed.

Lemma first_schedule_none cid day start_t end_t db :
  first_schedule cid (Some day) (Some start_t) (Some end_t) db = None ->
  ~ In (cid, day, start_t, end_t) (map schedule_key (schedules db)).
Proof.
  apply find_none_key. unfold schedule_key. intros x H.
  injection H as -> -> -> ->.
  now rewrite !Nat.eqb_refl, !time_eqb_refl.
Qed.

Lemma in_map_snoc {A B} (f : A -> B) l x b :
  In b (map f l) -> In b (map f (l ++ [x])).
Proof. intros H. rewrite map_app. apply in_or_app. now left. Qed.

Lemma in_map_last {A B} (f : A -> B) l x : In (f x) (map f (l ++ [x])).
Proof. rewrite map_app. apply in_or_app. right. now left. Qed.

Lemma NoDup_map_snoc {A B} (f : A -> B) l x :
  NoDup (map f l) -> ~ In (f x) (map f l) -> NoDup (map f (l ++ [x])).
Proof. intros. rewrite map_app. now apply NoDup_snoc. Qed.

Lemma NoDup_map_filter {A B} (f : A -> B) p l :
  NoDup (map f l) -> NoDup (map f (filter p l)).
Proof.
  induction l as [|a l IH]; cbn [map filter]; [auto|].
  intros H. inversion H as [|? ? Hn Hl]; subst.
  destruct (p a); [|now apply IH]. cbn [map]. constructor; [|now apply IH].
  intros Hin. apply Hn. apply in_map_iff in Hin.
  destruct Hin as (b & Hb & Hin). apply filter_In in Hin.
  rewrite <- Hb. apply in_map. tauto.
Qed.

Lemma Forall_filter {A} (P : A -> Prop) p l :
  Forall P l -> Forall P (filter p l).
Proof.
  intros H. apply Forall_forall. intros a Ha. apply filter_In in Ha.
  now apply (proj1 (Forall_forall P l) H).
Qed.

Lemma constraints_stable : stable constraints_hold.
Proof.
  intros db db' [H1 H2 H3 H4 H5 H6 H7 H8 H9] Hw.
  destruct Hw as [name number Hg|name fid Hg Hfid|name Hg|name Hg
                  |cid tid sid day start_t end_t Hg Hc Ht Hx];
    constructor; cbn [with_floor with_class with_teacher with_subject
                      with_schedule floors classes teachers subjects
                      schedules]; try assumption.
  - apply NoDup_map_snoc; [assumption|apply next_id_fresh].
  - apply NoDup_map_snoc; [assumption|]. now apply first_floor_none.
  - eapply Forall_impl; [|exact H8]. intros c. apply in_map_snoc.
  - apply NoDup_map_snoc; [assumption|apply next_id_fresh].
  - apply Forall_app. split; [assumption|]. constructor; [|constructor].
    exact Hfid.
  - eapply Forall_impl; [|exact H9]. intros x (Ha & Hb & Hc).
    split; [now apply in_map_snoc|]. split; assumption.
  - apply NoDup_map_snoc; [assumption|apply next_id_fresh].
  - eapply Forall_impl; [|exact H9]. intros x (Ha & Hb & Hc).
    split; [assumption|]. split; [now apply in_map_snoc|assumption].
  - apply NoDup_map_snoc; [assumption|apply next_id_fresh].
  - apply NoDup_map_snoc; [assumption|]. now apply first_subject_none.
  - eapply Forall_impl; [|exact H9]. intros x (Ha & Hb & Hc).
    split; [assumption|]. split; [assumption|now apply in_map_snoc].
  - apply NoDup_map_snoc; [assumption|apply next_id_fresh].
  - apply Forall_app. split; [assumption|]. constructor; [|constructor].
    cbn. tauto.
Qed.

Lemma constraints_droppable : droppable constraints_hold.
Proof.
  intros db keep [H1 H2 H3 H4 H5 H6 H7 H8 H9].
  constructor; cbn [keep_schedules floors classes teachers subjects
                    schedules]; try assumption.
  - now apply NoDup_map_filter.
  - now apply Forall_filter.
Qed.

Lemma keys_distinct_stable : stable keys_distinct.
Proof.
  intros db db' [H1 H2 H3] Hw.
  destruct Hw as [name number Hg|name fid Hg Hfid|name Hg|name Hg
                  |cid tid sid day start_t end_t Hg Hc Ht Hx];
    constructor; cbn [with_floor with_class with_teacher with_subject
                      with_schedule floors classes teachers subjects
                      schedules]; try assumption.
  - apply NoDup_map_snoc; [assumption|]. now apply first_class_none.
  - apply NoDup_map_snoc; [assumption|]. now apply first_teacher_none.
  - apply NoDup_map_snoc; [assumption|]. now apply first_schedule_none.
Qed.

Lemma keys_distinct_droppable : droppable keys_distinct.
Proof.
  intros db keep [H1 H2 H3].
  constructor; cbn [keep_schedules floors classes teachers subjects
                    schedules]; try assumption.
  now apply NoDup_map_filter.
Qed.

Lemma guarded_inserts_stable db0 : stable (guarded_inserts db0).
Proof. intros db db' H Hw. now apply inserts_more with db. Qed.

(** X8. The importers respect what the models declare.  On a store
    whose primary keys are distinct, whose Floor numbers and Subject
    names are unique and whose foreign keys resolve, each of the four
    importers ends on such a store again, whatever the batch; the
    complete importer also when it clears the floor first.  So no commit
    of a run can fail on a UNIQUE or FOREIGN KEY constraint. *)
Theorem importers_keep_constraints (schedules : list entry)
        (floor_number : nat) (db : DB) :
  constraints_hold db ->
  constraints_hold (fst (Smart.import_to_database schedules floor_number db))
  /\ (forall clear_existing,
         constraints_hold
           (fst (Complete.import_to_database schedules floor_number
                                             clear_existing db)))
  /\ constraints_hold
       (fst (Remaining.import_to_database schedules floor_number db))
  /\ constraints_hold
       (fst (FromPdf.import_schedule_to_database schedules floor_number db)).
Proof.
  intros H. pose proof constraints_stable as Hs.
  split; [now apply smart_import_stable|].
  split; [|split].
  - intros clear_existing. apply complete_import_stable; auto.
    intros _. apply constraints_droppable.
  - now apply remaining_import_stable.
  - now apply frompdf_import_stable.
Qed.

Lemma importers_keep_constraints_witness :
  let e := mk_entry (Some "7A") (Some 1) "tuesday"
                    (Some (mk_time 8 30)) (Some (mk_time 9 5))
                    (Some "Math") (Some "Mr. Ali") "1" false in
  let e' := mk_entry (Some "7B") (Some 1) "tuesday"
                     (Some (mk_time 8 30)) (Some (mk_time 9 5))
                     (Some "Free Period") (Some "No Teacher") "1" true in
  let db := mk_db [mk_floor 1 "first" 2] [mk_class 1 "7A" 1]
                  [mk_teacher 1 "Mr. Ali"] [mk_subject 1 "Math"]
                  [mk_schedule 1 1 1 1 1 (mk_time 8 30) (mk_time 9 5)] in
  constraints_hold db
  /\ constraints_hold (fst (Complete.import_to_database [e; e'] 2 true db))
  /\ List.length
       (schedules (fst (Complete.import_to_database [e; e'] 2 true db))) = 2.
Proof.
  intros e e' db.
  assert (H : constraints_hold db).
  { constructor; cbn; repeat (constructor; cbn; try tauto). }
  split; [exact H|]. split; [|reflexivity].
  destruct (importers_keep_constraints [e; e'] 2 db H) as (_ & Hc & _).
  exact (Hc true).
Defined.

(** X9. The importers never store a duplicate.  If no two classes of a
    floor share a name, no two teachers share a name and no two Schedule
    rows share the natural key (class, day, start, end) before a run,
    the same holds after it, for each of the four importers and any
    batch. *)
Theorem importers_keep_keys_distinct (schedules : list entry)
        (floor_number : nat) (db : DB) :
  keys_distinct db ->
  keys_distinct (fst (Smart.import_to_database schedules floor_number db))
  /\ (forall clear_existing,
         keys_distinct
           (fst (Complete.import_to_database schedules floor_number
                                             clear_existing db)))
  /\ keys_distinct
       (fst (Remaining.import_to_database schedules floor_number db))
  /\ keys_distinct
       (fst (FromPdf.import_schedule_to_database schedules floor_number db)).
Proof.
  intros H. pose proof keys_distinct_stable as Hs.
  split; [now apply smart_import_stable|].
  split; [|split].
  - intros clear_existing. apply complete_import_stable; auto.
    intros _. apply keys_distinct_droppable.
  - now apply remaining_import_stable.
  - now apply frompdf_import_stable.
Qed.

Lemma importers_keep_keys_distinct_witness :
  let e := mk_entry (Some "7A") (Some 1) "tuesday"
                    (Some (mk_time 8 30)) (Some (mk_time 9 5))
                    (Some "Math") (Some "Mr. Ali") "1" false in
  let db := mk_db [mk_floor 1 "first" 2] [mk_class 1 "7A" 1]
                  [mk_teacher 1 "Mr. Ali"] [mk_subject 1 "Math"] [] in
  keys_distinct db
  /\ keys_distinct (fst (Smart.import_to_database [e; e] 2 db))
  /\ List.length (schedules (fst (Smart.import_to_database [e; e] 2 db))) = 1.
Proof.
  intros e db.
  assert (H : keys_distinct db).
  { constructor; cbn; repeat (constructor; cbn; try tauto). }
  split; [exact H|]. split; [|reflexivity].
  destruct (importers_keep_keys_distinct [e; e] 2 db H) as (Hs & _).
  exact Hs.
Defined.

(** X10. Without the clearing option an import only inserts: the store
    after a run is the store before it followed by guarded inserts, each
    a row under a fresh primary key, written after a look-up that found
    nothing, and referring to stored rows only.  No importer updates a
    row, and none deletes one. *)
Theorem import_run_only_inserts (schedules : list entry)
        (floor_number : nat) (db : DB) :
  guarded_inserts db (fst (Smart.import_to_database schedules floor_number db))
  /\ guarded_inserts db
       (fst (Complete.import_to_database schedules floor_number false db))
  /\ guarded_inserts db
       (fst (Remaining.import_to_database schedules floor_number db))
  /\ guarded_inserts db
       (fst (FromPdf.import_schedule_to_database schedules floor_number db)).
Proof.
  pose proof (guarded_inserts_stable db) as Hs.
  pose proof (inserts_none db) as H0.
  split; [now apply smart_import_stable|].
  split; [|split].
  - apply complete_import_stable; auto. discriminate.
  - now apply remaining_import_stable.
  - now apply frompdf_import_stable.
Qed.
(** ** The statistics of a run *)

Section TripleRules.
Context {St : Type}.






Variable P : list Schedule -> St -> Prop.
Variable created : string -> St -> St.
Hypothesis P_created : forall rows n st, P rows st -> P rows (created n st).








End TripleRules.




(** *** import_schedule_smart.py *)



(** *** import_remaining_floors.py *)



(** *** import_schedule_from_pdf.py *)



(** *** import_complete_schedules.py *)






(** ** A second run of the two other importers *)



(** ** From the document to the check of missing sessions *)

Import CheckSessions.





(** ** Marking attendance *)

Import Attendances.

Lemma date_eqb_refl d : date_eqb d d = true.
Proof. unfold date_eqb. now rewrite !Nat.eqb_refl. Qed.

Lemma date_eqb_eq a b : date_eqb a b = true -> a = b.
Proof.
  unfold date_eqb. destruct a as [y m d], b as [y' m' d']. cbn.
  intros H. apply andb_true_iff in H. destruct H as [H H3].
  apply andb_true_iff in H. destruct H as [H1 H2].
  apply Nat.eqb_eq in H1, H2, H3. now subst.
Qed.

Lemma update_first_map {A K} (key : A -> K) test f l :
  (forall a, key (f a) = key a) ->
  map key (update_first test f l) = map key l.
Proof.
  intros Hk. induction l as [|a l IH]; cbn [update_first map]; [reflexivity|].
  destruct (test a); cbn [map]; [now rewrite Hk|now rewrite IH].
Qed.

Lemma update_first_again {A} (test : A -> bool) f l :
  (forall a, test a = true -> test (f a) = true) ->
  (forall a, f (f a) = f a) ->
  update_first test f (update_first test f l) = update_first test f l.
Proof.
  intros Ht Hf. induction l as [|a l IH]; cbn [update_first]; [reflexivity|].
  destruct (test a) eqn:E; cbn [update_first].
  - now rewrite (Ht a E), Hf.
  - now rewrite E, IH.
Qed.

Lemma find_update_first {A} (test : A -> bool) f l :
  (forall a, test a = true -> test (f a) = true) ->
  find test (update_first test f l) = option_map f (find test l).
Proof.
  intros Ht. induction l as [|a l IH]; cbn [update_first find]; [reflexivity|].
  destruct (test a) eqn:E; cbn [find].
  - now rewrite (Ht a E).
  - now rewrite E, IH.
Qed.

Lemma update_first_none {A} (test : A -> bool) f l :
  find test l = None -> update_first test f l = l.
Proof.
  induction l as [|a l IH]; cbn [update_first find]; [reflexivity|].
  destruct (test a); [discriminate|]. intros H. now rewrite IH.
Qed.

Lemma update_first_last {A} (test : A -> bool) f l x :
  find test l = None -> test x = true ->
  update_first test f (l ++ [x]) = (l ++ [f x])%list.
Proof.
  induction l as [|a l IH]; cbn [update_first find app].
  - intros _ ->. reflexivity.
  - destruct (test a); [discriminate|]. intros H Hx. now rewrite IH.
Qed.

(** X16. Marking is idempotent.  Posting the same form again for the
    same schedule on the same day leaves the Attendance table as the
    first post left it and gives the same answer, whatever the table
    held before and whatever the form: the row the first post wrote is
    found and written again with the same values. *)
Theorem mark_attendance_idempotent (parse : string -> option time)
        (schedule_id : nat) (f : form) (current_date : date) (db : DB)
        (rows : list Attendance) :
  let once := mark_attendance parse schedule_id f current_date db rows in
  mark_attendance parse schedule_id f current_date db (fst once) = once.
Proof.
  cbv zeta. unfold mark_attendance.
  destruct (find _ (schedules db)) as [schedule|]; [|reflexivity].
  destruct (arrival parse f schedule) as [[actual late]|];
    [|reflexivity].
  destruct (form_status f) as [new_status|]; [|reflexivity].
  set (test := fun a => (attendance_schedule_id a =? schedule_id)%nat
                        && date_eqb (attendance_date a) current_date).
  set (write := fun a => mk_attendance (attendance_id a)
                           (attendance_schedule_id a) (attendance_class_id a)
                           (attendance_teacher_id a) (attendance_date a)
                           new_status actual late (form_notes f)).
  assert (Htest : forall a, test a = true -> test (write a) = true)
    by (intros a H; exact H).
  unfold first_attendance. fold test.
  destruct (find test rows) as [a0|] eqn:E; cbn [fst].
  - rewrite (find_update_first test write rows Htest), E. cbn [option_map].
    now rewrite (update_first_again test write rows Htest).
  - set (new := mk_attendance _ _ _ _ _ _ _ _ _).
    assert (Hnew : test new = true).
    { unfold test, new. cbn. now rewrite Nat.eqb_refl, date_eqb_refl. }
    rewrite (find_app_none test rows [new] E). cbn [find]. rewrite Hnew.
    now rewrite (update_first_last test write rows new E Hnew).
Qed.

(** X17. One row for a schedule and a day.  If no two rows of the
    Attendance table share a schedule and a date, and no two share an
    id, the same holds after [mark_attendance], whatever it answers: a
    second mark for a schedule on a day rewrites the row, it never adds
    one. *)
Theorem mark_attendance_keeps_one_row (parse : string -> option time)
        (schedule_id : nat) (f : form) (current_date : date) (db : DB)
        (rows : list Attendance) :
  NoDup (map attendance_key rows) ->
  NoDup (map attendance_id rows) ->
  let rows' :=
    fst (mark_attendance parse schedule_id f current_date db rows) in
  NoDup (map attendance_key rows')
  /\ NoDup (map attendance_id rows')
  /\ List.length rows <= List.length rows' <= S (List.length rows).
Proof.
  intros Hkeys Hids. cbv zeta. unfold mark_attendance.
  destruct (find _ (schedules db)) as [schedule|]; [|cbn; auto].
  destruct (arrival parse f schedule) as [[actual late]|];
    [|cbn; auto].
  destruct (form_status f) as [new_status|]; [|cbn; auto].
  unfold first_attendance.
  destruct (find _ rows) as [a0|] eqn:E; cbn [fst].
  - split; [|split].
    + now rewrite (update_first_map attendance_key).
    + now rewrite (update_first_map attendance_id).
    + rewrite <- (length_map attendance_id (update_first _ _ _)),
        (update_first_map attendance_id), length_map; [lia|reflexivity].
  - split; [|split].
    + apply NoDup_map_snoc; [exact Hkeys|].
      refine (find_none_key attendance_key _ _ _ _ E).
      intros a H. unfold attendance_key in H. cbn in H.
      injection H as -> ->. now rewrite Nat.eqb_refl, date_eqb_refl.
    + apply NoDup_map_snoc; [exact Hids|apply next_id_fresh].
    + rewrite length_app. cbn. lia.
Qed.

Lemma mark_attendance_keeps_one_row_witness :
  let db := mk_db [] [] [] []
                  [mk_schedule 7 1 1 1 1 (mk_time 8 30) (mk_time 9 5)] in
  let today := mk_date 2025 1 14 in
  let rows := [mk_attendance 1 7 1 1 today "Present" None None ""] in
  let f := mk_form (Some "Late") (Some "08:42") "bus" in
  fst (mark_attendance strptime_HM 7 f today db rows)
  = [mk_attendance 1 7 1 1 today "Late" (Some (mk_time 8 42)) (Some 12%Z)
                   "bus"]
  /\ NoDup (map attendance_key
                (fst (mark_attendance strptime_HM 7 f today db rows))).
Proof.
  intros db today rows f. split; [reflexivity|].
  assert (H1 : NoDup (map attendance_key rows))
    by (cbn; constructor; [intros []|constructor]).
  assert (H2 : NoDup (map attendance_id rows))
    by (cbn; constructor; [intros []|constructor]).
  exact (proj1 (mark_attendance_keeps_one_row strptime_HM 7 f today db rows
                  H1 H2)).
Defined.

Lemma find_update_first_other {A} (test test' : A -> bool) f l :
  (forall a, test a = true -> test' a = false) ->
  (forall a, test a = true -> test' (f a) = false) ->
  find test' (update_first test f l) = find test' l.
Proof.
  intros H1 H2. induction l as [|a l IH]; cbn [update_first find];
    [reflexivity|].
  destruct (test a) eqn:E; cbn [find].
  - now rewrite (H1 a E), (H2 a E).
  - now rewrite IH.
Qed.

Lemma late_by_nonneg scheduled_start actual :
  (0 <= late_by scheduled_start actual)%Z.
Proof. unfold late_by. lia. Qed.

(** X18. What a mark stores.  When [mark_attendance] answers with the
    redirect, the row of the schedule and the day carries the status and
    the notes of the form; it carries a time of arrival and minutes late
    only for the status 'Late' posted with a time, and then the minutes
    are those from the start of the schedule to the arrival, 0 for an
    arrival before the start, never negative.  Whatever the row held
    before is gone, and the rows of other schedules or other days are as
    they were. *)
Theorem marked_row_follows_form (parse : string -> option time)
        (schedule_id : nat) (f : form) (current_date : date) (db : DB)
        (rows : list Attendance) (class_id' day_num : nat) :
  snd (mark_attendance parse schedule_id f current_date db rows)
  = Redirect class_id' day_num ->
  let rows' := fst (mark_attendance parse schedule_id f current_date db rows) in
  exists schedule a,
    find (fun x => (Store.schedule_id x =? schedule_id)%nat) (schedules db)
    = Some schedule
    /\ class_id' = schedule_class_id schedule
    /\ day_num = day_of_week schedule
    /\ first_attendance schedule_id current_date rows' = Some a
    /\ form_status f = Some (status a)
    /\ notes a = form_notes f
    /\ arrival parse f schedule = Some (actual_time a, minutes_late a)
    /\ (status a <> "Late" -> actual_time a = None /\ minutes_late a = None)
    /\ (forall m, minutes_late a = Some m ->
                  (0 <= m)%Z
                  /\ exists t, actual_time a = Some t
                               /\ m = late_by (start_time schedule) t)
    /\ (forall schedule_id' d',
           (schedule_id', d') <> (schedule_id, current_date) ->
           first_attendance schedule_id' d' rows'
           = first_attendance schedule_id' d' rows).
Proof.
  cbv zeta. unfold mark_attendance.
  destruct (find _ (schedules db)) as [schedule|]; [|discriminate].
  destruct (arrival parse f schedule) as [[actual late]|] eqn:Ea;
    [|discriminate].
  destruct (form_status f) as [new_status|] eqn:Es; [|discriminate].
  set (test := fun a => (attendance_schedule_id a =? schedule_id)%nat
                        && date_eqb (attendance_date a) current_date).
  set (write := fun a => mk_attendance (attendance_id a)
                           (attendance_schedule_id a) (attendance_class_id a)
                           (attendance_teacher_id a) (attendance_date a)
                           new_status actual late (form_notes f)).
  assert (Hshape :
            (new_status <> "Late" -> actual = None /\ late = None)
            /\ (forall m, late = Some m ->
                          (0 <= m)%Z
                          /\ exists t, actual = Some t
                                       /\ m = late_by (start_time schedule) t)).
  { unfold arrival in Ea. rewrite Es in Ea.
    destruct (new_status =? "Late") eqn:El; cbn [andb] in Ea.
    - apply String.eqb_eq in El.
      destruct (truthy_opt (form_actual_time f)).
      + destruct (parse _) as [t|]; [|discriminate].
        injection Ea as <- <-. split; [congruence|].
        intros m H. injection H as <-.
        split; [apply late_by_nonneg|]. now exists t.
      + injection Ea as <- <-. split; [auto|discriminate].
    - injection Ea as <- <-. split; [auto|discriminate]. }
  assert (Hother : forall schedule_id' d',
             (schedule_id', d') <> (schedule_id, current_date) ->
             forall a, test a = true ->
                       (attendance_schedule_id a =? schedule_id')%nat
                       && date_eqb (attendance_date a) d' = false).
  { intros sid' d' Hne a Ha. unfold test in Ha.
    apply andb_true_iff in Ha. destruct Ha as [H1 H2].
    apply Nat.eqb_eq in H1. apply date_eqb_eq in H2.
    destruct ((attendance_schedule_id a =? sid')%nat
              && date_eqb (attendance_date a) d') eqn:E; [|reflexivity].
    apply andb_true_iff in E. destruct E as [H3 H4].
    apply Nat.eqb_eq in H3. apply date_eqb_eq in H4. congruence. }
  unfold first_attendance. fold test.
  destruct (find test rows) as [a0|] eqn:E; cbn [fst snd].
  all: intros Hr; injection Hr as H1 H2; subst class_id' day_num.
  - exists schedule, (write a0). split; [reflexivity|].
    split; [reflexivity|]. split; [reflexivity|]. split.
    { rewrite (find_update_first test write rows); [now rewrite E|].
      intros a H. exact H. }
    cbn. split; [reflexivity|]. split; [reflexivity|]. split; [exact Ea|].
    split; [exact (proj1 Hshape)|]. split; [exact (proj2 Hshape)|].
    intros sid' d' Hne. apply find_update_first_other.
    + now apply Hother.
    + intros a Ha. now apply (Hother sid' d' Hne a).
  - set (new := mk_attendance _ _ _ _ _ _ _ _ _).
    assert (Hnew : test new = true).
    { unfold test, new. cbn. now rewrite Nat.eqb_refl, date_eqb_refl. }
    exists schedule, new. split; [reflexivity|].
    split; [reflexivity|]. split; [reflexivity|]. split.
    { rewrite (find_app_none test rows [new] E). cbn [find].
      now rewrite Hnew. }
    cbn. split; [reflexivity|]. split; [reflexivity|]. split; [exact Ea|].
    split; [exact (proj1 Hshape)|]. split; [exact (proj2 Hshape)|].
    intros sid' d' Hne.
    destruct (find (fun a => (attendance_schedule_id a =? sid')%nat
                             && date_eqb (attendance_date a) d') rows)
      as [a1|] eqn:E1.
    + now apply find_app_some.
    + rewrite (find_app_none _ rows [new] E1). cbn [find].
      now rewrite (Hother sid' d' Hne new Hnew).
Qed.

Lemma marked_row_follows_form_witness :
  let db := mk_db [] [] [] []
                  [mk_schedule 7 3 5 1 1 (mk_time 8 30) (mk_time 9 5)] in
  let today := mk_date 2025 1 14 in
  let rows := [mk_attendance 1 7 3 5 today "Late" (Some (mk_time 8 42))
                             (Some 12%Z) "bus"] in
  let f := mk_form (Some "Present") (Some "08:42") "" in
  mark_attendance strptime_HM 7 f today db rows
  = ([mk_attendance 1 7 3 5 today "Present" None None ""], Redirect 3 1)
  /\ exists a,
      first_attendance 7 today
        (fst (mark_attendance strptime_HM 7 f today db rows)) = Some a
      /\ form_status f = Some (status a).
Proof.
  intros db today rows f. split; [reflexivity|].
  destruct (marked_row_follows_form strptime_HM 7 f today db rows 3 1 eq_refl)
    as (schedule & a & _ & _ & _ & Ha & Hs & _).
  exists a. split; [exact Ha|exact Hs].
Defined.

(** ** The statistics of a day *)

Lemma dict_update_sum {V} (counter : V -> nat) key fresh (f : V -> V) d delta :
  counter fresh = 0 ->
  (forall v, counter (f v) = counter v + delta) ->
  sum_of (fun kv => counter (snd kv)) (dict_update key fresh f d)
  = sum_of (fun kv => counter (snd kv)) d + delta.
Proof.
  intros H0 Hf. induction d as [|[k v] d IH]; cbn [dict_update sum_of fold_right].
  - cbn. rewrite Hf, H0. lia.
  - destruct (k =? key)%nat; cbn [sum_of fold_right snd].
    + rewrite Hf. unfold sum_of. lia.
    + unfold sum_of in *. rewrite IH. lia.
Qed.

Lemma dict_update_minutes {V} (minutes : V -> Z) key fresh (f : V -> V) d
      delta :
  minutes fresh = 0%Z ->
  (forall v, minutes (f v) = (minutes v + delta)%Z) ->
  sum_minutes (fun kv => minutes (snd kv)) (dict_update key fresh f d)
  = (sum_minutes (fun kv => minutes (snd kv)) d + delta)%Z.
Proof.
  intros H0 Hf.
  induction d as [|[k v] d IH]; cbn [dict_update sum_minutes fold_right].
  - cbn. rewrite Hf, H0. lia.
  - destruct (k =? key)%nat; cbn [sum_minutes fold_right snd].
    + rewrite Hf. unfold sum_minutes. lia.
    + unfold sum_minutes in *. rewrite IH. lia.
Qed.

Lemma dict_update_Forall {V} (P : nat * V -> Prop) key fresh (f : V -> V) d :
  P (key, f fresh) ->
  (forall k v, P (k, v) -> P (k, f v)) ->
  Forall P d -> Forall P (dict_update key fresh f d).
Proof.
  intros Hfresh Hf. induction d as [|[k v] d IH]; cbn [dict_update].
  - intros _. constructor; [exact Hfresh|constructor].
  - intros H. inversion H as [|? ? Hkv Hd]; subst.
    destruct (k =? key)%nat; constructor; auto.
Qed.

Lemma dict_update_key_in {V} key fresh (f : V -> V) d k :
  In k (map fst (dict_update key fresh f d)) ->
  k = key \/ In k (map fst d).
Proof.
  induction d as [|[k0 v] d IH]; cbn [dict_update].
  - cbn. intros [<-|[]]. now left.
  - destruct (k0 =? key)%nat; cbn; [tauto|].
    intros [<-|Hk]; [tauto|]. destruct (IH Hk); tauto.
Qed.

Lemma dict_update_keys {V} key fresh (f : V -> V) d :
  NoDup (map fst d) -> NoDup (map fst (dict_update key fresh f d)).
Proof.
  induction d as [|[k v] d IH]; cbn [dict_update].
  - intros _. cbn. constructor; [intros []|constructor].
  - cbn. intros H. inversion H as [|? ? Hk Hd]; subst.
    destruct (k =? key)%nat eqn:E; cbn; [now constructor|].
    constructor; [|now apply IH].
    intros Hk'. apply dict_update_key_in in Hk'.
    destruct Hk' as [->|Hk']; [|contradiction].
    now rewrite Nat.eqb_refl in E.
Qed.

Lemma count_status_total st c : total (count_status st c) = total c + 1.
Proof.
  unfold count_status.
  destruct (st =? "Present"), (st =? "Late"), (st =? "Absent"); cbn; lia.
Qed.

Lemma count_status_counter st c :
  present (count_status st c)
  = present c + (if st =? "Present" then 1 else 0)
  /\ late (count_status st c) = late c + (if st =? "Late" then 1 else 0)
  /\ absent (count_status st c) = absent c + (if st =? "Absent" then 1 else 0).
Proof.
  unfold count_status.
  destruct (st =? "Present") eqn:E1.
  - apply String.eqb_eq in E1. subst st. cbn. lia.
  - destruct (st =? "Late") eqn:E2.
    + apply String.eqb_eq in E2. subst st. cbn. lia.
    + destruct (st =? "Absent"); cbn; lia.
Qed.

Lemma count_status_in_order st c :
  (present c + late c + absent c <= total c) ->
  line_in_order (count_status st c).
Proof.
  intros H. unfold line_in_order.
  destruct (count_status_counter st c) as (-> & -> & ->).
  rewrite count_status_total.
  destruct (st =? "Present") eqn:E1.
  - apply String.eqb_eq in E1. subst st. cbn. lia.
  - destruct (st =? "Late") eqn:E2.
    + apply String.eqb_eq in E2. subst st. cbn. lia.
    + destruct (st =? "Absent"); lia.
Qed.

Lemma sum_of_indicator st attendances :
  sum_of (fun a => if status a =? st then 1 else 0) attendances
  = count_where st attendances.
Proof.
  unfold count_where, sum_of.
  induction attendances as [|a l IH]; cbn [fold_right filter]; [reflexivity|].
  destruct (status a =? st); cbn [List.length]; lia.
Qed.

Lemma sum_of_ones {A} (l : list A) : sum_of (fun _ => 1) l = List.length l.
Proof.
  unfold sum_of. induction l as [|a l IH]; cbn [fold_right List.length]; lia.
Qed.

Lemma floor_loop_sum db (counter : counts -> nat) (delta : string -> nat) :
  counter no_counts = 0 ->
  (forall st c, counter (count_status st c) = counter c + delta st) ->
  forall attendances acc res,
    floor_loop db attendances acc = Some res ->
    sum_of (fun kv => counter (snd (snd kv))) res
    = sum_of (fun kv => counter (snd (snd kv))) acc
      + sum_of (fun a => delta (status a)) attendances.
Proof.
  intros H0 Hd.
  induction attendances as [|a l IH]; intros acc res; cbn [floor_loop].
  - intros H. injection H as <-. cbn. lia.
  - destruct (floor_of db a) as [fl|]; [|discriminate].
    intros H. rewrite (IH _ _ H).
    rewrite (dict_update_sum (fun v => counter (snd v)) _ _ _ _
               (delta (status a)));
      [unfold sum_of; cbn [fold_right]; lia|exact H0|].
    intros v. cbn. apply Hd.
Qed.

Lemma teacher_loop_sum db (counter : counts -> nat) (delta : string -> nat) :
  counter no_counts = 0 ->
  (forall st c, counter (count_status st c) = counter c + delta st) ->
  forall attendances acc res,
    teacher_loop db attendances acc = Some res ->
    sum_of (fun kv => counter (snd (fst (snd kv)))) res
    = sum_of (fun kv => counter (snd (fst (snd kv)))) acc
      + sum_of (fun a => delta (status a)) attendances.
Proof.
  intros H0 Hd.
  induction attendances as [|a l IH]; intros acc res; cbn [teacher_loop].
  - intros H. injection H as <-. cbn. lia.
  - destruct (teacher_of db a) as [t|]; [|discriminate].
    intros H. rewrite (IH _ _ H).
    rewrite (dict_update_sum (fun v => counter (snd (fst v))) _ _ _ _
               (delta (status a)));
      [unfold sum_of; cbn [fold_right]; lia|exact H0|].
    intros v. cbn. apply Hd.
Qed.

Lemma add_minutes_late a m : add_minutes a m = (m + late_minutes a)%Z.
Proof.
  unfold add_minutes, late_minutes. destruct (status a =? "Late"); [|lia].
  destruct (minutes_late a) as [x|]; [|lia].
  destruct (x =? 0)%Z eqn:E; [|reflexivity]. apply Z.eqb_eq in E. lia.
Qed.

Lemma teacher_loop_minutes db :
  forall attendances acc res,
    teacher_loop db attendances acc = Some res ->
    sum_minutes (fun kv => snd (snd kv)) res
    = (sum_minutes (fun kv => snd (snd kv)) acc
       + sum_minutes late_minutes attendances)%Z.
Proof.
  induction attendances as [|a l IH]; intros acc res; cbn [teacher_loop].
  - intros H. injection H as <-. cbn. lia.
  - destruct (teacher_of db a) as [t|]; [|discriminate].
    intros H. rewrite (IH _ _ H).
    rewrite (dict_update_minutes (fun v => snd v) _ _ _ _ (late_minutes a));
      [unfold sum_minutes; cbn [fold_right]; lia|reflexivity|].
    intros v. cbn. apply add_minutes_late.
Qed.

Lemma floor_loop_lines db :
  forall attendances acc res,
    floor_loop db attendances acc = Some res ->
    NoDup (map fst acc) ->
    Forall (fun kv => fst kv = floor_id (fst (snd kv))
                      /\ line_in_order (snd (snd kv))) acc ->
    NoDup (map fst res)
    /\ Forall (fun kv => fst kv = floor_id (fst (snd kv))
                         /\ line_in_order (snd (snd kv))) res.
Proof.
  induction attendances as [|a l IH]; intros acc res; cbn [floor_loop].
  - intros H. injection H as <-. auto.
  - destruct (floor_of db a) as [fl|]; [|discriminate].
    intros H Hk Hl. apply (IH _ _ H).
    + now apply dict_update_keys.
    + apply dict_update_Forall; [| |exact Hl].
      * cbn. split; [reflexivity|]. apply count_status_in_order. cbn. lia.
      * intros k v [H1 [H2 _]]. cbn. split; [exact H1|].
        now apply count_status_in_order.
Qed.

Lemma teacher_loop_lines db :
  forall attendances acc res,
    teacher_loop db attendances acc = Some res ->
    NoDup (map fst acc) ->
    Forall (fun kv => fst kv = teacher_id (fst (fst (snd kv)))
                      /\ line_in_order (snd (fst (snd kv)))) acc ->
    NoDup (map fst res)
    /\ Forall (fun kv => fst kv = teacher_id (fst (fst (snd kv)))
                         /\ line_in_order (snd (fst (snd kv)))) res.
Proof.
  induction attendances as [|a l IH]; intros acc res; cbn [teacher_loop].
  - intros H. injection H as <-. auto.
  - destruct (teacher_of db a) as [t|]; [|discriminate].
    intros H Hk Hl. apply (IH _ _ H).
    + now apply dict_update_keys.
    + apply dict_update_Forall; [| |exact Hl].
      * cbn. split; [reflexivity|]. apply count_status_in_order. cbn. lia.
      * intros k v [H1 [H2 _]]. cbn. split; [exact H1|].
        now apply count_status_in_order.
Qed.

Lemma sum_of_map {A B} (g : A -> B) (counter : B -> nat) l :
  sum_of counter (map g l) = sum_of (fun a => counter (g a)) l.
Proof.
  unfold sum_of. induction l as [|a l IH]; cbn [map fold_right];
    [reflexivity|now rewrite IH].
Qed.

Lemma sum_minutes_map {A B} (g : A -> B) (minutes : B -> Z) l :
  sum_minutes minutes (map g l) = sum_minutes (fun a => minutes (g a)) l.
Proof.
  unfold sum_minutes. induction l as [|a l IH]; cbn [map fold_right];
    [reflexivity|now rewrite IH].
Qed.

Lemma keyed_lines {V} (id_of : V -> nat) (d : list (nat * V)) :
  Forall (fun kv => fst kv = id_of (snd kv)) d ->
  map id_of (map snd d) = map fst d.
Proof.
  induction d as [|[k v] d IH]; intros H; cbn [map]; [reflexivity|].
  inversion H as [|? ? Hk Hd]; subst. cbn in Hk. cbn [fst snd].
  now rewrite <- Hk, IH.
Qed.

(** X19. The statistics of a day add up.  When [daily_statistics]
    renders, the lines by floor and the lines by teacher each count
    every row of the day once: their totals and their counts of
    'Present', 'Late' and 'Absent' sum to the figures of the day; there
    is one line for a floor and one for a teacher, each in order (the
    three status counters do not exceed the total, which is positive);
    and the minutes late of the teachers sum to those of the late
    rows. *)
Theorem daily_statistics_add_up (selected_date : date) (db : DB)
        (rows : list Attendance) (page : daily_page) :
  daily_statistics selected_date db rows = Some page ->
  let day := page_counts page in
  let attendances :=
    filter (fun a => date_eqb (attendance_date a) selected_date) rows in
  (sum_of (fun l => total (snd l)) (floor_stats page) = total day
   /\ sum_of (fun l => present (snd l)) (floor_stats page) = present day
   /\ sum_of (fun l => late (snd l)) (floor_stats page) = late day
   /\ sum_of (fun l => absent (snd l)) (floor_stats page) = absent day)
  /\ (sum_of (fun l => total (snd (fst l))) (teacher_stats page) = total day
      /\ sum_of (fun l => present (snd (fst l))) (teacher_stats page)
         = present day
      /\ sum_of (fun l => late (snd (fst l))) (teacher_stats page) = late day
      /\ sum_of (fun l => absent (snd (fst l))) (teacher_stats page)
         = absent day)
  /\ NoDup (map (fun l => floor_id (fst l)) (floor_stats page))
  /\ NoDup (map (fun l => teacher_id (fst (fst l))) (teacher_stats page))
  /\ Forall (fun l => line_in_order (snd l)) (floor_stats page)
  /\ Forall (fun l => line_in_order (snd (fst l))) (teacher_stats page)
  /\ sum_minutes snd (teacher_stats page)
     = sum_minutes late_minutes attendances
  /\ total day = List.length attendances.
Proof.
  unfold daily_statistics. cbv zeta.
  set (attendances := filter _ rows).
  destruct (floor_loop db attendances []) as [fs|] eqn:Ef; [|discriminate].
  destruct (teacher_loop db attendances []) as [ts|] eqn:Et; [|discriminate].
  intros H. injection H as <-. cbn [page_counts floor_stats teacher_stats
                                     total present late absent].
  assert (Hp : forall st c, present (count_status st c)
                            = present c + (if st =? "Present" then 1 else 0))
    by (intros; apply count_status_counter).
  assert (Hl : forall st c, late (count_status st c)
                            = late c + (if st =? "Late" then 1 else 0))
    by (intros; apply count_status_counter).
  assert (Ha : forall st c, absent (count_status st c)
                            = absent c + (if st =? "Absent" then 1 else 0))
    by (intros; apply count_status_counter).
  pose proof count_status_total as Ht.
  destruct (floor_loop_lines db attendances [] fs Ef (NoDup_nil _)
              (Forall_nil _)) as [Hfk Hfl].
  destruct (teacher_loop_lines db attendances [] ts Et (NoDup_nil _)
              (Forall_nil _)) as [Htk Htl].
  split; [|split; [|split; [|split; [|split; [|split; [|split]]]]]].
  - rewrite !sum_of_map.
    rewrite (floor_loop_sum db total (fun _ => 1) eq_refl Ht _ _ _ Ef),
      (floor_loop_sum db present _ eq_refl Hp _ _ _ Ef),
      (floor_loop_sum db late _ eq_refl Hl _ _ _ Ef),
      (floor_loop_sum db absent _ eq_refl Ha _ _ _ Ef).
    rewrite !sum_of_indicator, sum_of_ones. cbn. auto.
  - rewrite !sum_of_map.
    rewrite (teacher_loop_sum db total (fun _ => 1) eq_refl Ht _ _ _ Et),
      (teacher_loop_sum db present _ eq_refl Hp _ _ _ Et),
      (teacher_loop_sum db late _ eq_refl Hl _ _ _ Et),
      (teacher_loop_sum db absent _ eq_refl Ha _ _ _ Et).
    rewrite !sum_of_indicator, sum_of_ones. cbn. auto.
  - rewrite (keyed_lines (fun l : Floor * counts => floor_id (fst l)) fs);
      [exact Hfk|].
    eapply Forall_impl; [|exact Hfl]. intros kv [H _]. exact H.
  - rewrite (keyed_lines
               (fun l : Teacher * counts * Z => teacher_id (fst (fst l))) ts);
      [exact Htk|].
    eapply Forall_impl; [|exact Htl]. intros kv [H _]. exact H.
  - apply Forall_map. eapply Forall_impl; [|exact Hfl].
    intros kv [_ H]. exact H.
  - apply Forall_map. eapply Forall_impl; [|exact Htl].
    intros kv [_ H]. exact H.
  - rewrite sum_minutes_map.
    rewrite (teacher_loop_minutes db _ _ _ Et). cbn. lia.
  - reflexivity.
Qed.

Lemma daily_statistics_add_up_witness :
  let db := mk_db [mk_floor 1 "first" 1; mk_floor 2 "second" 2]
                  [mk_class 1 "7A" 1; mk_class 2 "8A" 2]
                  [mk_teacher 1 "Mr. Ali"; mk_teacher 2 "Ms. Mona"] [] [] in
  let today := mk_date 2025 1 14 in
  let rows := [mk_attendance 1 7 1 1 today "Late" (Some (mk_time 8 42))
                             (Some 12%Z) "";
               mk_attendance 2 8 2 1 today "Present" None None "";
               mk_attendance 3 9 2 2 (mk_date 2025 1 13) "Absent" None None "";
               mk_attendance 4 9 1 2 today "Excused" None None ""] in
  exists page,
    daily_statistics today db rows = Some page
    /\ page_counts page = mk_counts 1 1 0 3
    /\ sum_of (fun l => total (snd l)) (floor_stats page) = 3
    /\ sum_minutes snd (teacher_stats page) = 12%Z.
Proof.
  intros db today rows. eexists.
  assert (H : daily_statistics today db rows = Some _)
    by (vm_compute; reflexivity).
  split; [exact H|]. split; [reflexivity|].
  destruct (daily_statistics_add_up today db rows _ H)
    as ((H1 & _) & _ & _ & _ & _ & _ & H7 & _).
  split; [exact H1|]. rewrite H7. reflexivity.
Defined.
(** ** The import of all floors *)

Import AllFloors.








(** ** What the extractor of the remaining floors builds *)

Import RemainingFloors.

Lemma remaining_period_entry_valid cn day_num day_name r c p e :
  In (day_name, day_num) DAY_MAPPING ->
  strip cn = cn -> 2 <= String.length cn ->
  In p period_nums ->
  RemainingFloors.period_entry cn day_num day_name r (c, p) = Some e ->
  required_present e = true /\ on_timetable e /\ e_is_free e = false
  /\ e_period e = p.
Proof.
  intros Hd Hs Hl Hp.
  destruct (catalogue_interval p Hp) as (s & t & st & en & Hg & Hps & Hpt & Hlt).
  destruct (catalogue_complete p Hp)
    as (s' & t' & st' & en' & Hg' & Hts & Htt & _ & _).
  rewrite Hg in Hg'. injection Hg' as <- <-.
  unfold RemainingFloors.period_entry.
  destruct (List.length r <=? c)%nat; [discriminate|].
  destruct (negb (truthy_opt (nth c r None))); [discriminate|].
  destruct (RemainingFloors.extract_subject_and_teacher (str (nth c r None)))
    as [subject teacher].
  destruct (negb (truthy_opt subject) || negb (truthy_opt teacher)) eqn:Et;
    [discriminate|].
  apply orb_false_iff in Et. destruct Et as [Et1 Et2].
  apply negb_false_iff in Et1, Et2.
  rewrite Hg. cbn [truthy_opt str]. rewrite Hts, Htt. cbn [negb orb].
  rewrite Hps, Hpt. intros H. injection H as <-.
  split; [|split; [|split; reflexivity]].
  - unfold required_present. cbn. rewrite Et1, Et2.
    destruct cn; [cbn in Hl; lia|reflexivity].
  - split; [exists day_num; split; [reflexivity|exact Hd]|].
    split; [exact Hp|].
    split; [exists s, t, st, en; repeat split; assumption|].
    exists cn; repeat split; assumption.
Qed.

Lemma remaining_cell_period_In c p :
  RemainingFloors.cell_period c = Some p -> In p period_nums.
Proof.
  unfold RemainingFloors.cell_period.
  destruct (negb (truthy_opt c)); [discriminate|]. apply find_In.
Qed.

Lemma remaining_scan_row_periods r : forall col_idx c p,
  In (c, p) (fst (RemainingFloors.scan_row col_idx r)) -> In p period_nums.
Proof.
  induction r as [|c0 r IH]; intros col_idx c p;
    cbn [RemainingFloors.scan_row]; [intros []|].
  specialize (IH (S col_idx) c p).
  destruct (RemainingFloors.scan_row (S col_idx) r) as [cols count].
  destruct (RemainingFloors.cell_period c0) as [p0|] eqn:E; cbn [fst] in *;
    [|exact IH].
  intros [H|H]; [|now apply IH].
  injection H as _ <-. now apply remaining_cell_period_In in E.
Qed.

Lemma remaining_find_period_row_periods rows : forall i j cols c p,
  RemainingFloors.find_period_row_from i rows = Some (j, cols) ->
  In (c, p) cols -> In p period_nums.
Proof.
  induction rows as [|r rows IH]; intros i j cols c p;
    cbn [RemainingFloors.find_period_row_from]; [discriminate|].
  destruct (negb (nonempty r)); [apply IH|].
  pose proof (remaining_scan_row_periods r 0 c p) as Hr.
  destruct (RemainingFloors.scan_row 0 r) as [tmp count]. cbn [fst] in Hr.
  destruct (3 <=? count)%nat; [|apply IH].
  intros H. injection H as _ <-. exact Hr.
Qed.

Lemma insert_by_period_In item l x :
  In x (insert_by_period item l) <-> x = item \/ In x l.
Proof.
  induction l as [|y l IH]; cbn [insert_by_period In]; [intuition|].
  destruct (period_key item <=? period_key y)%nat; cbn [In];
    [intuition|]. rewrite IH. intuition.
Qed.

Lemma sorted_by_period_In cols x :
  In x (sorted_by_period cols) <-> In x cols.
Proof.
  unfold sorted_by_period.
  induction cols as [|y cols IH]; cbn [fold_right In]; [tauto|].
  rewrite insert_by_period_In, IH. intuition.
Qed.

Lemma insert_by_period_sorted item l :
  nondecreasing (map period_key l) ->
  nondecreasing (map period_key (insert_by_period item l)).
Proof.
  induction l as [|y l IH]; cbn [insert_by_period map nondecreasing].
  - intros _. split; [constructor|exact I].
  - intros [Hy Hl].
    destruct (period_key item <=? period_key y)%nat eqn:E;
      cbn [map nondecreasing].
    + apply Nat.leb_le in E. split; [|split; assumption].
      constructor; [exact E|].
      eapply Forall_impl; [|exact Hy]. intros a Ha. lia.
    + apply Nat.leb_gt in E. split; [|now apply IH].
      apply Forall_forall. intros k Hk. apply in_map_iff in Hk.
      destruct Hk as (x & <- & Hx). apply insert_by_period_In in Hx.
      destruct Hx as [->|Hx]; [lia|].
      apply (proj1 (Forall_forall _ _) Hy). now apply in_map.
Qed.

Lemma sorted_by_period_sorted cols :
  nondecreasing (map period_key (sorted_by_period cols)).
Proof.
  unfold sorted_by_period.
  induction cols as [|y cols IH]; cbn [fold_right]; [exact I|].
  now apply insert_by_period_sorted.
Qed.

Lemma keep_some_sorted {A B} (f : A -> option B) (key : A -> nat)
      (number : B -> nat) l :
  (forall a b, f a = Some b -> number b = key a) ->
  nondecreasing (map key l) ->
  nondecreasing (map number (keep_some f l)).
Proof.
  intros Hf. induction l as [|a l IH]; cbn [keep_some map nondecreasing];
    [auto|].
  intros [Ha Hl]. destruct (f a) as [b|] eqn:E; [|now apply IH].
  cbn [map nondecreasing]. split; [|now apply IH].
  apply Forall_forall. intros k Hk. apply in_map_iff in Hk.
  destruct Hk as (b' & <- & Hb'). apply keep_some_In in Hb'.
  destruct Hb' as (a' & Ha' & Hfa'). rewrite (Hf a b E), (Hf a' b' Hfa').
  apply (proj1 (Forall_forall _ _) Ha). now apply in_map.
Qed.

Lemma remaining_class_name_stripped r name :
  RemainingFloors.class_name_of r = Some name ->
  strip name = name /\ 2 <= String.length name.
Proof.
  unfold RemainingFloors.class_name_of.
  destruct (Timetable.class_name_of r) as [cn|] eqn:E; [|discriminate].
  destruct (existsb _ _); [discriminate|]. intros H. injection H as <-.
  now apply class_name_of_stripped with r.
Qed.

Lemma remaining_entry_origin pages e :
  In e (RemainingFloors.extract_schedules_from_pdf pages) ->
  exists cn day_num day_name r c p,
    In (day_name, day_num) DAY_MAPPING
    /\ strip cn = cn /\ 2 <= String.length cn
    /\ In p period_nums
    /\ RemainingFloors.period_entry cn day_num day_name r (c, p) = Some e.
Proof.
  unfold RemainingFloors.extract_schedules_from_pdf. intros H.
  apply in_flat_map in H. destruct H as (pg & _ & H).
  unfold RemainingFloors.page_entries in H.
  destruct (page_tables pg) as [|t others]; [destruct H|].
  destruct (Complete.resolve_day t pg) as [[day_name day_num]|] eqn:Ed;
    [|destruct H].
  apply resolve_day_mapped in Ed.
  destruct (RemainingFloors.find_period_row t) as [[i cols]|] eqn:Ef;
    [|destruct H].
  destruct (negb (nonempty cols)); [destruct H|].
  apply in_flat_map in H. destruct H as (r & _ & H).
  unfold RemainingFloors.row_entries in H.
  destruct (RemainingFloors.class_name_of r) as [cn|] eqn:Ec; [|destruct H].
  destruct (remaining_class_name_stripped r cn Ec) as [Hs Hl].
  apply keep_some_In in H. destruct H as ([c p] & Hin & H).
  apply (proj1 (sorted_by_period_In _ _)) in Hin.
  exists cn, day_num, day_name, r, c, p.
  split; [exact Ed|]. split; [exact Hs|]. split; [exact Hl|].
  split; [|exact H].
  unfold RemainingFloors.find_period_row in Ef.
  exact (remaining_find_period_row_periods _ _ _ _ c p Ef Hin).
Qed.

Lemma remaining_entry_valid pages e :
  In e (RemainingFloors.extract_schedules_from_pdf pages) ->
  required_present e = true /\ on_timetable e /\ e_is_free e = false.
Proof.
  intros He.
  destruct (remaining_entry_origin pages e He)
    as (cn & day_num & day_name & r & c & p & Hd & Hs & Hl & Hp & H).
  destruct (remaining_period_entry_valid cn day_num day_name r c p e
              Hd Hs Hl Hp H) as (H1 & H2 & H3 & _).
  split; [exact H1|]. split; [exact H2|exact H3].
Qed.

(** X21. What the extractor of the remaining floors builds.  Every
    entry has all the fields the importer of the same script requires,
    lies on the timetable (a day of DAY_MAPPING, a period of '1'..'10'
    with its interval of TIME_PERIODS, a stripped class name of two
    characters at least) and is a taught period; and the entries of a
    class row come in the order of their period numbers, as the sort of
    the period columns intends. *)
Theorem remaining_extraction_valid (pages : list page) :
  Forall (fun e => required_present e = true /\ on_timetable e
                   /\ e_is_free e = false)
         (RemainingFloors.extract_schedules_from_pdf pages)
  /\ forall day_num day_name period_columns r,
      nondecreasing
        (map period_number
             (RemainingFloors.row_entries day_num day_name period_columns r)).
Proof.
  split.
  - apply Forall_forall. intros e He.
    now apply remaining_entry_valid with pages.
  - intros day_num day_name cols r. unfold RemainingFloors.row_entries.
    destruct (RemainingFloors.class_name_of r) as [cn|]; [|exact I].
    apply (keep_some_sorted _ period_key).
    + intros [c p] e H. unfold period_number, period_key. cbn [snd].
      unfold RemainingFloors.period_entry in H.
      destruct (List.length r <=? c)%nat; [discriminate|].
      destruct (negb (truthy_opt (nth c r None))); [discriminate|].
      destruct (RemainingFloors.extract_subject_and_teacher _)
        as [subject teacher].
      destruct (negb (truthy_opt subject) || negb (truthy_opt teacher));
        [discriminate|].
      destruct (dict_get TIME_PERIODS p) as [[s t]|];
        [|cbn in H; discriminate].
      destruct (negb (truthy_opt (Some s)) || negb (truthy_opt (Some t)));
        [discriminate|].
      destruct (parse_time (str (Some s))); [|discriminate].
      destruct (parse_time (str (Some t))); [|discriminate].
      injection H as <-. reflexivity.
    + apply sorted_by_period_sorted.
Qed.



(** ** The delete routes and the constraints *)

Lemma filter_out_one {A} (key : A -> nat) (l : list A) a :
  NoDup (map key l) -> In a l ->
  S (List.length (filter (fun x => negb (key x =? key a)%nat) l))
  = List.length l.
Proof.
  induction l as [|b l IH]; cbn [map filter In List.length]; [intros _ []|].
  intros H Hin. inversion H as [|? ? Hb Hl]; subst.
  destruct (key b =? key a)%nat eqn:E; cbn [negb List.length].
  - apply Nat.eqb_eq in E. f_equal.
    assert (Hall : forallb (fun x => negb (key x =? key a)%nat) l = true).
    { apply forallb_forall. intros x Hx.
      destruct (key x =? key a)%nat eqn:Ex; [|reflexivity].
      apply Nat.eqb_eq in Ex. exfalso. apply Hb. rewrite E, <- Ex.
      now apply in_map. }
    clear -Hall. induction l as [|x l IH]; [reflexivity|].
    cbn [forallb] in Hall. apply andb_true_iff in Hall.
    destruct Hall as [Hx Hl]. cbn [filter]. rewrite Hx. cbn [List.length].
    now rewrite IH.
  - destruct Hin as [->|Hin]; [now rewrite Nat.eqb_refl in E|].
    f_equal. now apply IH.
Qed.

Lemma in_map_filter_out {A} (key : A -> nat) (l : list A) id n :
  In n (map key l) -> n <> id ->
  In n (map key (filter (fun x => negb (key x =? id)%nat) l)).
Proof.
  intros Hin Hne. apply in_map_iff in Hin. destruct Hin as (x & <- & Hx).
  apply in_map, filter_In. split; [exact Hx|].
  apply negb_true_iff, Nat.eqb_neq. exact Hne.
Qed.

Lemma not_in_filter_out {A} (key : A -> nat) (l : list A) id :
  ~ In id (map key (filter (fun x => negb (key x =? id)%nat) l)).
Proof.
  intros Hin. apply in_map_iff in Hin. destruct Hin as (x & Hk & Hx).
  apply filter_In in Hx. destruct Hx as [_ Hx].
  apply negb_true_iff, Nat.eqb_neq in Hx. contradiction.
Qed.

Lemma filter_empty_none {A} (test : A -> bool) l x :
  nonempty (filter test l) = false -> In x l -> test x = false.
Proof.
  intros He Hx. destruct (test x) eqn:E; [|reflexivity].
  assert (Hin : In x (filter test l)) by (apply filter_In; auto).
  destruct (filter test l); [destruct Hin|discriminate].
Qed.

(** X23. The delete routes keep the store in order.  Whatever
    [delete_teacher] and [delete_subject] answer, a store that satisfies
    the constraints of the models and has distinct keys still does
    afterwards: the guard refuses exactly the deletes that would leave a
    Schedule row without its teacher or subject.  A delete that goes
    through removes the one row of that id and nothing else; any other
    answer leaves the store as it was. *)
Theorem delete_routes_keep_constraints (id : nat) (db : DB) :
  constraints_hold db ->
  keys_distinct db ->
  (let r := App.delete_teacher id db in
   constraints_hold (fst r) /\ keys_distinct (fst r)
   /\ match snd r with
      | App.Deleted =>
          ~ In id (map teacher_id (teachers (fst r)))
          /\ S (List.length (teachers (fst r))) = List.length (teachers db)
          /\ schedules (fst r) = schedules db
          /\ subjects (fst r) = subjects db
          /\ classes (fst r) = classes db /\ floors (fst r) = floors db
      | _ => fst r = db
      end)
  /\ (let r := App.delete_subject id db in
      constraints_hold (fst r) /\ keys_distinct (fst r)
      /\ match snd r with
         | App.Deleted =>
             ~ In id (map subject_id (subjects (fst r)))
             /\ S (List.length (subjects (fst r))) = List.length (subjects db)
             /\ schedules (fst r) = schedules db
             /\ teachers (fst r) = teachers db
             /\ classes (fst r) = classes db /\ floors (fst r) = floors db
         | _ => fst r = db
         end).
Proof.
  intros [H1 H2 H3 H4 H5 H6 H7 H8 H9] [K1 K2 K3]. split; cbv zeta.
  - unfold App.delete_teacher.
    destruct (find _ (teachers db)) as [t|] eqn:Ef;
      [|cbn; split; [now constructor|split; [now constructor|reflexivity]]].
    apply find_some in Ef. destruct Ef as [Hin Heq].
    apply Nat.eqb_eq in Heq.
    destruct (nonempty (App.teacher_schedules t db)) eqn:Ene;
      [cbn; split; [now constructor|split; [now constructor|reflexivity]]|].
    cbn [fst snd teachers schedules subjects classes floors].
    split; [|split].
    + constructor; cbn [floors classes teachers subjects schedules];
        try assumption.
      * now apply NoDup_map_filter.
      * apply Forall_forall. intros x Hxin.
        destruct (proj1 (Forall_forall _ _) H9 x Hxin) as (Ha & Hb & Hc).
        split; [exact Ha|]. split; [|exact Hc].
        apply in_map_filter_out; [exact Hb|].
        pose proof (filter_empty_none _ _ x Ene Hxin) as Hn. cbn in Hn.
        apply Nat.eqb_neq in Hn. congruence.
    + constructor; cbn [classes teachers schedules]; try assumption.
      now apply NoDup_map_filter.
    + split; [apply not_in_filter_out|].
      split; [rewrite <- Heq; now apply filter_out_one|].
      split; [reflexivity|]. split; [reflexivity|]. split; reflexivity.
  - unfold App.delete_subject.
    destruct (find _ (subjects db)) as [x0|] eqn:Ef;
      [|cbn; split; [now constructor|split; [now constructor|reflexivity]]].
    apply find_some in Ef. destruct Ef as [Hin Heq].
    apply Nat.eqb_eq in Heq.
    destruct (nonempty (App.subject_schedules x0 db)) eqn:Ene;
      [cbn; split; [now constructor|split; [now constructor|reflexivity]]|].
    cbn [fst snd teachers schedules subjects classes floors].
    split; [|split].
    + constructor; cbn [floors classes teachers subjects schedules];
        try assumption.
      * now apply NoDup_map_filter.
      * now apply NoDup_map_filter.
      * apply Forall_forall. intros x Hxin.
        destruct (proj1 (Forall_forall _ _) H9 x Hxin) as (Ha & Hb & Hc).
        split; [exact Ha|]. split; [exact Hb|].
        apply in_map_filter_out; [exact Hc|].
        pose proof (filter_empty_none _ _ x Ene Hxin) as Hn. cbn in Hn.
        apply Nat.eqb_neq in Hn. congruence.
    + constructor; cbn [classes teachers schedules]; assumption.
    + split; [apply not_in_filter_out|].
      split; [rewrite <- Heq; now apply filter_out_one|].
      split; [reflexivity|]. split; [reflexivity|]. split; reflexivity.
Qed.

Lemma delete_routes_keep_constraints_witness :
  let db := mk_db [mk_floor 1 "first" 2] [mk_class 1 "7A" 1]
                  [mk_teacher 1 "Mr. Ali"; mk_teacher 2 "Ms. Mona"]
                  [mk_subject 1 "Math"]
                  [mk_schedule 1 1 1 1 1 (mk_time 8 30) (mk_time 9 5)] in
  snd (App.delete_teacher 1 db) = App.Refused
  /\ snd (App.delete_teacher 2 db) = App.Deleted
  /\ constraints_hold (fst (App.delete_teacher 2 db))
  /\ teachers (fst (App.delete_teacher 2 db)) = [mk_teacher 1 "Mr. Ali"].
Proof.
  intros db.
  assert (Hc : constraints_hold db).
  { constructor; cbn; repeat (constructor; cbn; try tauto);
      intuition discriminate. }
  assert (Hk : keys_distinct db).
  { constructor; cbn; repeat (constructor; cbn; try tauto);
      intuition discriminate. }
  split; [reflexivity|]. split; [reflexivity|].
  destruct (delete_routes_keep_constraints 2 db Hc Hk) as [(H & _) _].
  split; [exact H|reflexivity].
Defined.
(** ** The classifier of the remaining floors *)

(** X24. The classifier of import_remaining_floors.py is the complete
    classifier without two of its keywords.  On a cell that holds
    neither 'snack' nor 'prayer' the two return the same pair; on a cell
    that holds one of them the complete classifier returns no pair.  So
    whatever the complete classifier accepts, this one accepts with the
    same subject and teacher. *)
Theorem remaining_classifier_vs_complete (cell_text : string) :
  (if existsb (fun kw => str_in kw (lower (strip cell_text)))
              ["snack"; "prayer"]
   then Complete.extract_subject_and_teacher cell_text = (None, None)
   else RemainingFloors.extract_subject_and_teacher cell_text
        = Complete.extract_subject_and_teacher cell_text)
  /\ forall subject teacher,
      Complete.extract_subject_and_teacher cell_text
      = (Some subject, Some teacher) ->
      RemainingFloors.extract_subject_and_teacher cell_text
      = (Some subject, Some teacher).
Proof.
  unfold RemainingFloors.extract_subject_and_teacher,
    Complete.extract_subject_and_teacher.
  assert (Hk : forall f,
             existsb f Complete.skip_keywords
             = existsb f RemainingFloors.skip_keywords
               || existsb f ["snack"; "prayer"]).
  { intros f. change Complete.skip_keywords
      with (RemainingFloors.skip_keywords ++ ["snack"; "prayer"])%list.
    apply existsb_app. }
  rewrite Hk.
  destruct (negb (truthy cell_text) || (strip cell_text =? "")) eqn:E0.
  - split; [|discriminate].
    destruct (existsb _ ["snack"; "prayer"]); reflexivity.
  - destruct (existsb _ RemainingFloors.skip_keywords);
      destruct (existsb _ ["snack"; "prayer"]); cbn [orb];
      split; try reflexivity; try discriminate; auto.
Qed.

Lemma remaining_classifier_vs_complete_witness :
  let cell := "Math" ++ nl ++ "Mr. Ali" in
  Complete.extract_subject_and_teacher cell = (Some "Math", Some "Mr. Ali")
  /\ RemainingFloors.extract_subject_and_teacher cell
     = (Some "Math", Some "Mr. Ali")
  /\ RemainingFloors.extract_subject_and_teacher "Snack time"
     = (Some "Snack time", Some "Unknown Teacher")
  /\ Complete.extract_subject_and_teacher "Snack time" = (None, None).
Proof.
  intros cell. split; [reflexivity|]. split.
  - exact (proj2 (remaining_classifier_vs_complete cell) "Math" "Mr. Ali"
             eq_refl).
  - split; reflexivity.
Defined.
(** ** The days of a class *)

Import Views.

Lemma insert_day_In d l x : In x (insert_day d l) <-> x = d \/ In x l.
Proof.
  induction l as [|y l IH]; cbn [insert_day In]; [intuition|].
  destruct (d <? y)%nat; cbn [In]; [intuition|].
  destruct (d =? y)%nat eqn:E; cbn [In].
  - apply Nat.eqb_eq in E. subst. intuition.
  - rewrite IH. intuition.
Qed.

Lemma insert_day_increasing d l lo :
  increasing_from lo l -> lo <= d -> increasing_from lo (insert_day d l).
Proof.
  revert lo. induction l as [|y l IH]; intros lo; cbn [insert_day].
  - intros _ H. cbn. auto.
  - cbn [increasing_from]. intros [H1 H2] Hd.
    destruct (d <? y)%nat eqn:E1.
    + apply Nat.ltb_lt in E1. cbn [increasing_from]. repeat split; auto.
    + destruct (d =? y)%nat eqn:E2; cbn [increasing_from]; [auto|].
      apply Nat.ltb_ge in E1. apply Nat.eqb_neq in E2.
      split; [exact H1|]. apply IH; [exact H2|lia].
Qed.

Lemma sorted_set_spec days :
  increasing_from 0 (sorted_set days)
  /\ forall x, In x (sorted_set days) <-> In x days.
Proof.
  unfold sorted_set. induction days as [|d days [IH1 IH2]]; cbn [fold_right].
  - split; [exact I|tauto].
  - split; [apply insert_day_increasing; [exact IH1|lia]|].
    intros x. rewrite insert_day_In, IH2. cbn [In]. intuition.
Qed.

Lemma count_one_day ds d :
  NoDup ds -> In d ds ->
  sum_of (fun d' => if (d =? d')%nat then 1 else 0) ds = 1.
Proof.
  unfold sum_of.
  induction ds as [|y ds IH]; cbn [fold_right In]; [intros _ []|].
  intros H Hin. inversion H as [|? ? Hy Hds]; subst.
  destruct (d =? y)%nat eqn:E.
  - apply Nat.eqb_eq in E. subst y.
    assert (H0 : fold_right (fun d' n => (if (d =? d')%nat then 1 else 0) + n)
                            0 ds = 0).
    { clear -Hy. induction ds as [|z ds IH]; [reflexivity|].
      cbn [fold_right].
      destruct (d =? z)%nat eqn:Ez.
      - apply Nat.eqb_eq in Ez. subst. exfalso. apply Hy. now left.
      - rewrite IH; [reflexivity|]. intros Hin. apply Hy. now right. }
    rewrite H0. reflexivity.
  - destruct Hin as [->|Hin]; [now rewrite Nat.eqb_refl in E|].
    now rewrite IH.
Qed.

(** Rows counted day by day are all counted once. *)
Lemma count_by_day {A} (day_of : A -> nat) (l : list A) ds :
  NoDup ds -> (forall x, In x l -> In (day_of x) ds) ->
  sum_of (fun d => List.length (filter (fun x => (day_of x =? d)%nat) l)) ds
  = List.length l.
Proof.
  intros Hds. induction l as [|x l IH]; intros Hin.
  - unfold sum_of. cbn. clear. induction ds; cbn; auto.
  - assert (Hsplit :
      sum_of (fun d => List.length
                         (filter (fun y => (day_of y =? d)%nat) (x :: l))) ds
      = sum_of (fun d => if (day_of x =? d)%nat then 1 else 0) ds
        + sum_of (fun d => List.length
                             (filter (fun y => (day_of y =? d)%nat) l)) ds).
    { unfold sum_of. clear. induction ds as [|d ds IHd]; cbn [fold_right];
        [reflexivity|].
      rewrite IHd. cbn [filter]. destruct (day_of x =? d)%nat;
        cbn [List.length]; lia. }
    rewrite Hsplit, IH, count_one_day; auto.
    + apply Hin. now left.
    + intros y Hy. apply Hin. now right.
Qed.

Lemma sum_of_ext {A} (f g : A -> nat) l :
  (forall a, f a = g a) -> sum_of f l = sum_of g l.
Proof.
  intros H. unfold sum_of. induction l as [|a l IH]; cbn [fold_right];
    [reflexivity|now rewrite H, IH].
Qed.

Lemma filter_and {A} (p q : A -> bool) l :
  filter (fun x => p x && q x) l = filter q (filter p l).
Proof.
  induction l as [|a l IH]; cbn [filter]; [reflexivity|].
  destruct (p a); cbn [andb filter]; [destruct (q a); now rewrite IH|exact IH].
Qed.

(** X25. The days of a class.  When [class_detail] renders, its
    [days_data] lists the days on which the class has a schedule, each
    once and in increasing order; every line counts one schedule at
    least, the counts add up to the number of schedules of the class, and
    at most one line is marked as today. *)
Theorem class_detail_counts (class_id' current_day : nat) (db : DB)
        (days_data : list day_line) :
  class_detail class_id' current_day db = Some days_data ->
  let schedules' :=
    filter (fun s => (schedule_class_id s =? class_id')%nat) (schedules db) in
  increasing_from 0 (map number days_data)
  /\ (forall d, In d (map number days_data)
                <-> In d (map day_of_week schedules'))
  /\ Forall (fun line => 0 < schedules_count line) days_data
  /\ sum_of schedules_count days_data = List.length schedules'
  /\ List.length (filter is_today days_data) <= 1.
Proof.
  unfold class_detail.
  destruct (find _ (classes db)); [|discriminate].
  cbv zeta. set (rows := filter _ (schedules db)).
  intros H. injection H as <-.
  destruct (sorted_set_spec (map day_of_week rows)) as [Hinc Hin].
  assert (Hnum : map number
                     (map (fun day_num =>
                             mk_day_line day_num
                               (List.length
                                  (filter (fun s =>
                                             (schedule_class_id s
                                              =? class_id')%nat
                                             && (day_of_week s =? day_num)%nat)
                                          (schedules db)))
                               (day_num =? current_day)%nat)
                          (sorted_set (map day_of_week rows)))
                 = sorted_set (map day_of_week rows)).
  { rewrite map_map. cbn [number]. apply map_id. }
  rewrite Hnum.
  split; [exact Hinc|]. split; [exact Hin|]. split; [|split].
  - apply Forall_map, Forall_forall. intros d Hd. cbn [schedules_count].
    apply Hin, in_map_iff in Hd. destruct Hd as (x & Hx & Hxin).
    rewrite filter_and. fold rows.
    assert (Hf : In x (filter (fun s => (day_of_week s =? d)%nat) rows)).
    { apply filter_In. split; [exact Hxin|]. now apply Nat.eqb_eq. }
    destruct (filter _ rows); [destruct Hf|cbn; lia].
  - rewrite sum_of_map. cbn [schedules_count].
    rewrite <- (count_by_day day_of_week rows
                  (sorted_set (map day_of_week rows))).
    + apply sum_of_ext. intros d. now rewrite filter_and.
    + now apply increasing_from_NoDup with 0.
    + intros x Hx. apply Hin. now apply in_map.
  - assert (Hnd : NoDup (sorted_set (map day_of_week rows)))
      by now apply increasing_from_NoDup with 0.
    clear -Hnd. induction (sorted_set (map day_of_week rows)) as [|d ds IHd];
      [cbn; lia|].
    inversion Hnd as [|? ? Hd Hds]; subst. cbn [map filter is_today].
    destruct (d =? current_day)%nat eqn:E; [|now apply IHd].
    apply Nat.eqb_eq in E. subst d. cbn [List.length].
    assert (H0 : filter is_today
                   (map (fun day_num =>
                           mk_day_line day_num
                             (List.length
                                (filter (fun s =>
                                           (schedule_class_id s
                                            =? class_id')%nat
                                           && (day_of_week s =? day_num)%nat)
                                        (schedules db)))
                             (day_num =? current_day)%nat) ds) = []).
    { clear -Hd. induction ds as [|z ds IH]; [reflexivity|].
      cbn [map filter is_today].
      destruct (z =? current_day)%nat eqn:Ez.
      - apply Nat.eqb_eq in Ez. subst. exfalso. apply Hd. now left.
      - apply IH. intros Hin. apply Hd. now right. }
    rewrite H0. cbn. lia.
Qed.

Lemma class_detail_counts_witness :
  let db := mk_db [mk_floor 1 "first" 2] [mk_class 1 "7A" 1] [] []
                  [mk_schedule 1 1 1 1 3 (mk_time 8 30) (mk_time 9 5);
                   mk_schedule 2 1 1 1 1 (mk_time 8 30) (mk_time 9 5);
                   mk_schedule 3 2 1 1 1 (mk_time 8 30) (mk_time 9 5);
                   mk_schedule 4 1 1 1 3 (mk_time 9 5) (mk_time 9 40)] in
  class_detail 1 3 db
  = Some [mk_day_line 1 1 false; mk_day_line 3 2 true]
  /\ sum_of schedules_count [mk_day_line 1 1 false; mk_day_line 3 2 true] = 3.
Proof.
  intros db. split; [reflexivity|].
  destruct (class_detail_counts 1 3 db _ eq_refl) as (_ & _ & _ & H & _).
  exact H.
Defined.
(** ** An extraction and the import of its entries *)

(** ** The figures of the verification *)

Import VerifyDatabase.

Lemma place_floor_In f l x : In x (place_floor f l) <-> x = f \/ In x l.
Proof.
  induction l as [|y l IH]; cbn [place_floor In]; [intuition|].
  destruct (floor_number f <=? floor_number y)%nat; cbn [In];
    [intuition|]. rewrite IH. intuition.
Qed.

Lemma place_floor_sum (g : Floor -> nat) f l :
  sum_of g (place_floor f l) = g f + sum_of g l.
Proof.
  unfold sum_of. induction l as [|y l IH]; cbn [place_floor fold_right];
    [reflexivity|].
  destruct (floor_number f <=? floor_number y)%nat; cbn [fold_right];
    [reflexivity|]. rewrite IH. lia.
Qed.

Lemma place_floor_ids f l :
  NoDup (map floor_id (f :: l)) -> NoDup (map floor_id (place_floor f l)).
Proof.
  induction l as [|y l IH]; cbn [place_floor]; [auto|].
  destruct (floor_number f <=? floor_number y)%nat; [auto|].
  cbn [map]. intros H. inversion H as [|? ? Hf Hrest]; subst.
  inversion Hrest as [|? ? Hy Hl]; subst.
  constructor.
  - intros Hin. apply in_map_iff in Hin. destruct Hin as (x & Hx & Hxin).
    apply place_floor_In in Hxin. destruct Hxin as [->|Hxin].
    + apply Hf. left. now rewrite Hx.
    + apply Hy. rewrite <- Hx. now apply in_map.
  - apply IH. cbn [map]. constructor; [|exact Hl].
    intros Hin. apply Hf. now right.
Qed.

Lemma floors_by_number_spec db (g : Floor -> nat) :
  sum_of g (floors_by_number db) = sum_of g (floors db)
  /\ (forall x, In x (floors_by_number db) <-> In x (floors db))
  /\ (NoDup (map floor_id (floors db)) ->
      NoDup (map floor_id (floors_by_number db))).
Proof.
  unfold floors_by_number.
  induction (floors db) as [|f l (IH1 & IH2 & IH3)]; cbn [fold_right].
  - split; [reflexivity|]. split; [tauto|auto].
  - split; [|split].
    + rewrite place_floor_sum, IH1. reflexivity.
    + intros x. rewrite place_floor_In, IH2. cbn [In]. intuition.
    + intros H. apply place_floor_ids. cbn [map].
      inversion H as [|? ? Hf Hl]; subst. constructor; [|now apply IH3].
      intros Hin. apply Hf. apply in_map_iff in Hin.
      destruct Hin as (x & Hx & Hxin). rewrite <- Hx. apply in_map.
      now apply IH2.
Qed.

(** Weights added key by key are all added once. *)
Lemma sum_by_key {A} (key : A -> nat) (weight : A -> nat) (l : list A) ds :
  NoDup ds -> (forall x, In x l -> In (key x) ds) ->
  sum_of (fun d => sum_of weight (filter (fun x => (key x =? d)%nat) l)) ds
  = sum_of weight l.
Proof.
  intros Hds. induction l as [|x l IH]; intros Hin.
  - unfold sum_of. cbn. clear. induction ds; cbn; auto.
  - assert (Hsplit :
      sum_of (fun d => sum_of weight
                         (filter (fun y => (key y =? d)%nat) (x :: l))) ds
      = weight x * sum_of (fun d => if (key x =? d)%nat then 1 else 0) ds
        + sum_of (fun d => sum_of weight
                             (filter (fun y => (key y =? d)%nat) l)) ds).
    { unfold sum_of. clear. induction ds as [|d ds IHd]; cbn [fold_right];
        [lia|].
      rewrite IHd. cbn [filter]. destruct (key x =? d)%nat;
        cbn [fold_right]; lia. }
    rewrite Hsplit, IH, count_one_day; auto.
    + unfold sum_of. cbn [fold_right]. lia.
    + apply Hin. now left.
    + intros y Hy. apply Hin. now right.
Qed.

Lemma fold_left_sum {A} (weight : A -> nat) l n :
  fold_left (fun n c => n + weight c) l n = n + sum_of weight l.
Proof.
  unfold sum_of. revert n. induction l as [|a l IH]; intros n;
    cbn [fold_left fold_right]; [lia|]. rewrite IH. lia.
Qed.

Lemma sum_of_ext_in {A} (f g : A -> nat) l :
  (forall a, In a l -> f a = g a) -> sum_of f l = sum_of g l.
Proof.
  unfold sum_of. induction l as [|a l IH]; intros H; cbn [fold_right];
    [reflexivity|].
  rewrite (H a (or_introl eq_refl)), IH; [reflexivity|].
  intros b Hb. apply H. now right.
Qed.

(** X27. The figures of verify_database.py add up.  On a store that
    satisfies the constraints of the models, the floor-by-floor
    breakdown lists every floor once, counts every class under its
    floor and every Schedule row under the floor of its class: the
    classes of the floors sum to the number of classes, and the
    schedules of the floors to the number of Schedule rows.  The
    distribution by day counts the rows whose day is 0..6, each once. *)
Theorem verify_breakdown_adds_up (db : DB) :
  constraints_hold db ->
  List.length (floor_breakdown db) = List.length (floors db)
  /\ NoDup (map (fun r => floor_id (report_floor r)) (floor_breakdown db))
  /\ sum_of classes_count (floor_breakdown db) = List.length (classes db)
  /\ sum_of floor_schedules_count (floor_breakdown db)
     = List.length (schedules db)
  /\ sum_of (fun n => n) (day_distribution db)
     = List.length (filter (fun s => (day_of_week s <? 7)%nat) (schedules db)).
Proof.
  intros [H1 H2 H3 H4 H5 H6 H7 H8 H9].
  destruct (floors_by_number_spec db (fun _ => 1)) as (Hlen & Hin & Hnd).
  specialize (Hnd H1).
  assert (Hfloors : forall c, In c (classes db) ->
                      In (class_floor_id c)
                         (map floor_id (floors_by_number db))).
  { intros c Hc. pose proof (proj1 (Forall_forall _ _) H8 c Hc) as Hf.
    apply in_map_iff in Hf. destruct Hf as (f & Hf & Hfin).
    rewrite <- Hf. apply in_map. now apply Hin. }
  unfold floor_breakdown. split; [|split; [|split; [|split]]].
  - rewrite length_map, <- !sum_of_ones. exact Hlen.
  - rewrite map_map. cbn [report_floor]. exact Hnd.
  - rewrite sum_of_map. cbn [classes_count].
    rewrite <- (sum_of_ones (classes db)).
    rewrite <- (sum_by_key class_floor_id (fun _ => 1) (classes db)
                  (map floor_id (floors_by_number db)) Hnd Hfloors).
    rewrite sum_of_map. apply sum_of_ext. intros f.
    now rewrite sum_of_ones.
  - rewrite sum_of_map. cbn [floor_schedules_count].
    assert (Hclasses : sum_of (class_schedules_count db) (classes db)
                       = List.length (schedules db)).
    { unfold class_schedules_count.
      rewrite <- (sum_of_ones (schedules db)).
      rewrite <- (sum_by_key schedule_class_id (fun _ => 1) (schedules db)
                    (map class_id (classes db)) H2).
      - rewrite sum_of_map. apply sum_of_ext. intros c.
        now rewrite sum_of_ones.
      - intros x Hx. now destruct (proj1 (Forall_forall _ _) H9 x Hx). }
    rewrite <- Hclasses.
    rewrite <- (sum_by_key class_floor_id (class_schedules_count db)
                  (classes db) (map floor_id (floors_by_number db))
                  Hnd Hfloors).
    rewrite sum_of_map. apply sum_of_ext. intros f.
    now rewrite fold_left_sum.
  - unfold day_distribution. rewrite sum_of_map.
    rewrite <- (count_by_day day_of_week
                  (filter (fun s => (day_of_week s <? 7)%nat) (schedules db))
                  (seq 0 7)).
    + apply sum_of_ext_in. intros d Hd. apply in_seq in Hd.
      rewrite <- filter_and. f_equal. apply filter_ext. intros x.
      destruct (day_of_week x =? d)%nat eqn:E;
        [|now rewrite andb_false_r].
      apply Nat.eqb_eq in E. rewrite andb_true_r. symmetry.
      apply Nat.ltb_lt. lia.
    + apply seq_NoDup.
    + intros x Hx. apply filter_In in Hx. destruct Hx as [_ Hx].
      apply Nat.ltb_lt in Hx. apply in_seq. lia.
Qed.

Lemma verify_breakdown_adds_up_witness :
  let db := mk_db [mk_floor 1 "second" 2; mk_floor 2 "first" 1]
                  [mk_class 1 "7A" 1; mk_class 2 "3A" 2; mk_class 3 "7B" 1]
                  [mk_teacher 1 "Mr. Ali"] [mk_subject 1 "Math"]
                  [mk_schedule 1 1 1 1 1 (mk_time 8 30) (mk_time 9 5);
                   mk_schedule 2 3 1 1 1 (mk_time 8 30) (mk_time 9 5);
                   mk_schedule 3 2 1 1 6 (mk_time 8 30) (mk_time 9 5)] in
  floor_breakdown db
  = [mk_floor_report (mk_floor 2 "first" 1) 1 1;
     mk_floor_report (mk_floor 1 "second" 2) 2 2]
  /\ sum_of floor_schedules_count (floor_breakdown db) = 3
  /\ day_distribution db = [0; 2; 0; 0; 0; 0; 1].
Proof.
  intros db.
  assert (Hc : constraints_hold db).
  { constructor; cbn; repeat (constructor; cbn; try tauto);
      intuition discriminate. }
  split; [reflexivity|].
  destruct (verify_breakdown_adds_up db Hc) as (_ & _ & _ & H & _).
  split; [exact H|reflexivity].
Defined.
